(** * etc-copilot: the conversation session engine, its attachment
      extractor and its two persistence adapters.

    The development follows the TypeScript sources
    [ChatStorage.ts] (local adapter), [ChatStorageSharePoint.ts]
    (remote adapter and the [Chat] component) and [IChatProps.ts]
    (the data model).

    Conventions of the embedding.
    - A JavaScript string is a sequence of code units.  It is modelled by
      [string]; one [ascii] stands for one code unit below 256, so the
      model covers the strings whose code units are all below 256.
    - [length], indices and sizes are integers ([Z]).
    - An optional property [p?: T] is [option T]; [undefined] is [None].
    - A function that can throw returns a [Result].
    - React state is a record; a handler is a function from the state in
      its closure to the state after its queued updates were applied in
      order. *)

From Stdlib Require Import ZArith List String Ascii Bool Lia DecimalString.
From Stdlib Require Import Permutation Sorted.
Import ListNotations.

Open Scope string_scope.
Open Scope Z_scope.

(* ================================================================= *)
(** ** JavaScript string primitives used by the sources *)

Module Js.

Definition strlen (s : string) : Z := Z.of_nat (String.length s).

(** White space of [String.prototype.trim] among the code units below
    256: TAB, LF, VT, FF, CR, SP and NBSP. *)
Definition isWhiteSpace (c : ascii) : bool :=
  let n := N_of_ascii c in
  (((9 <=? n) && (n <=? 13)) || (n =? 32) || (n =? 160))%N.

Fixpoint trimStart (s : string) : string :=
  match s with
  | EmptyString => EmptyString
  | String c r => if isWhiteSpace c then trimStart r else s
  end.

Fixpoint trimEnd (s : string) : string :=
  match s with
  | EmptyString => EmptyString
  | String c r =>
      match trimEnd r with
      | EmptyString => if isWhiteSpace c then EmptyString else String c EmptyString
      | r' => String c r'
      end
  end.

Definition trim (s : string) : string := trimEnd (trimStart s).

(** [toLowerCase] on the code units below 256: A-Z, and the Latin-1
    capitals U+00C0..U+00DE except the multiplication sign U+00D7. *)
Definition lowerChar (c : ascii) : ascii :=
  let n := N_of_ascii c in
  if (((65 <=? n) && (n <=? 90))
      || ((192 <=? n) && (n <=? 222) && negb (n =? 215)))%N
  then ascii_of_N (n + 32) else c.

Fixpoint toLowerCase (s : string) : string :=
  match s with
  | EmptyString => EmptyString
  | String c r => String (lowerChar c) (toLowerCase r)
  end.

Definition startsWith (s p : string) : bool := String.prefix p s.

Fixpoint rev (s : string) : string :=
  match s with
  | EmptyString => EmptyString
  | String c r => rev r ++ String c EmptyString
  end.

Definition endsWith (s p : string) : bool := String.prefix (rev p) (rev s).

(** [s.includes(needle)] *)
Fixpoint includes (s needle : string) : bool :=
  String.prefix needle s ||
  match s with
  | EmptyString => false
  | String _ r => includes r needle
  end.

(** [s.indexOf(needle)], counting from position [i] of the whole string;
    -1 when [needle] does not occur. *)
Fixpoint indexOfFrom (s needle : string) (i : Z) : Z :=
  if String.prefix needle s then i
  else match s with
       | EmptyString => -1
       | String _ r => indexOfFrom r needle (i + 1)
       end.

Definition indexOf (s needle : string) : Z := indexOfFrom s needle 0.

(** [s.lastIndexOf(needle)] *)
Fixpoint lastIndexOfFrom (s needle : string) (i : Z) : Z :=
  let here := if String.prefix needle s then i else -1 in
  match s with
  | EmptyString => here
  | String _ r =>
      let later := lastIndexOfFrom r needle (i + 1) in
      if later <? 0 then here else later
  end.

Definition lastIndexOf (s needle : string) : Z := lastIndexOfFrom s needle 0.

(** [s.slice(start, end)] with the relative-index rule of ECMA-262:
    a negative index counts from the end, and the result is clamped. *)
Definition relIndex (len i : Z) : Z :=
  if i <? 0 then Z.max (len + i) 0 else Z.min i len.

Definition slice (s : string) (from to : Z) : string :=
  let len := strlen s in
  let a := relIndex len from in
  let b := relIndex len to in
  String.substring (Z.to_nat a) (Z.to_nat (Z.max (b - a) 0)) s.

Definition sliceFrom (s : string) (from : Z) : string :=
  slice s from (strlen s).

(** [xs.join(sep)] *)
Fixpoint join (sep : string) (xs : list string) : string :=
  match xs with
  | [] => EmptyString
  | [x] => x
  | x :: r => x ++ sep ++ join sep r
  end.

(** The double quote, as a string. *)
Definition DQ : string := String (ascii_of_N 34) EmptyString.

(** Truthiness of a string: the empty string is falsy. *)
Definition truthy (s : string) : bool :=
  match s with EmptyString => false | _ => true end.

(** [s || d] on strings *)
Definition orElse (s d : string) : string := if truthy s then s else d.

Definition LF : string := String (ascii_of_N 10) EmptyString.

(** The string is empty or made of white space only. *)
Fixpoint whitespaceOnly (s : string) : bool :=
  match s with
  | EmptyString => true
  | String c r => isWhiteSpace c && whitespaceOnly r
  end.

End Js.

(* ================================================================= *)
(** ** Model-selection hint ([suggestModelFromContent]) *)

Module Hint.
Import Js.

Inductive Suggestion : Type := simple | complex.

Definition complexKeywords : list string :=
  [ "step by step"; "explain in detail"; "compare and contrast"; "analyze";
    "write code"; "implement"; "debug"; "function that"; "essay"; "outline";
    "compare"; "contrast"; "pros and cons"; "critically"; "reasoning";
    "proof"; "derive"; "algorithm" ].

Definition suggestModelFromContent (text : string) (hasAttachments : bool)
  : Suggestion :=
  let t := toLowerCase (trim text) in
  if 400 <? strlen t then complex
  else if hasAttachments then complex
  else if existsb (fun kw => 0 <=? indexOf t kw) complexKeywords then complex
  else simple.

Definition MODEL_FOR_SIMPLE : string := "gpt-4o-mini".
Definition MODEL_FOR_COMPLEX : string := "gpt-4o".

Definition getSuggestedModelValue (text : string) (hasAttachments : bool)
  : string :=
  match suggestModelFromContent text hasAttachments with
  | complex => MODEL_FOR_COMPLEX
  | simple => MODEL_FOR_SIMPLE
  end.

End Hint.

(* ================================================================= *)
(** ** Results of operations that can throw *)

Inductive Result (A : Type) : Type :=
| Ok (a : A)
| Throw (message : string).
Arguments Ok {A} a.
Arguments Throw {A} message.

(* ================================================================= *)
(** ** [Date]: time values and their ISO rendering

    A [Date] holds a time value in milliseconds since the epoch, or NaN
    (an Invalid Date).  [toISOString] writes [YYYY-MM-DDTHH:mm:ss.sssZ],
    with the expanded year [+YYYYYY] / [-YYYYYY] outside 0..9999, and
    throws a RangeError, whose message is [Invalid time value], on an
    Invalid Date.  [new Date(string)] is modelled on the strings that
    [toISOString] writes, where every engine gives back the time value
    written.  A string of any other form (a date alone, no
    milliseconds, [-000000] as the year, a day the month does not
    have, ...) is an Invalid Date here; an engine may read some of them,
    and which ones is left to the implementation.  What is proved about
    parsed stamps is therefore stated for stamps written by
    [toISOString]. *)

Module JsDate.

Inductive Date : Type :=
| TimeValue (t : Z)
| InvalidDate.

Definition maxTime : Z := 8640000000000000.
Definition msPerDay : Z := 86400000.

Definition inRange (t : Z) : bool := (- maxTime <=? t) && (t <=? maxTime).

Definition validDate (d : Date) : Prop :=
  match d with
  | TimeValue t => inRange t = true
  | InvalidDate => False
  end.

(** Proleptic Gregorian calendar: day number (days since 1970-01-01)
    to year, month, day and back, by 400-year eras. *)
Definition civilFromDays (z : Z) : Z * Z * Z :=
  let z := z + 719468 in
  let era := z / 146097 in
  let doe := z mod 146097 in
  let yoe := (doe - doe / 1460 + doe / 36524 - doe / 146096) / 365 in
  let doy := doe - (365 * yoe + yoe / 4 - yoe / 100) in
  let mp := (5 * doy + 2) / 153 in
  let d := doy - (153 * mp + 2) / 5 + 1 in
  let m := if mp <? 10 then mp + 3 else mp - 9 in
  (yoe + era * 400 + (if m <=? 2 then 1 else 0), m, d).

Definition daysFromCivil (y m d : Z) : Z :=
  let y := y - (if m <=? 2 then 1 else 0) in
  let era := y / 400 in
  let yoe := y mod 400 in
  let mp := if 2 <? m then m - 3 else m + 9 in
  let doy := (153 * mp + 2) / 5 + d - 1 in
  let doe := yoe * 365 + yoe / 4 - yoe / 100 + doy in
  era * 146097 + doe - 719468.

Definition digitChar (n : Z) : ascii := ascii_of_N (Z.to_N (48 + n mod 10)).

Definition digitValue (c : ascii) : option Z :=
  let n := Z.of_N (N_of_ascii c) in
  if (48 <=? n) && (n <=? 57) then Some (n - 48) else None.

(** The [k] low decimal digits of [n], most significant first, in front
    of [rest]. *)
Fixpoint padAcc (k : nat) (n : Z) (rest : string) : string :=
  match k with
  | O => rest
  | S k' => padAcc k' (n / 10) (String (digitChar n) rest)
  end.

Definition yearAcc (y : Z) (rest : string) : string :=
  if (0 <=? y) && (y <=? 9999) then padAcc 4 y rest
  else if y <? 0 then String "-" (padAcc 6 (- y) rest)
  else String "+" (padAcc 6 y rest).

Definition isoOfTime (t : Z) : string :=
  let day := t / msPerDay in
  let ms := t mod msPerDay in
  let '(y, m, d) := civilFromDays day in
  yearAcc y
    (String "-" (padAcc 2 m
    (String "-" (padAcc 2 d
    (String "T" (padAcc 2 (ms / 3600000)
    (String ":" (padAcc 2 (ms / 60000 mod 60)
    (String ":" (padAcc 2 (ms / 1000 mod 60)
    (String "." (padAcc 3 (ms mod 1000) "Z")))))))))))).

(** [d.toISOString()] *)
Definition toISOString (d : Date) : Result string :=
  match d with
  | TimeValue t => Ok (isoOfTime t)
  | InvalidDate => Throw "Invalid time value"
  end.

Fixpoint readDigits (k : nat) (acc : Z) (s : string) : option (Z * string) :=
  match k with
  | O => Some (acc, s)
  | S k' =>
      match s with
      | EmptyString => None
      | String c r =>
          match digitValue c with
          | Some d => readDigits k' (acc * 10 + d) r
          | None => None
          end
      end
  end.

Definition expect (c : ascii) (s : string) : option string :=
  match s with
  | EmptyString => None
  | String c' r => if Ascii.eqb c c' then Some r else None
  end.

Definition readYear (s : string) : option (Z * string) :=
  match s with
  | String "+" r => readDigits 6 0 r
  | String "-" r =>
      match readDigits 6 0 r with
      | Some (y, r') => Some (- y, r')
      | None => None
      end
  | _ => readDigits 4 0 s
  end.

Definition bindO {A B : Type} (o : option A) (f : A -> option B) : option B :=
  match o with Some a => f a | None => None end.

Notation "' p <- o ;; k" := (bindO o (fun p => k))
  (at level 61, p pattern, o at next level, right associativity).

Definition between (lo x hi : Z) : bool := (lo <=? x) && (x <=? hi).

(** The time value the fields of a string in the [toISOString] format
    denote. *)
Definition parseIso (s : string) : option Z :=
  ' (y, s) <- readYear s ;;
  ' s <- expect "-" s ;;
  ' (m, s) <- readDigits 2 0 s ;;
  ' s <- expect "-" s ;;
  ' (d, s) <- readDigits 2 0 s ;;
  ' s <- expect "T" s ;;
  ' (h, s) <- readDigits 2 0 s ;;
  ' s <- expect ":" s ;;
  ' (mi, s) <- readDigits 2 0 s ;;
  ' s <- expect ":" s ;;
  ' (sec, s) <- readDigits 2 0 s ;;
  ' s <- expect "." s ;;
  ' (ms, s) <- readDigits 3 0 s ;;
  ' s <- expect "Z" s ;;
  match s with
  | EmptyString =>
      if between 1 m 12 && between 1 d 31 && between 0 h 23
         && between 0 mi 59 && between 0 sec 59
      then Some (daysFromCivil y m d * msPerDay
                 + h * 3600000 + mi * 60000 + sec * 1000 + ms)
      else None
  | _ => None
  end.

(** [new Date(s)], with the TimeClip of ECMA-262: the time value of [s]
    when [s] is what [toISOString] writes for it. *)
Definition newDate (s : string) : Date :=
  match parseIso s with
  | Some t =>
      if inRange t && String.eqb (isoOfTime t) s then TimeValue t
      else InvalidDate
  | None => InvalidDate
  end.

(** [d.getTime()]; [None] is NaN *)
Definition getTime (d : Date) : option Z :=
  match d with TimeValue t => Some t | InvalidDate => None end.

End JsDate.

(* ================================================================= *)
(** ** Data model ([IChatProps.ts]) *)

Inductive Role : Type := user | assistant.

Definition Role_eqb (a b : Role) : bool :=
  match a, b with
  | user, user | assistant, assistant => true
  | _, _ => false
  end.

(** An entry of [fileTexts]: [{ name, text }] *)
Module FileText.
Record t : Type := mk { name : string; text : string }.
End FileText.

Module IChatMessage.
Record t : Type := mk {
  id : string;
  role : Role;
  content : string;
  timestamp : JsDate.Date;
  imageDataUrls : option (list string);
  fileTexts : option (list FileText.t);
  otherFileNames : option (list string)
}.

(** [{ ...m, content: c }] *)
Definition withContent (m : t) (c : string) : t :=
  mk (id m) (role m) c (timestamp m) (imageDataUrls m) (fileTexts m)
     (otherFileNames m).
End IChatMessage.

Module IStoredMessage.
Record t : Type := mk {
  id : string;
  role : Role;
  content : string;
  timestamp : string;
  imageDataUrls : option (list string);
  fileTexts : option (list FileText.t);
  otherFileNames : option (list string)
}.
End IStoredMessage.

Module IProject.
Record t : Type := mk { id : string; name : string; createdAt : string }.
End IProject.

Module IStoredChat.
Record t : Type := mk {
  id : string;
  projectId : string;
  title : string;
  messages : list IStoredMessage.t;
  createdAt : string;
  updatedAt : string
}.
End IStoredChat.

(** A browser [File].  The platform readers and the format decoders are
    external to the repository; a file carries what each of them answers
    for it ([Throw] when the reader rejects or the decoder throws). *)
Module File.
Record t : Type := mk {
  name : string;
  type : string;
  size : Z;
  dataUrl : Result string;   (* fileToDataUrl *)
  utf8Text : Result string;  (* fileToText *)
  pdfText : Result string;   (* pdfToText *)
  docxText : Result string;  (* docxToText *)
  xlsxText : Result string   (* xlsxToText *)
}.
End File.

Module IChatAttachment.
Record t : Type := mk {
  file : File.t;
  dataUrl : option string;
  textContent : option string;
  extractionError : option string
}.
End IChatAttachment.

(* ================================================================= *)
(** ** Attachment extractor ([onFileChange] and the format tests) *)

Module Extractor.
Import Js.

Definition MAX_FILES_PER_MESSAGE : Z := 10.
Definition MAX_IMAGE_SIZE_MB : Z := 4.
Definition MAX_FILE_SIZE_MB : Z := 10.
Definition MAX_TOTAL_TEXT_CHARS : Z := 80000.

Definition fileToDataUrl (f : File.t) : Result string := File.dataUrl f.
Definition fileToText (f : File.t) : Result string := File.utf8Text f.
Definition pdfToText (f : File.t) : Result string := File.pdfText f.
Definition docxToText (f : File.t) : Result string := File.docxText f.
Definition xlsxToText (f : File.t) : Result string := File.xlsxText f.

Definition isImageFile (f : File.t) : bool :=
  startsWith (File.type f) "image/".

Definition textExtensions : list string :=
  [ ".txt"; ".md"; ".csv"; ".tsv"; ".json"; ".html"; ".htm"; ".xml"; ".js";
    ".ts"; ".tsx"; ".jsx"; ".log"; ".yml"; ".yaml"; ".ini"; ".cfg"; ".conf";
    ".env"; ".properties"; ".sql"; ".rtf"; ".csv"; ".tex"; ".rst";
    ".asciidoc"; ".adoc" ].

Definition isLikelyTextFile (f : File.t) : bool :=
  let t := toLowerCase (File.type f) in
  let name := toLowerCase (File.name f) in
  if startsWith t "text/" || String.eqb t "application/json"
     || String.eqb t "application/javascript"
     || String.eqb t "application/xml" || String.eqb t "application/rtf"
  then true
  else
    let ext := sliceFrom name (lastIndexOf name ".") in
    existsb (String.eqb ext) textExtensions.

Definition isPdfFile (f : File.t) : bool :=
  String.eqb (File.type f) "application/pdf"
  || endsWith (toLowerCase (File.name f)) ".pdf".

Definition isDocxFile (f : File.t) : bool :=
  let t := toLowerCase (File.type f) in
  let name := toLowerCase (File.name f) in
  String.eqb t
    "application/vnd.openxmlformats-officedocument.wordprocessingml.document"
  || endsWith name ".docx".

Definition isXlsxFile (f : File.t) : bool :=
  let t := toLowerCase (File.type f) in
  let name := toLowerCase (File.name f) in
  String.eqb t
    "application/vnd.openxmlformats-officedocument.spreadsheetml.sheet"
  || endsWith name ".xlsx" || endsWith name ".xls".

(** The truncation marker, a line feed followed by [...[truncated]]. *)
Definition TRUNCATION_MARKER : string := LF ++ "...[truncated]".

(** [text.length > MAX - totalChars ? text.slice(0, MAX - totalChars) +
    marker : text] *)
Definition truncated (text : string) (totalChars : Z) : string :=
  if strlen text >? MAX_TOTAL_TEXT_CHARS - totalChars
  then slice text 0 (MAX_TOTAL_TEXT_CHARS - totalChars) ++ TRUNCATION_MARKER
  else text.

Definition imageAttachment (f : File.t) (url : string) : IChatAttachment.t :=
  IChatAttachment.mk f (Some url) None None.
Definition textAttachment (f : File.t) (t : string) : IChatAttachment.t :=
  IChatAttachment.mk f None (Some t) None.
Definition bareAttachment (f : File.t) : IChatAttachment.t :=
  IChatAttachment.mk f None None None.
Definition failedAttachment (f : File.t) (msg : string) : IChatAttachment.t :=
  IChatAttachment.mk f None None (Some msg).

(** The loop state: the attachments pushed so far and [totalChars]. *)
Definition Acc : Type := (list IChatAttachment.t * Z)%type.

(** The shared shape of the four text branches: decode, truncate, add
    to [totalChars], push; a decoder that throws pushes the file with
    its [extractionError]. *)
Definition pushText (f : File.t) (decoded : Result string) (acc : Acc) : Acc :=
  let '(list, totalChars) := acc in
  match decoded with
  | Ok text =>
      let tr := truncated text totalChars in
      ((list ++ [textAttachment f tr])%list, totalChars + strlen tr)
  | Throw msg => ((list ++ [failedAttachment f msg])%list, totalChars)
  end.

(** Which decoder the [else if] chain of the loop body applies to a
    non-image file, given the current [totalChars]. *)
Definition decoderFor (f : File.t) (totalChars : Z) : option (Result string) :=
  let room := totalChars <? MAX_TOTAL_TEXT_CHARS in
  if isPdfFile f && room then Some (pdfToText f)
  else if isDocxFile f && room then Some (docxToText f)
  else if isXlsxFile f && room then Some (xlsxToText f)
  else if isLikelyTextFile f && room then Some (fileToText f)
  else None.

(** One iteration of the [for] loop of [onFileChange]. *)
Definition step (f : File.t) (acc : Acc) : Acc :=
  let '(list, totalChars) := acc in
  let isImage := isImageFile f in
  let sizeLimit :=
    if isImage then MAX_IMAGE_SIZE_MB * 1024 * 1024
    else MAX_FILE_SIZE_MB * 1024 * 1024 in
  if File.size f >? sizeLimit then acc
  else if isImage then
    match fileToDataUrl f with
    | Ok url => ((list ++ [imageAttachment f url])%list, totalChars)
    | Throw msg => ((list ++ [failedAttachment f msg])%list, totalChars)
    end
  else
    match decoderFor f totalChars with
    | Some decoded => pushText f decoded acc
    | None => ((list ++ [bareAttachment f])%list, totalChars)
    end.

(** [for (i = 0; i < files.length && list.length < MAX_FILES; i++)] *)
Fixpoint loop (files : list File.t) (acc : Acc) : Acc :=
  match files with
  | [] => acc
  | f :: rest =>
      if Z.of_nat (List.length (fst acc)) <? MAX_FILES_PER_MESSAGE
      then loop rest (step f acc)
      else acc
  end.

(** The batch of one add operation: the local [list] and the final
    [totalChars]. *)
Definition extractBatch (files : list File.t) : Acc := loop files ([], 0).

(** [xs.slice(0, n)] on arrays, for [n >= 0] *)
Definition takeFirst {A : Type} (n : Z) (xs : list A) : list A :=
  firstn (Z.to_nat n) xs.

(** [onFileChange]: the attachments and the [error] state afterwards.
    The text of the error has the sign U+2264 twice; strings here are
    made of code units below 256, so the sign is held as the three
    bytes of its UTF-8 form.  No statement depends on the wording or on
    the length of this text. *)
Definition onFileChange (files : list File.t)
    (attachments : list IChatAttachment.t) (error : option string)
  : list IChatAttachment.t * option string :=
  match files with
  | [] => (attachments, error)
  | _ =>
      let list := fst (extractBatch files) in
      match list with
      | [] =>
          (attachments,
           Some "No files were added. Check size limits (images ≤4 MB, other files ≤10 MB) or try different files.")
      | _ => (takeFirst MAX_FILES_PER_MESSAGE (attachments ++ list)%list, None)
      end
  end.

(** Length of the text an attachment carries. *)
Definition textLength (a : IChatAttachment.t) : Z :=
  match IChatAttachment.textContent a with
  | Some t => strlen t
  | None => 0
  end.

(** Sum of the text lengths over a list of attachments. *)
Definition totalText (l : list IChatAttachment.t) : Z :=
  fold_right (fun a n => textLength a + n) 0 l.

(** Not a function of the source: the decoder that the [else if] chain
    of the loop designates for a non-image file by its format alone,
    that is [decoderFor] without the test on [totalChars].  It is used
    to say where the text of an attachment comes from. *)
Definition decoderOf (f : File.t) : option (Result string) :=
  if isPdfFile f then Some (pdfToText f)
  else if isDocxFile f then Some (docxToText f)
  else if isXlsxFile f then Some (xlsxToText f)
  else if isLikelyTextFile f then Some (fileToText f)
  else None.

(** An attachment list respects the budget from the running total
    [run] on: every text was written while there was room, and is the
    decoder's output truncated at the total reached before it. *)
Fixpoint budgeted (run : Z) (l : list IChatAttachment.t) : Prop :=
  match l with
  | [] => True
  | a :: r =>
      match IChatAttachment.textContent a with
      | None => True
      | Some t =>
          run < MAX_TOTAL_TEXT_CHARS
          /\ exists text,
               decoderOf (IChatAttachment.file a) = Some (Ok text)
               /\ t = truncated text run
      end
      /\ budgeted (run + textLength a) r
  end.

(** The loop invariant: [totalChars] is the sum of the text lengths of
    the attachments pushed so far, and the list respects the budget. *)
Definition loopInv (acc : Acc) : Prop :=
  snd acc = totalText (fst acc) /\ budgeted 0 (fst acc).

(** A text of [n] letters [a]. *)
Fixpoint letters (n : nat) : string :=
  match n with
  | O => EmptyString
  | S n' => String "a" (letters n')
  end.

(** A PDF of one page whose text has 80001 characters. *)
Definition longPdf : File.t :=
  File.mk "long.pdf" "application/pdf" 1000
          (Throw "not an image") (Throw "not read as text")
          (Ok (letters (Z.to_nat 80001)))
          (Throw "not a document") (Throw "not a workbook").

Module Thumb.
Inductive FileThumbType : Type := pdf | word | excel | text | generic.

Definition getFileThumbType (f : File.t) : FileThumbType :=
  if isPdfFile f then pdf
  else if isDocxFile f then word
  else if isXlsxFile f then excel
  else if isLikelyTextFile f then text
  else generic.
End Thumb.

End Extractor.

(* ================================================================= *)
(** ** Serialized payloads

    [JSON.stringify] followed by [JSON.parse] gives back the arrays,
    strings and optional properties it was given, so a serialized value
    is kept as the value it encodes; [RawText] is any other content
    (unparseable, or of another shape).  A payload read where a value of
    another shape is expected is treated as [RawText]. *)

Inductive Payload : Type :=
| JsonProjects (l : list IProject.t)
| JsonChats (l : list IStoredChat.t)
| JsonChat (c : IStoredChat.t)
| RawText (s : string).

(** [!raw] on the text of a payload: only the empty text is falsy. *)
Definition emptyPayload (p : Payload) : bool :=
  match p with
  | RawText EmptyString => true
  | _ => false
  end.

(* ================================================================= *)
(** ** Local adapter ([ChatStorage.ts]) *)

Module ChatStorage.

(** The slots of [localStorage] the adapter uses, by key:
    [chat2etc_projects], [chat2etc_chats], [chat2etc_currentProject],
    [chat2etc_currentChat]; and [room], the number of code units the
    origin can still store before [setItem] raises a quota error.

    The quota is counted on what the messages carry (their content,
    image data URLs, file names and file texts), which is what grows
    without bound: one attached image can be a data URL of several
    megabytes.  Ids, titles, date stamps, project records and the
    punctuation of JSON are taken to fit, so the writes of
    [saveProjects], [setCurrentProjectId] and [setCurrentChatId]
    succeed, and the [catch] block of [saveProjects] is not reached. *)
Record LocalStorage : Type := mkStorage {
  KEY_PROJECTS : option Payload;
  KEY_CHATS : option Payload;
  KEY_CURRENT_PROJECT : option string;
  KEY_CURRENT_CHAT : option string;
  room : N
}.

(** An empty store with the usual quota of 5 MB. *)
Definition emptyStorage : LocalStorage :=
  mkStorage None None None None 5242880.

Definition getProjects (ls : LocalStorage) : list IProject.t :=
  match KEY_PROJECTS ls with
  | Some (JsonProjects l) => l
  | _ => []
  end.

Definition saveProjects (projects : list IProject.t) (ls : LocalStorage)
  : LocalStorage :=
  mkStorage (Some (JsonProjects projects)) (KEY_CHATS ls)
            (KEY_CURRENT_PROJECT ls) (KEY_CURRENT_CHAT ls) (room ls).

Definition getAllChats (ls : LocalStorage) : list IStoredChat.t :=
  match KEY_CHATS ls with
  | Some (JsonChats l) => l
  | _ => []
  end.

Definition sum (l : list Z) : Z := fold_right Z.add 0 l.

Definition orNone {A : Type} (x : option (list A)) : list A :=
  match x with Some l => l | None => [] end.

(** The code units a message carries: its content, its image data
    URLs, the names and texts of its files, the names of its other
    files. *)
Definition sizeOfTexts (content : string) (imageDataUrls : option (list string))
    (fileTexts : option (list FileText.t))
    (otherFileNames : option (list string)) : Z :=
  Js.strlen content
  + sum (map Js.strlen (orNone imageDataUrls))
  + sum (map (fun f => Js.strlen (FileText.name f) + Js.strlen (FileText.text f))
             (orNone fileTexts))
  + sum (map Js.strlen (orNone otherFileNames)).

Definition sizeOfMessage (m : IStoredMessage.t) : Z :=
  sizeOfTexts (IStoredMessage.content m) (IStoredMessage.imageDataUrls m)
    (IStoredMessage.fileTexts m) (IStoredMessage.otherFileNames m).

(** The same count on the messages of the component, which
    [messageToStored] stores with the same texts. *)
Definition sizeOfMessages (msgs : list IChatMessage.t) : Z :=
  sum (map (fun m =>
              sizeOfTexts (IChatMessage.content m) (IChatMessage.imageDataUrls m)
                (IChatMessage.fileTexts m) (IChatMessage.otherFileNames m))
           msgs).

Definition sizeOfChats (chats : list IStoredChat.t) : Z :=
  sum (map (fun c => sum (map sizeOfMessage (IStoredChat.messages c))) chats).

(** What the slot of the chats can hold: what it holds, and the room
    that is left. *)
Definition capacity (ls : LocalStorage) : Z :=
  sizeOfChats (getAllChats ls) + Z.of_N (room ls).

(** [setItem(KEY_CHATS, ...)] does not raise a quota error. *)
Definition fits (chats : list IStoredChat.t) (ls : LocalStorage) : bool :=
  sizeOfChats chats <=? capacity ls.

(** [saveAllChats]: the write replaces the slot when it fits; otherwise
    [setItem] raises, the [catch] block ignores the error, and the store
    is left as it was. *)
Definition saveAllChats (chats : list IStoredChat.t) (ls : LocalStorage)
  : LocalStorage :=
  if fits chats ls then
    mkStorage (KEY_PROJECTS ls) (Some (JsonChats chats))
              (KEY_CURRENT_PROJECT ls) (KEY_CURRENT_CHAT ls)
              (Z.to_N (capacity ls - sizeOfChats chats))
  else ls.

Arguments saveAllChats : simpl never.

(** The comparator [(a, b) => new Date(b.updatedAt).getTime() - new
    Date(a.updatedAt).getTime()]; [None] is NaN. *)
Definition byUpdatedDesc (a b : IStoredChat.t) : option Z :=
  match JsDate.getTime (JsDate.newDate (IStoredChat.updatedAt b)),
        JsDate.getTime (JsDate.newDate (IStoredChat.updatedAt a)) with
  | Some tb, Some ta => Some (tb - ta)
  | _, _ => None
  end.

(** [Array.prototype.sort] as a stable insertion sort: [x] moves behind
    [y] only when the comparator is positive (NaN counts as 0).  With a
    comparator that is not a consistent order, which NaN can cause, an
    engine may order differently. *)
Fixpoint insertSorted {A : Type} (cmp : A -> A -> option Z) (x : A)
    (l : list A) : list A :=
  match l with
  | [] => [x]
  | y :: r =>
      match cmp x y with
      | Some v => if 0 <? v then y :: insertSorted cmp x r else x :: l
      | None => x :: l
      end
  end.

Definition sort {A : Type} (cmp : A -> A -> option Z) (l : list A) : list A :=
  fold_right (insertSorted cmp) [] l.

Definition getChatsForProject (projectId : string) (ls : LocalStorage)
  : list IStoredChat.t :=
  sort byUpdatedDesc
       (filter (fun c => String.eqb (IStoredChat.projectId c) projectId)
               (getAllChats ls)).

Definition getCurrentProjectId (ls : LocalStorage) : option string :=
  KEY_CURRENT_PROJECT ls.

(** [id] is truthy: neither [null] nor the empty string. *)
Definition truthyId (id : option string) : bool :=
  match id with
  | Some s => Js.truthy s
  | None => false
  end.

Definition setCurrentProjectId (id : option string) (ls : LocalStorage)
  : LocalStorage :=
  mkStorage (KEY_PROJECTS ls) (KEY_CHATS ls)
            (if truthyId id then id else None) (KEY_CURRENT_CHAT ls) (room ls).

Definition getCurrentChatId (ls : LocalStorage) : option string :=
  KEY_CURRENT_CHAT ls.

Definition setCurrentChatId (id : option string) (ls : LocalStorage)
  : LocalStorage :=
  mkStorage (KEY_PROJECTS ls) (KEY_CHATS ls) (KEY_CURRENT_PROJECT ls)
            (if truthyId id then id else None) (room ls).

(** [messageToStored].  [m.timestamp] has type [Date], so the branch for
    a string timestamp is not taken; [toISOString] throws on an Invalid
    Date. *)
Definition messageToStored (m : IChatMessage.t) : Result IStoredMessage.t :=
  match JsDate.toISOString (IChatMessage.timestamp m) with
  | Ok iso =>
      Ok (IStoredMessage.mk (IChatMessage.id m) (IChatMessage.role m)
            (IChatMessage.content m) iso (IChatMessage.imageDataUrls m)
            (IChatMessage.fileTexts m) (IChatMessage.otherFileNames m))
  | Throw e => Throw e
  end.

Definition storedToMessage (s : IStoredMessage.t) : IChatMessage.t :=
  IChatMessage.mk (IStoredMessage.id s) (IStoredMessage.role s)
    (IStoredMessage.content s) (JsDate.newDate (IStoredMessage.timestamp s))
    (IStoredMessage.imageDataUrls s) (IStoredMessage.fileTexts s)
    (IStoredMessage.otherFileNames s).

(** [xs.map(f)] for an [f] that can throw: the first throw ends the map. *)
Fixpoint mapResult {A B : Type} (f : A -> Result B) (xs : list A)
  : Result (list B) :=
  match xs with
  | [] => Ok []
  | x :: r =>
      match f x with
      | Throw e => Throw e
      | Ok y =>
          match mapResult f r with
          | Throw e => Throw e
          | Ok ys => Ok (y :: ys)
          end
      end
  end.

End ChatStorage.

(* ================================================================= *)
(** ** Remote adapter (the storage part of [ChatStorageSharePoint.ts])

    The document library is a file store answering the six requests the
    adapter sends.  [files] are the items authored by the user [userId];
    [failing e] tells how the endpoint [e] fails, when it does. *)

Module SharePoint.
Import Js.

Definition PROJECTS_FILE_PREFIX : string := "chat2etc-projects-".
Definition CHAT_FILE_PREFIX : string := "chat2etc-chat-".
Definition FILE_EXT : string := ".json".

Inductive Endpoint : Type :=
| CurrentUser | RootFolder | Items | FileContent | AddFile | DeleteFile.

(** How an exchange with an endpoint fails.  [NotOk body]: the answer
    has a status that is not ok, and [body] is what reading its text
    gives (the text, or the error that [res.text()] raises).
    [Rejected msg]: the request is rejected with the error [msg] and no
    answer arrives.  [BadBody msg]: the answer is ok, but reading its
    body ([res.json()], [res.text()]) raises [msg]. *)
Inductive Failure : Type :=
| NotOk (body : Result string)
| Rejected (msg : string)
| BadBody (msg : string).

Record Server : Type := mkServer {
  userId : Z;
  folderUrl : string;
  files : list (string * Payload);
  failing : Endpoint -> option Failure
}.

(** The client side: [config.libraryTitle], the module variable
    [cachedUserId], and the server it talks to. *)
Record World : Type := mkWorld {
  libraryTitle : string;
  cachedUserId : option Z;
  server : Server
}.

Definition withFiles (w : World) (fs : list (string * Payload)) : World :=
  mkWorld (libraryTitle w) (cachedUserId w)
    (mkServer (userId (server w)) (folderUrl (server w)) fs
              (failing (server w))).

(** An asynchronous operation of the adapter: it runs on the world and
    resolves ([Ok]) or rejects ([Throw]). *)
Definition M (A : Type) : Type := World -> Result A * World.

Definition ret {A : Type} (a : A) : M A := fun w => (Ok a, w).
Definition throw {A : Type} (msg : string) : M A := fun w => (Throw msg, w).
Definition bind {A B : Type} (m : M A) (k : A -> M B) : M B :=
  fun w =>
    match m w with
    | (Ok a, w') => k a w'
    | (Throw e, w') => (Throw e, w')
    end.

Notation "x <- m ;; k" := (bind m (fun x => k))
  (at level 61, m at next level, right associativity).

Definition serverRelativeUrl (srv : Server) (name : string) : string :=
  folderUrl srv ++ "/" ++ name.

Record FileItem : Type := mkItem { Name : string; ServerRelativeUrl : string }.

Definition numberToString (n : Z) : string :=
  NilZero.string_of_int (Z.to_int n).

Definition getCurrentUserId : M Z :=
  fun w =>
    match cachedUserId w with
    | Some id => (Ok id, w)
    | None =>
        match failing (server w) CurrentUser with
        | Some (NotOk _) => (Throw "Failed to get current user", w)
        | Some (Rejected msg) => (Throw msg, w)
        | Some (BadBody msg) => (Throw msg, w)
        | None =>
            let id := userId (server w) in
            (Ok id, mkWorld (libraryTitle w) (Some id) (server w))
        end
    end.

Definition getFolderServerRelativeUrl : M string :=
  fun w =>
    match failing (server w) RootFolder with
    | Some (NotOk (Ok text)) =>
        (Throw ("Library not found or no access: " ++ libraryTitle w ++ ". "
                ++ slice text 0 200), w)
    | Some (NotOk (Throw msg)) => (Throw msg, w)
    | Some (Rejected msg) => (Throw msg, w)
    | Some (BadBody msg) => (Throw msg, w)
    | None => (Ok (folderUrl (server w)), w)
    end.

(** The items of the library whose author is [author]. *)
Definition itemsOf (srv : Server) (author : Z) : list FileItem :=
  if author =? userId srv
  then map (fun f => mkItem (fst f) (serverRelativeUrl srv (fst f))) (files srv)
  else [].

Definition getMyFileItems : M (list FileItem) :=
  uid <- getCurrentUserId ;;
  fun w =>
    match failing (server w) Items with
    | Some (NotOk _) => (Ok [], w)
    | Some (Rejected msg) => (Throw msg, w)
    | Some (BadBody msg) => (Throw msg, w)
    | None => (Ok (itemsOf (server w) uid), w)
    end.

Definition fileAt (srv : Server) (url : string) : option (string * Payload) :=
  find (fun f => String.eqb (serverRelativeUrl srv (fst f)) url) (files srv).

(** [getFileContent]: the text of the file, the empty text when the
    response is not ok (also when there is no such file). *)
Definition getFileContent (url : string) : M Payload :=
  fun w =>
    match failing (server w) FileContent with
    | Some (NotOk _) => (Ok (RawText ""), w)
    | Some (Rejected msg) => (Throw msg, w)
    | Some (BadBody msg) => (Throw msg, w)
    | None =>
        match fileAt (server w) url with
        | Some f => (Ok (snd f), w)
        | None => (Ok (RawText ""), w)
        end
    end.

Definition getProjectsFromLibrary : M (list IProject.t) :=
  uid <- getCurrentUserId ;;
  let fileName := PROJECTS_FILE_PREFIX ++ numberToString uid ++ FILE_EXT in
  items <- getMyFileItems ;;
  match find (fun f => String.eqb (Name f) fileName) items with
  | None => ret []
  | Some file =>
      raw <- getFileContent (ServerRelativeUrl file) ;;
      if emptyPayload raw then ret []
      else match raw with
           | JsonProjects l => ret l
           | _ => ret []
           end
  end.

(** [Files/add(url=name, overwrite=true)] on the server. *)
Fixpoint putFile (name : string) (content : Payload)
    (fs : list (string * Payload)) : list (string * Payload) :=
  match fs with
  | [] => [(name, content)]
  | f :: r =>
      if String.eqb (fst f) name then (name, content) :: r
      else f :: putFile name content r
  end.

(** The POST that both savers send; [what] names the saver in the error.
    A folder the server does not have is answered not ok, with an empty
    body.  The body of an ok answer is not read. *)
Definition postFile (what folder name : string) (content : Payload) : M unit :=
  fun w =>
    match failing (server w) AddFile with
    | Some (NotOk (Ok text)) =>
        (Throw ("Failed to save " ++ what ++ ": " ++ slice text 0 200), w)
    | Some (NotOk (Throw msg)) => (Throw msg, w)
    | Some (Rejected msg) => (Throw msg, w)
    | Some (BadBody _) | None =>
        if String.eqb folder (folderUrl (server w))
        then (Ok tt, withFiles w (putFile name content (files (server w))))
        else (Throw ("Failed to save " ++ what ++ ": "), w)
    end.

Definition saveProjectsToLibrary (projects : list IProject.t) : M unit :=
  uid <- getCurrentUserId ;;
  let fileName := PROJECTS_FILE_PREFIX ++ numberToString uid ++ FILE_EXT in
  folder <- getFolderServerRelativeUrl ;;
  postFile "projects" folder fileName (JsonProjects projects).

(** The body of the [for] loop of [getChatsFromLibrary] on one file. *)
Definition readChat (file : FileItem) (chats : list IStoredChat.t)
  : M (list IStoredChat.t) :=
  raw <- getFileContent (ServerRelativeUrl file) ;;
  if emptyPayload raw then ret chats
  else match raw with
       | JsonChat chat =>
           if truthy (IStoredChat.id chat) && truthy (IStoredChat.projectId chat)
           then ret (chats ++ [chat])%list
           else ret chats
       | _ => ret chats
       end.

Fixpoint readChats (chatFiles : list FileItem) (chats : list IStoredChat.t)
  : M (list IStoredChat.t) :=
  match chatFiles with
  | [] => ret chats
  | file :: rest => chats' <- readChat file chats ;; readChats rest chats'
  end.

Definition isChatFileName (name : string) : bool :=
  startsWith name CHAT_FILE_PREFIX && endsWith name FILE_EXT.

Definition getChatsFromLibrary : M (list IStoredChat.t) :=
  items <- getMyFileItems ;;
  let chatFiles := filter (fun f => isChatFileName (Name f)) items in
  chats <- readChats chatFiles [] ;;
  ret (ChatStorage.sort ChatStorage.byUpdatedDesc chats).

Definition chatFileName (chatId : string) : string :=
  CHAT_FILE_PREFIX ++ chatId ++ FILE_EXT.

Definition saveChatToLibrary (chat : IStoredChat.t) : M unit :=
  folder <- getFolderServerRelativeUrl ;;
  postFile "chat" folder (chatFileName (IStoredChat.id chat)) (JsonChat chat).

Definition removeFile (srv : Server) (url : string) : list (string * Payload) :=
  filter (fun f => negb (String.eqb (serverRelativeUrl srv (fst f)) url))
         (files srv).

(** [deleteChatFromLibrary].  A DELETE for a file the server does not
    have is answered not ok, with an empty body.  The body of an ok
    answer is not read. *)
Definition deleteChatFromLibrary (chatId : string) : M unit :=
  items <- getMyFileItems ;;
  match find (fun f => String.eqb (Name f) (chatFileName chatId)) items with
  | None => ret tt
  | Some file =>
      fun w =>
        match failing (server w) DeleteFile with
        | Some (NotOk (Ok text)) =>
            (Throw ("Failed to delete chat: " ++ slice text 0 200), w)
        | Some (NotOk (Throw msg)) => (Throw msg, w)
        | Some (Rejected msg) => (Throw msg, w)
        | Some (BadBody _) | None =>
            match fileAt (server w) (ServerRelativeUrl file) with
            | Some _ =>
                (Ok tt, withFiles w (removeFile (server w) (ServerRelativeUrl file)))
            | None => (Throw "Failed to delete chat: ", w)
            end
        end
  end.

(** The user lookup of [getCurrentUserId] fails: no id is cached and the
    exchange with the endpoint fails. *)
Definition userLookupFails (w : World) : bool :=
  match cachedUserId w, failing (server w) CurrentUser with
  | None, Some _ => true
  | _, _ => false
  end.

(** The error a failed user lookup raises: its own text for a status
    that is not ok, otherwise the error of the request or of the body. *)
Definition lookupError (w : World) : string :=
  match failing (server w) CurrentUser with
  | Some (Rejected msg) => msg
  | Some (BadBody msg) => msg
  | _ => "Failed to get current user"
  end.

(** The id [getCurrentUserId] resolves to when the lookup succeeds. *)
Definition resolvedUser (w : World) : Z :=
  match cachedUserId w with
  | Some id => id
  | None => userId (server w)
  end.

(** After a successful lookup the id is cached, the server is the same. *)
Definition cached (w : World) : World :=
  mkWorld (libraryTitle w) (Some (resolvedUser w)) (server w).


(** No endpoint of the library is failing. *)
Definition healthy (w : World) : Prop :=
  forall e, failing (server w) e = None.

(** The cached user id, if any, is the one the server knows. *)
Definition sameUser (w : World) : Prop :=
  resolvedUser w = userId (server w).

(** The library holds one file per name, and a file that holds a chat
    is named after the id of that chat. *)
Definition wellNamed (fs : list (string * Payload)) : Prop :=
  NoDup (map fst fs)
  /\ forall name c, In (name, JsonChat c) fs -> name = chatFileName (IStoredChat.id c).

(** The chat the loop of [getChatsFromLibrary] keeps from one file. *)
Definition chatIn (srv : Server) (file : FileItem) : list IStoredChat.t :=
  match fileAt srv (ServerRelativeUrl file) with
  | Some (_, JsonChat chat) =>
      if truthy (IStoredChat.id chat) && truthy (IStoredChat.projectId chat)
      then [chat] else []
  | _ => []
  end.

End SharePoint.

(* ================================================================= *)
(** ** Request construction ([buildMessageText], [buildOpenAIMessages]) *)

(** Messages in the format of the completion endpoint. *)
Module Api.

Inductive Role : Type := system | user | assistant.

Inductive Part : Type :=
| text (t : string)
| image_url (url : string).

(** [content: string | object[]] *)
Inductive Content : Type :=
| str (s : string)
| parts (l : list Part).

Record Message : Type := mk { role : Role; content : Content }.

Definition isUser (m : Message) : bool :=
  match role m with user => true | _ => false end.

Definition isSystem (m : Message) : bool :=
  match role m with system => true | _ => false end.

Definition isImagePart (p : Part) : bool :=
  match p with image_url _ => true | text _ => false end.

(** The text the two [some] callbacks look at: the content itself when it
    is a string, otherwise the text of the first part of type [text]. *)
Definition textOf (c : Content) : option string :=
  match c with
  | str s => Some s
  | parts l =>
      match find (fun p => negb (isImagePart p)) l with
      | Some (text t) => Some t
      | _ => None
      end
  end.

End Api.

Module Builder.
Import Js.

(** [xs.slice(0, -n)] on arrays *)
Definition dropLast {A : Type} (n : nat) (xs : list A) : list A :=
  firstn (List.length xs - n) xs.

Definition fileBlock (f : FileText.t) : string :=
  "--- " ++ FileText.name f ++ " ---" ++ LF ++ FileText.text f.

Definition buildMessageText (userText : string) (fileTexts : list FileText.t)
    (otherFileNames : option (list string)) : string :=
  let text := userText in
  let text :=
    match fileTexts with
    | [] => text
    | _ =>
        let fileBlocks := join (LF ++ LF) (map fileBlock fileTexts) in
        if truthy text
        then text ++ LF ++ LF ++ "Attached files:" ++ LF ++ LF ++ fileBlocks
        else "Attached files:" ++ LF ++ LF ++ fileBlocks
    end in
  let text :=
    match otherFileNames with
    | Some (n :: names) =>
        (if truthy text then text ++ LF ++ LF else "")
        ++ "(Also attached; content not extracted: "
        ++ join ", " (n :: names) ++ ")"
    | _ => text
    end in
  orElse text "(No content)".

(** [x || []] *)
Definition orEmpty {A : Type} (x : option (list A)) : list A :=
  match x with Some l => l | None => [] end.

(** A user turn: the text alone, or the text part followed by one image
    part per data URL. *)
Definition userTurn (fullText : string) (imageDataUrls : list string)
  : Api.Message :=
  match imageDataUrls with
  | [] => Api.mk Api.user (Api.str fullText)
  | _ => Api.mk Api.user
           (Api.parts (Api.text fullText :: map Api.image_url imageDataUrls))
  end.

(** The callback of [list.map] in [buildOpenAIMessages]. *)
Definition toApi (m : IChatMessage.t) : Api.Message :=
  match IChatMessage.role m with
  | assistant => Api.mk Api.assistant (Api.str (IChatMessage.content m))
  | user =>
      userTurn
        (buildMessageText (IChatMessage.content m)
           (orEmpty (IChatMessage.fileTexts m)) (IChatMessage.otherFileNames m))
        (orEmpty (IChatMessage.imageDataUrls m))
  end.

Definition mentions (needle : string) (m : Api.Message) : bool :=
  Api.isUser m &&
  match Api.textOf (Api.content m) with
  | Some t => includes t needle
  | None => false
  end.

Definition carriesImage (m : Api.Message) : bool :=
  Api.isUser m &&
  match Api.content m with
  | Api.parts l => existsb Api.isImagePart l
  | Api.str _ => false
  end.

(** The three synthetic system messages.  Their wording is instruction
    text for the model; [DQ] is the double quote the first two contain. *)
Definition FILES_INSTRUCTION : Api.Message :=
  Api.mk Api.system (Api.str
    ("The user can attach files. When they do, the full text content of supported files (PDF, Word, Excel, text) is included in the user message under "
     ++ DQ ++ "Attached files:" ++ DQ ++ " with the format "
     ++ DQ ++ "--- filename ---" ++ DQ
     ++ " followed by the content. Use that content to answer. Do not say you cannot view or access the files when this content is present.")).

Definition UNEXTRACTED_INSTRUCTION : Api.Message :=
  Api.mk Api.system (Api.str
    ("The user attached files but text extraction failed (e.g. PDF in browser), so you only see "
     ++ DQ ++ "(Also attached; content not extracted: ...)" ++ DQ
     ++ ". Do not say you cannot access attachments. Instead, ask the user to paste the relevant text into the chat or to try a different format (e.g. .txt), or suggest using a backend that can extract PDFs.")).

Definition IMAGES_INSTRUCTION : Api.Message :=
  Api.mk Api.system (Api.str
    "The user can attach images. When they do, the images are included in the user message and you can see them. Describe, analyze, or answer questions about what you see in the images. Do not say you are unable to view or recognize images when they have been shared.").

(** [xs.unshift(x)] when [b] holds *)
Definition unshiftIf {A : Type} (b : bool) (x : A) (xs : list A) : list A :=
  if b then x :: xs else xs.

(** [buildOpenAIMessages]; [messages] is the state captured by the
    callback. *)
Definition buildOpenAIMessages (messages : list IChatMessage.t)
    (userText : string) (imageDataUrls : list string)
    (fileTexts : list FileText.t) (otherFileNames : list string)
    (forRegenerate : bool) : list Api.Message :=
  let list := if forRegenerate then dropLast 1 messages else messages in
  let apiMessages := map toApi list in
  let apiMessages :=
    if forRegenerate then apiMessages
    else (apiMessages ++
          [userTurn (buildMessageText userText fileTexts (Some otherFileNames))
                    imageDataUrls])%list in
  let hasAttachedFileContent :=
    existsb (mentions "Attached files:") apiMessages in
  let apiMessages :=
    unshiftIf hasAttachedFileContent FILES_INSTRUCTION apiMessages in
  let hasUnsupportedAttachments :=
    negb hasAttachedFileContent
    && existsb (mentions "content not extracted") apiMessages in
  let apiMessages :=
    unshiftIf hasUnsupportedAttachments UNEXTRACTED_INSTRUCTION apiMessages in
  let hasImages := existsb carriesImage apiMessages in
  unshiftIf hasImages IMAGES_INSTRUCTION apiMessages.

(** The turn being sent, as a message of the conversation: [toApi]
    renders it as [buildOpenAIMessages] renders its arguments.  Its id
    and timestamp play no role. *)
Definition pendingTurn (userText : string) (imageDataUrls : list string)
    (fileTexts : list FileText.t) (otherFileNames : list string)
  : IChatMessage.t :=
  IChatMessage.mk "" user userText JsDate.InvalidDate (Some imageDataUrls)
                  (Some fileTexts) (Some otherFileNames).

(** The conversation a request is built from. *)
Definition conversation (messages : list IChatMessage.t) (userText : string)
    (imageDataUrls : list string) (fileTexts : list FileText.t)
    (otherFileNames : list string) (forRegenerate : bool)
  : list IChatMessage.t :=
  if forRegenerate then dropLast 1 messages
  else (messages ++
        [pendingTurn userText imageDataUrls fileTexts otherFileNames])%list.

Definition isUserMessage (m : IChatMessage.t) : bool :=
  Role_eqb (IChatMessage.role m) user.

Definition present {A : Type} (x : option (list A)) : bool :=
  match x with Some (_ :: _) => true | _ => false end.

(** A user message with extracted file text, with unextracted files,
    with inline images. *)
Definition hasFileText (m : IChatMessage.t) : bool :=
  isUserMessage m && present (IChatMessage.fileTexts m).
Definition hasUnextracted (m : IChatMessage.t) : bool :=
  isUserMessage m && present (IChatMessage.otherFileNames m).
Definition hasImage (m : IChatMessage.t) : bool :=
  isUserMessage m && present (IChatMessage.imageDataUrls m).

(** A message with a PDF whose text was extracted and a file whose
    content was not. *)
Definition mixedTurnFiles : list FileText.t := [FileText.mk "report.pdf" "Q3"].
Definition mixedTurnOthers : list string := ["scan.bin"].

End Builder.

(* ================================================================= *)
(** ** The [Chat] component: state, handlers and effects *)

Module Chat.
Import Js.

(** The state of the component: the [useState] cells the engine uses,
    and the ref [abortRef].  An [AbortController] is named by a number;
    [aborted] lists the controllers whose [abort()] was called. *)
Record State : Type := mkState {
  messages : list IChatMessage.t;
  input : string;
  attachments : list IChatAttachment.t;
  model : string;
  loading : bool;
  error : option string;
  projects : list IProject.t;
  currentProjectId : option string;
  allChats : list IStoredChat.t;
  chats : list IStoredChat.t;
  currentChatId : option string;
  abortRef : option nat;
  aborted : list nat
}.

(** What a handler works on: the component state, [localStorage], and
    the remote library. *)
Record Env : Type := mkEnv {
  state : State;
  storage : ChatStorage.LocalStorage;
  world : SharePoint.World
}.

(** The props: the API key and whether the library adapter is in use
    ([useSharePoint && spConfig]). *)
Record Props : Type := mkProps { apiKey : string; useSharePoint : bool }.

Definition setMessages (f : list IChatMessage.t -> list IChatMessage.t)
    (s : State) : State :=
  mkState (f (messages s)) (input s) (attachments s) (model s) (loading s)
    (error s) (projects s) (currentProjectId s) (allChats s) (chats s)
    (currentChatId s) (abortRef s) (aborted s).

Definition setInput (v : string) (s : State) : State :=
  mkState (messages s) v (attachments s) (model s) (loading s)
    (error s) (projects s) (currentProjectId s) (allChats s) (chats s)
    (currentChatId s) (abortRef s) (aborted s).

Definition setAttachments (v : list IChatAttachment.t) (s : State) : State :=
  mkState (messages s) (input s) v (model s) (loading s)
    (error s) (projects s) (currentProjectId s) (allChats s) (chats s)
    (currentChatId s) (abortRef s) (aborted s).

Definition setLoading (v : bool) (s : State) : State :=
  mkState (messages s) (input s) (attachments s) (model s) v
    (error s) (projects s) (currentProjectId s) (allChats s) (chats s)
    (currentChatId s) (abortRef s) (aborted s).

Definition setError (v : option string) (s : State) : State :=
  mkState (messages s) (input s) (attachments s) (model s) (loading s)
    v (projects s) (currentProjectId s) (allChats s) (chats s)
    (currentChatId s) (abortRef s) (aborted s).

Definition setProjects (f : list IProject.t -> list IProject.t) (s : State)
  : State :=
  mkState (messages s) (input s) (attachments s) (model s) (loading s)
    (error s) (f (projects s)) (currentProjectId s) (allChats s) (chats s)
    (currentChatId s) (abortRef s) (aborted s).

Definition setCurrentProjectIdState (v : option string) (s : State) : State :=
  mkState (messages s) (input s) (attachments s) (model s) (loading s)
    (error s) (projects s) v (allChats s) (chats s)
    (currentChatId s) (abortRef s) (aborted s).

Definition setAllChats (f : list IStoredChat.t -> list IStoredChat.t)
    (s : State) : State :=
  mkState (messages s) (input s) (attachments s) (model s) (loading s)
    (error s) (projects s) (currentProjectId s) (f (allChats s)) (chats s)
    (currentChatId s) (abortRef s) (aborted s).

Definition setChats (f : list IStoredChat.t -> list IStoredChat.t)
    (s : State) : State :=
  mkState (messages s) (input s) (attachments s) (model s) (loading s)
    (error s) (projects s) (currentProjectId s) (allChats s) (f (chats s))
    (currentChatId s) (abortRef s) (aborted s).

Definition setCurrentChatIdState (v : option string) (s : State) : State :=
  mkState (messages s) (input s) (attachments s) (model s) (loading s)
    (error s) (projects s) (currentProjectId s) (allChats s) (chats s)
    v (abortRef s) (aborted s).

Definition setAbortRef (v : option nat) (s : State) : State :=
  mkState (messages s) (input s) (attachments s) (model s) (loading s)
    (error s) (projects s) (currentProjectId s) (allChats s) (chats s)
    (currentChatId s) v (aborted s).

(** [abortRef.current?.abort()] *)
Definition abortCurrent (s : State) : State :=
  match abortRef s with
  | Some c =>
      mkState (messages s) (input s) (attachments s) (model s) (loading s)
        (error s) (projects s) (currentProjectId s) (allChats s) (chats s)
        (currentChatId s) (abortRef s) (c :: aborted s)
  | None => s
  end.

Definition isAborted (c : nat) (s : State) : bool :=
  existsb (Nat.eqb c) (aborted s).

Definition onState (f : State -> State) (e : Env) : Env :=
  mkEnv (f (state e)) (storage e) (world e).

Definition onStorage
    (f : ChatStorage.LocalStorage -> ChatStorage.LocalStorage) (e : Env) : Env :=
  mkEnv (state e) (f (storage e)) (world e).

(** Run an operation of the remote adapter and continue with [onOk] when
    its promise resolves, with [onErr] when it rejects. *)
Definition await {A : Type} (op : SharePoint.M A) (onOk : A -> State -> State)
    (onErr : string -> State -> State) (e : Env) : Env :=
  match op (world e) with
  | (Ok a, w) => mkEnv (onOk a (state e)) (storage e) w
  | (Throw msg, w) => mkEnv (onErr msg (state e)) (storage e) w
  end.

(** The callback [setCurrentProjectId] of the component. *)
Definition setCurrentProjectId (id : option string) (e : Env) : Env :=
  let e := onState (setCurrentProjectIdState id) e in
  let e := onStorage (ChatStorage.setCurrentProjectId id) e in
  let e := onState (setCurrentChatIdState None) e in
  onStorage (ChatStorage.setCurrentChatId None) e.

(** The callback [setCurrentChatId] of the component. *)
Definition setCurrentChatId (id : option string) (e : Env) : Env :=
  let e := onState (setCurrentChatIdState id) e in
  onStorage (ChatStorage.setCurrentChatId id) e.

Definition chatOfProject (projectId : string) (c : IStoredChat.t) : bool :=
  String.eqb (IStoredChat.projectId c) projectId.

Definition hasChatId (id : string) (c : IStoredChat.t) : bool :=
  String.eqb (IStoredChat.id c) id.

(** The effect on [currentProjectId], [useSharePoint], [allChats]: the
    chats shown are those of the current project.  This is the body of
    the effect; React runs it after a render in which one of the three
    changed, and not otherwise. *)
Definition syncChats (p : Props) (e : Env) : Env :=
  if ChatStorage.truthyId (currentProjectId (state e)) then
    match currentProjectId (state e) with
    | Some pid =>
        if useSharePoint p
        then onState (setChats (fun _ =>
               filter (chatOfProject pid) (allChats (state e)))) e
        else onState (setChats (fun _ =>
               ChatStorage.getChatsForProject pid (storage e))) e
    | None => e
    end
  else onState (setChats (fun _ => [])) e.

(** The effect on [currentChatId], [useSharePoint], [allChats]: load the
    messages of the current chat.  A chat that is not found, or that is
    stored with no message, leaves [messages] as they are.  This is the
    body of the effect; React runs it after a render in which one of
    the three changed, and not otherwise. *)
Definition loadMessages (p : Props) (e : Env) : Env :=
  if ChatStorage.truthyId (currentChatId (state e)) then
    match currentChatId (state e) with
    | Some cid =>
        let all := if useSharePoint p then allChats (state e)
                   else ChatStorage.getAllChats (storage e) in
        match find (hasChatId cid) all with
        | Some chat =>
            match IStoredChat.messages chat with
            | [] => e
            | ms => onState (setMessages (fun _ =>
                      map ChatStorage.storedToMessage ms)) e
            end
        | None => e
        end
    | None => e
    end
  else onState (setMessages (fun _ => [])) e.

(** [all[idx] = updated] at the first chat with that id, else
    [all.push(updated)]; also the callback of [setAllChats] after a save. *)
Fixpoint upsert (cid : string) (updated : IStoredChat.t)
    (l : list IStoredChat.t) : list IStoredChat.t :=
  match l with
  | [] => [updated]
  | c :: r => if hasChatId cid c then updated :: r else c :: upsert cid updated r
  end.

(** [a ?? b] *)
Definition orDefault {A : Type} (a : option A) (b : A) : A :=
  match a with Some x => x | None => b end.

(** [persistCurrentChat(msgs, title)]; [now] is the clock.  It throws
    when a message cannot be converted. *)
Definition persistCurrentChat (p : Props) (msgs : list IChatMessage.t)
    (title : option string) (now : Z) (e : Env) : Result Env :=
  match currentChatId (state e), currentProjectId (state e) with
  | Some cid, Some pid =>
      if truthy cid && truthy pid then
        let nowIso := JsDate.isoOfTime now in
        let all := if useSharePoint p then allChats (state e)
                   else ChatStorage.getAllChats (storage e) in
        let existing := find (hasChatId cid) all in
        let titleToUse :=
          orDefault title
            (orDefault (option_map IStoredChat.title existing) "New chat") in
        match ChatStorage.mapResult ChatStorage.messageToStored msgs with
        | Throw err => Throw err
        | Ok stored =>
            let updated :=
              IStoredChat.mk cid pid titleToUse stored
                (orDefault (option_map IStoredChat.createdAt existing) nowIso)
                nowIso in
            if useSharePoint p then
              Ok (await (SharePoint.saveChatToLibrary updated)
                    (fun _ => setAllChats (upsert cid updated))
                    (fun msg => setError (Some msg)) e)
            else
              let e := onStorage (ChatStorage.saveAllChats
                                    (upsert cid updated all)) e in
              Ok (onState (setChats (fun _ =>
                    ChatStorage.getChatsForProject pid (storage e))) e)
        end
      else Ok e
  | _, _ => Ok e
  end.

(** A chat record as [newChat] and [sendMessage] create it. *)
Definition newChatRecord (id projectId title : string) (now : Z)
  : IStoredChat.t :=
  IStoredChat.mk id projectId title [] (JsDate.isoOfTime now)
                 (JsDate.isoOfTime now).

(** Store a chat record that was just created, with either adapter;
    [onErr] is the [catch] of the remote save. *)
Definition storeNewChat (p : Props) (record : IStoredChat.t)
    (projectId : string) (onErr : string -> State -> State) (e : Env) : Env :=
  if useSharePoint p then
    await (SharePoint.saveChatToLibrary record)
          (fun _ => setAllChats (fun prev => prev ++ [record])%list) onErr e
  else
    let e := onStorage (fun ls =>
               ChatStorage.saveAllChats
                 (ChatStorage.getAllChats ls ++ [record])%list ls) e in
    onState (setChats (fun _ =>
      ChatStorage.getChatsForProject projectId (storage e))) e.

(** [newChat]; [newId] is the id [generateId()] returns. *)
Definition newChat (p : Props) (newId : string) (now : Z) (e : Env) : Env :=
  let e := onState abortCurrent e in
  let e := onState (setInput "") e in
  let e := onState (setAttachments []) e in
  let e := onState (setError None) e in
  let e := onState (setLoading false) e in
  match currentProjectId (state e) with
  | Some pid =>
      if truthy pid then
        let record := newChatRecord newId pid "New chat" now in
        let e := storeNewChat p record pid (fun msg => setError (Some msg)) e in
        let e := setCurrentChatId (Some newId) e in
        let e := onState (setCurrentChatIdState (Some newId)) e in
        let e := onStorage (ChatStorage.setCurrentChatId (Some newId)) e in
        onState (setMessages (fun _ => [])) e
      else e
  | None => e
  end.

(** [handleSelectChat] *)
Definition handleSelectChat (chat : IStoredChat.t) (e : Env) : Env :=
  setCurrentChatId (Some (IStoredChat.id chat)) e.

(** [Promise.all(ids.map(deleteChatFromLibrary))]: every deletion runs;
    the result rejects with the first rejection. *)
Fixpoint deleteAll (ids : list string) : SharePoint.M unit :=
  fun w =>
    match ids with
    | [] => (Ok tt, w)
    | id :: rest =>
        let '(r, w1) := SharePoint.deleteChatFromLibrary id w in
        let '(r', w2) := deleteAll rest w1 in
        (match r with Throw msg => Throw msg | Ok _ => r' end, w2)
    end.

Definition notProject (id : string) (x : IProject.t) : bool :=
  negb (String.eqb (IProject.id x) id).

Definition notOfProject (id : string) (c : IStoredChat.t) : bool :=
  negb (chatOfProject id c).

Definition isCurrentProject (id : string) (s : State) : bool :=
  match currentProjectId s with
  | Some cur => String.eqb cur id
  | None => false
  end.

(** The selection after the current project was deleted: the first
    remaining project and its first chat, or nothing. *)
Definition selectAfterDelete (remaining : list IProject.t)
    (nextAll : list IStoredChat.t) (e : Env) : Env :=
  match remaining with
  | first :: _ =>
      let e := setCurrentProjectId (Some (IProject.id first)) e in
      let firstInNew := find (chatOfProject (IProject.id first)) nextAll in
      setCurrentChatId (option_map IStoredChat.id firstInNew) e
  | [] =>
      let e := setCurrentProjectId None e in
      let e := setCurrentChatId None e in
      onState (setMessages (fun _ => [])) e
  end.

(** [handleDeleteProject]; [confirmed] is the answer to the dialog. *)
Definition handleDeleteProject (p : Props) (proj : IProject.t)
    (confirmed : bool) (e : Env) : Env :=
  if negb confirmed then e
  else
    let st := state e in
    let pid := IProject.id proj in
    let projectChats := filter (chatOfProject pid) (chats st) in
    if useSharePoint p then
      let op :=
        SharePoint.bind (deleteAll (map IStoredChat.id projectChats))
          (fun _ => SharePoint.saveProjectsToLibrary
                      (filter (notProject pid) (projects st))) in
      match op (world e) with
      | (Throw msg, w) =>
          mkEnv (setError (Some msg) (state e)) (storage e) w
      | (Ok _, w) =>
          let e := mkEnv (state e) (storage e) w in
          let e := onState (setProjects (filter (notProject pid))) e in
          let e := onState (setAllChats (filter (notOfProject pid))) e in
          let e := onState (setChats (filter (notOfProject pid))) e in
          if isCurrentProject pid st
          then selectAfterDelete (filter (notProject pid) (projects st))
                                 (filter (notOfProject pid) (allChats st)) e
          else e
      end
    else
      let nextProjects := filter (notProject pid) (projects st) in
      let all := filter (notOfProject pid) (ChatStorage.getAllChats (storage e)) in
      let e := onStorage (ChatStorage.saveProjects nextProjects) e in
      let e := onStorage (ChatStorage.saveAllChats all) e in
      let e := onState (setProjects (fun _ => nextProjects)) e in
      let e := onState (setAllChats (fun _ => all)) e in
      let e := onState (setChats (filter (notOfProject pid))) e in
      if isCurrentProject pid st then selectAfterDelete nextProjects all e
      else e.

(** The values [generateId()], [new Date()] and [new AbortController()]
    give during one call of [sendMessage]. *)
Record Fresh : Type := mkFresh {
  userMessageId : string;
  chatId : string;
  assistantId : string;
  now : Z;
  controller : nat
}.

(** The body of the POST to the completion endpoint, with the signal
    that can abort it. *)
Record Request : Type := mkRequest {
  reqModel : string;
  reqMessages : list Api.Message;
  max_tokens : Z;
  stream : bool;
  signal : nat
}.

(** A send in flight: its signal, the id of the assistant placeholder,
    and the two local variables of the read loop. *)
Record Flight : Type := mkFlight {
  flightSignal : nat;
  placeholderId : string;
  buffer : string;
  fullContent : string
}.

Inductive Dispatch : Type :=
| NotSent
| Sent (request : Request) (flight : Flight).

(** [attachments.filter((a) => a.dataUrl).map((a) => a.dataUrl)] *)
Definition imageUrlsOf (l : list IChatAttachment.t) : list string :=
  flat_map (fun a =>
    match IChatAttachment.dataUrl a with
    | Some u => if truthy u then [u] else []
    | None => []
    end) l.

(** [attachments.filter((a) => a.textContent !== undefined).map(...)] *)
Definition fileTextsOf (l : list IChatAttachment.t) : list FileText.t :=
  flat_map (fun a =>
    match IChatAttachment.textContent a with
    | Some t => [FileText.mk (File.name (IChatAttachment.file a)) t]
    | None => []
    end) l.

Definition isOtherFile (a : IChatAttachment.t) : bool :=
  negb (ChatStorage.truthyId (IChatAttachment.dataUrl a))
  && match IChatAttachment.textContent a with
     | None => true
     | Some _ => false
     end.

(** [attachments.filter((a) => !a.dataUrl && a.textContent ===
    undefined).map((a) => a.file.name)] *)
Definition otherFileNamesOf (l : list IChatAttachment.t) : list string :=
  map (fun a => File.name (IChatAttachment.file a)) (filter isOtherFile l).

(** [[...messages].reverse().find((m) => m.role === 'user')] *)
Definition lastUserOf (ms : list IChatMessage.t) : option IChatMessage.t :=
  find Builder.isUserMessage (List.rev ms).

(** [xs.length ? xs : undefined] *)
Definition nonEmpty {A : Type} (xs : list A) : option (list A) :=
  match xs with [] => None | _ => Some xs end.

Definition isEmpty {A : Type} (xs : list A) : bool :=
  match xs with [] => true | _ => false end.

Definition API_KEY_MISSING : string :=
  "OpenAI API key is not set. Add it in the web part properties (pencil icon).".

(** The user message [sendMessage] appends for a new turn. *)
Definition userMessageOf (fr : Fresh) (userText : string)
    (imageDataUrls : list string) (fileTexts : list FileText.t)
    (otherFileNames : list string) : IChatMessage.t :=
  IChatMessage.mk (userMessageId fr) user
    (orElse userText
       (if isEmpty imageDataUrls then "(Sent files)" else "(Sent images)"))
    (JsDate.TimeValue (now fr))
    (nonEmpty imageDataUrls) (nonEmpty fileTexts) (nonEmpty otherFileNames).

Definition assistantPlaceholder (fr : Fresh) : IChatMessage.t :=
  IChatMessage.mk (assistantId fr) assistant "" (JsDate.TimeValue (now fr))
                  None None None.

(** The title of the chat [sendMessage] creates when none is selected. *)
Definition firstTitle (userText : string) (imageDataUrls : list string)
  : string :=
  orElse (slice (trim userText) 0 50)
         (orElse (if isEmpty imageDataUrls then "Files" else "Image")
                 "New chat").

(** The branch [if (!options?.regenerate)] of [sendMessage]: clear the
    input, create a chat when none is selected, append the user
    message. *)
Definition appendUserTurn (p : Props) (fr : Fresh) (userText : string)
    (imageDataUrls : list string) (fileTexts : list FileText.t)
    (otherFileNames : list string) (st : State) (e : Env) : Env :=
  let e := onState (setInput "") e in
  let e := onState (setAttachments []) e in
  let userMessage :=
    userMessageOf fr userText imageDataUrls fileTexts otherFileNames in
  let e :=
    if negb (ChatStorage.truthyId (currentChatId st))
       && ChatStorage.truthyId (currentProjectId st)
    then
      match currentProjectId st with
      | Some pid =>
          let record :=
            newChatRecord (chatId fr) pid (firstTitle userText imageDataUrls)
                          (now fr) in
          let e := onState (setCurrentChatIdState (Some (chatId fr))) e in
          let e := onStorage
                     (ChatStorage.setCurrentChatId (Some (chatId fr))) e in
          storeNewChat p record pid (fun _ s => s) e
      | None => e
      end
    else e in
  onState (setMessages (fun prev => prev ++ [userMessage])%list) e.

(** [sendMessage(options)] up to the dispatch of the request.  The
    closure holds the state [st] of the render; the queued updates act
    on the state of [e] in order. *)
Definition sendMessage (p : Props) (regenerate : bool) (fr : Fresh) (e : Env)
  : Env * Dispatch :=
  let st := state e in
  if negb (truthy (trim (apiKey p)))
  then (onState (setError (Some API_KEY_MISSING)) e, NotSent)
  else
    let lastUser :=
      if regenerate && (2 <=? Z.of_nat (List.length (messages st)))
      then lastUserOf (messages st) else None in
    let userText :=
      match lastUser with
      | Some u => IChatMessage.content u
      | None => trim (input st)
      end in
    let imageDataUrls :=
      match lastUser with
      | Some u => Builder.orEmpty (IChatMessage.imageDataUrls u)
      | None => imageUrlsOf (attachments st)
      end in
    let fileTexts :=
      match lastUser with
      | Some u => Builder.orEmpty (IChatMessage.fileTexts u)
      | None => fileTextsOf (attachments st)
      end in
    let otherFileNames :=
      match lastUser with
      | Some u => Builder.orEmpty (IChatMessage.otherFileNames u)
      | None => otherFileNamesOf (attachments st)
      end in
    let e :=
      match lastUser with
      | Some _ => onState (setMessages (Builder.dropLast 2)) e
      | None => e
      end in
    let hasContent :=
      truthy userText || negb (isEmpty imageDataUrls)
      || negb (isEmpty fileTexts) || negb (isEmpty otherFileNames) in
    if negb hasContent && negb regenerate then (e, NotSent)
    else if loading st then (e, NotSent)
    else
      let e := onState (setError None) e in
      let e :=
        if regenerate then e
        else appendUserTurn p fr userText imageDataUrls fileTexts
                            otherFileNames st e in
      let e := onState (setMessages (fun prev =>
                 prev ++ [assistantPlaceholder fr])%list) e in
      let e := onState (setLoading true) e in
      let e := onState (setAbortRef (Some (controller fr))) e in
      let apiMessages :=
        Builder.buildOpenAIMessages (messages st) userText imageDataUrls
          fileTexts otherFileNames regenerate in
      (e, Sent (mkRequest (model st) apiMessages 1024 true (controller fr))
               (mkFlight (controller fr) (assistantId fr) "" "")).

(** [s.split('\n')]: always at least one piece. *)
Fixpoint splitLines (s : string) : list string :=
  match s with
  | EmptyString => [EmptyString]
  | String c r =>
      let rest := splitLines r in
      if Ascii.eqb c (ascii_of_N 10) then EmptyString :: rest
      else match rest with
           | h :: t => String c h :: t
           | [] => [String c EmptyString]
           end
  end.

(** [prev.map((m) => (m.id === id ? { ...m, content } : m))] *)
Definition putContent (id content : string) (ms : list IChatMessage.t)
  : list IChatMessage.t :=
  map (fun m => if String.eqb (IChatMessage.id m) id
                then IChatMessage.withContent m content else m) ms.

(** The same map in the [catch] block, which also writes
    [role: 'assistant']. *)
Definition putError (id content : string) (ms : list IChatMessage.t)
  : list IChatMessage.t :=
  map (fun m =>
         if String.eqb (IChatMessage.id m) id
         then IChatMessage.mk (IChatMessage.id m) assistant content
                (IChatMessage.timestamp m) (IChatMessage.imageDataUrls m)
                (IChatMessage.fileTexts m) (IChatMessage.otherFileNames m)
         else m) ms.

(** The [finally] block of [sendMessage]. *)
Definition finish (s : State) : State := setAbortRef None (setLoading false s).

Section Stream.

(** [JSON.parse(data).choices?.[0]?.delta?.content] for the data of one
    event; [None] when the data does not parse or carries no content. *)
Variable deltaOf : string -> option string.

(** One line of the event stream. *)
Definition onLine (line : string) (acc : Flight * State) : Flight * State :=
  let '(fl, st) := acc in
  if startsWith line "data: " then
    let data := sliceFrom line 6 in
    if String.eqb data "[DONE]" then acc
    else match deltaOf data with
         | Some delta =>
             if truthy delta then
               let full := fullContent fl ++ delta in
               (mkFlight (flightSignal fl) (placeholderId fl) (buffer fl) full,
                setMessages (putContent (placeholderId fl) full) st)
             else acc
         | None => acc
         end
  else acc.

(** One pass of the read loop on the decoded chunk [value]. *)
Definition onChunk (value : string) (fl : Flight) (st : State)
  : Flight * State :=
  let lines := splitLines (buffer fl ++ value) in
  let fl := mkFlight (flightSignal fl) (placeholderId fl)
                     (last lines EmptyString) (fullContent fl) in
  fold_left (fun acc line => onLine line acc) (removelast lines) (fl, st).

(** The reader reports [done]: the reply is complete. *)
Definition onDone (fl : Flight) (st : State) : State :=
  let full := if truthy (trim (fullContent fl)) then fullContent fl
              else "No response." in
  finish (setMessages (putContent (placeholderId fl) full) st).

(** A failure that is not an abort: the status was not ok, there was no
    body, or the transport threw. *)
Definition onFailure (errMsg : string) (fl : Flight) (st : State) : State :=
  let st := setMessages (putError (placeholderId fl) ("Error: " ++ errMsg)) st in
  finish (setError (Some errMsg) st).

(** The awaited promise rejects with an [AbortError]. *)
Definition onAbortError (st : State) : State := finish st.

(** What the reader delivers. *)
Inductive Delivery : Type :=
| Chunk (value : string)
| Done
| Failed (errMsg : string).

(** [await reader.read()] and what follows it.  Once the signal of the
    request is aborted the read rejects with an [AbortError] whatever
    the server sent; [None] for the flight means the call has returned. *)
Definition deliver (d : Delivery) (fl : Flight) (st : State)
  : option Flight * State :=
  if isAborted (flightSignal fl) st then (None, onAbortError st)
  else match d with
       | Chunk value =>
           let '(fl', st') := onChunk value fl st in (Some fl', st')
       | Done => (None, onDone fl st)
       | Failed errMsg => (None, onFailure errMsg fl st)
       end.

(** A whole reply: the deliveries of one flight in order, until the
    call returns. *)
Fixpoint run (ds : list Delivery) (fl : Flight) (st : State) : State :=
  match ds with
  | [] => st
  | d :: rest =>
      match deliver d fl st with
      | (Some fl', st') => run rest fl' st'
      | (None, st') => st'
      end
  end.

(** The chunks of a reply applied in order. *)
Definition received (values : list string) (fl : Flight) (st : State)
  : Flight * State :=
  fold_left (fun acc v => onChunk v (fst acc) (snd acc)) values (fl, st).

(** What can happen to a session: a handler runs, the effects on the
    current project and chat run, or the reader of a flight delivers. *)
Inductive Event : Type :=
| Send (regenerate : bool) (fr : Fresh)
| SelectChat (chat : IStoredChat.t)
| NewChat (newId : string) (at_ : Z)
| DeleteProject (proj : IProject.t) (confirmed : bool)
| Effects
| Deliver (fl : Flight) (d : Delivery).

Definition step (p : Props) (ev : Event) (e : Env) : Env :=
  match ev with
  | Send rg fr => fst (sendMessage p rg fr e)
  | SelectChat chat => handleSelectChat chat e
  | NewChat newId at_ => newChat p newId at_ e
  | DeleteProject proj confirmed => handleDeleteProject p proj confirmed e
  | Effects => loadMessages p (syncChats p e)
  | Deliver fl d => onState (fun st => snd (deliver d fl st)) e
  end.

Definition steps (p : Props) (evs : list Event) (e : Env) : Env :=
  fold_left (fun e ev => step p ev e) evs e.

End Stream.

End Chat.

(* ================================================================= *)
(** ** Sample data used to instantiate the theorems *)

Module Sample.

Definition localProps : Chat.Props := Chat.mkProps "sk-test" false.
Definition libraryProps : Chat.Props := Chat.mkProps "sk-test" true.

Definition noFailure (e : SharePoint.Endpoint) : option SharePoint.Failure :=
  None.

Definition server : SharePoint.Server :=
  SharePoint.mkServer 7 "/sites/team/Chats" [] noFailure.

Definition world : SharePoint.World :=
  SharePoint.mkWorld "Chats" None server.

Definition question : IChatMessage.t :=
  IChatMessage.mk "1700000000000-q" user "What is the capital of France?"
    (JsDate.TimeValue 1700000000000) None None None.

Definition answer : IChatMessage.t :=
  IChatMessage.mk "1700000001000-a" assistant "Paris."
    (JsDate.TimeValue 1700000001000) None None None.

Definition fresh : Chat.Fresh :=
  Chat.mkFresh "1700000002000-u" "1700000002000-c" "1700000002000-p"
               1700000002000 1.

(** An idle session of the local adapter showing one completed turn. *)
Definition idleState : Chat.State :=
  Chat.mkState [question; answer] "" [] "gpt-4o-mini" false None
    [IProject.mk "p1" "Default" "2023-11-14T22:13:20.000Z"] (Some "p1")
    [] [] (Some "c1") None [].

Definition idleEnv : Chat.Env :=
  Chat.mkEnv idleState ChatStorage.emptyStorage world.

Definition photo : File.t :=
  File.mk "photo.png" "image/png" 2048 (Ok "data:image/png;base64,AAAA")
    (Throw "not text") (Throw "not a PDF") (Throw "not a document")
    (Throw "not a workbook").

(** The same session with one image attached and nothing typed. *)
Definition attachedState : Chat.State :=
  Chat.setAttachments
    [Extractor.imageAttachment photo "data:image/png;base64,AAAA"] idleState.

Definition attachedEnv : Chat.Env :=
  Chat.mkEnv attachedState ChatStorage.emptyStorage world.

(** A turn in flight: the question was sent, the placeholder of the
    reply is the last message. *)
Definition placeholder : IChatMessage.t := Chat.assistantPlaceholder fresh.

Definition streamingState : Chat.State :=
  Chat.mkState [question; placeholder] "" [] "gpt-4o-mini" true None
    [IProject.mk "p1" "Default" "2023-11-14T22:13:20.000Z"] (Some "p1")
    [] [] (Some "c1") (Some 1%nat) [].

Definition flight : Chat.Flight :=
  Chat.mkFlight 1 (Chat.assistantId fresh) "" "".






Definition storedChat : IStoredChat.t :=
  IStoredChat.mk "c1" "p1" "New chat" [] "2023-11-14T22:13:20.000Z"
                 "2023-11-14T22:13:20.000Z".




(** A library session with two projects, each owning one chat; the
    first project is the selected one, and [chats] is what the effect on
    the current project makes it. *)
Definition projectOne : IProject.t :=
  IProject.mk "p1" "Default" "2023-11-14T22:13:20.000Z".
Definition projectTwo : IProject.t :=
  IProject.mk "p2" "Archive" "2023-11-14T22:13:20.000Z".

Definition chatOne : IStoredChat.t := storedChat.
Definition chatTwo : IStoredChat.t :=
  IStoredChat.mk "c2" "p2" "Old notes" [] "2023-11-13T10:00:00.000Z"
                 "2023-11-13T10:00:00.000Z".

Definition libraryWorld : SharePoint.World :=
  SharePoint.mkWorld "Chats" None
    (SharePoint.mkServer 7 "/sites/team/Chats"
       [ ("chat2etc-projects-7.json", JsonProjects [projectOne; projectTwo]);
         (SharePoint.chatFileName "c1", JsonChat chatOne);
         (SharePoint.chatFileName "c2", JsonChat chatTwo) ]
       noFailure).

Definition libraryLoaded : Chat.State :=
  Chat.mkState [] "" [] "gpt-4o-mini" false None [projectOne; projectTwo]
    (Some "p1") [chatOne; chatTwo] [] (Some "c1") None [].

Definition libraryEnv : Chat.Env :=
  Chat.syncChats libraryProps
    (Chat.mkEnv libraryLoaded ChatStorage.emptyStorage libraryWorld).

(** The turn in flight of [streamingState] with the local adapter; the
    store also holds a second chat of the project, created earlier and
    still empty. *)
Definition emptyChat : IStoredChat.t :=
  IStoredChat.mk "c2" "p1" "New chat" [] "2023-11-14T22:00:00.000Z"
                 "2023-11-14T22:00:00.000Z".

Definition streamingEnv : Chat.Env :=
  Chat.mkEnv streamingState
    (ChatStorage.saveAllChats [chatOne; emptyChat] ChatStorage.emptyStorage)
    world.

(** A server whose events carry their data as the delta. *)
Definition echoDelta (data : string) : option string := Some data.

End Sample.

(* ================================================================= *)
(** ** The other handlers, effects and derived values of [Chat] *)

Module Handlers.
Import Js Chat.

Definition DEFAULT_MODEL : string := "gpt-4o-mini".

(** [MODEL_OPTIONS]: value and label. *)
Definition MODEL_OPTIONS : list (string * string) :=
  [ ("gpt-4o-mini", "GPT-4o mini"); ("gpt-4o", "GPT-4o");
    ("gpt-4o-turbo", "GPT-4o turbo"); ("gpt-4-turbo", "GPT-4 turbo");
    ("gpt-3.5-turbo", "GPT-3.5 turbo") ].

Definition setModel (v : string) (s : State) : State :=
  mkState (messages s) (input s) (attachments s) v (loading s)
    (error s) (projects s) (currentProjectId s) (allChats s) (chats s)
    (currentChatId s) (abortRef s) (aborted s).

(** The [useState] initialisers. *)
Definition initialState (p : Props) (ls : ChatStorage.LocalStorage) : State :=
  mkState [] "" [] DEFAULT_MODEL false None
    (if useSharePoint p then [] else ChatStorage.getProjects ls)
    (ChatStorage.getCurrentProjectId ls) [] []
    (ChatStorage.getCurrentChatId ls) None [].

(** [messages.length >= 2 && messages[messages.length - 2]?.role ===
    'user'] *)
Definition lastUserMessage (s : State) : bool :=
  (2 <=? Z.of_nat (List.length (messages s)))
  && match nth_error (messages s) (List.length (messages s) - 2) with
     | Some m => Builder.isUserMessage m
     | None => false
     end.

Definition showApiKeyWarning (p : Props) : bool :=
  negb (truthy (trim (apiKey p))).

(** [(input.trim().length > 0 || attachments.length > 0) && !loading] *)
Definition canSend (s : State) : bool :=
  (truthy (trim (input s)) || negb (isEmpty (attachments s)))
  && negb (loading s).

Definition suggestedModel (s : State) : string :=
  Hint.getSuggestedModelValue (input s) (negb (isEmpty (attachments s))).

Definition suggestedOption (s : State) : option (string * string) :=
  find (fun o => String.eqb (fst o) (suggestedModel s)) MODEL_OPTIONS.

Definition showModelSuggestion (s : State) : bool :=
  canSend s
  && match suggestedOption s with Some _ => true | None => false end
  && negb (String.eqb (suggestedModel s) (model s))
  && negb (loading s).

(** The condition under which the regenerate bar is rendered. *)
Definition showRegenerate (s : State) : bool :=
  lastUserMessage s && (2 <=? Z.of_nat (List.length (messages s)))
  && negb (loading s).

(** [xs.filter((_, i) => i !== index)] *)
Fixpoint removeAt {A : Type} (index : nat) (xs : list A) : list A :=
  match xs, index with
  | [], _ => []
  | _ :: r, O => r
  | x :: r, S i => x :: removeAt i r
  end.

Definition removeAttachment (index : nat) (s : State) : State :=
  setAttachments (removeAt index (attachments s)) s.

(** The change handler of the file input, on the component state. *)
Definition onFileChange (files : list File.t) (s : State) : State :=
  let '(atts, err) := Extractor.onFileChange files (attachments s) (error s) in
  setError err (setAttachments atts s).

(** Run an operation of the remote adapter and continue on the whole
    environment. *)
Definition awaitEnv {A : Type} (op : SharePoint.M A) (onOk : A -> Env -> Env)
    (onErr : string -> Env -> Env) (e : Env) : Env :=
  match op (world e) with
  | (Ok a, w) => onOk a (mkEnv (state e) (storage e) w)
  | (Throw msg, w) => onErr msg (mkEnv (state e) (storage e) w)
  end.

(** [name?.trim()] is falsy: the dialog was cancelled, or the answer is
    blank. *)
Definition blank (answer : option string) : bool :=
  match answer with
  | Some a => negb (truthy (trim a))
  | None => true
  end.

(** [handleAddProject]; [answer] is what [window.prompt] returns. *)
Definition handleAddProject (p : Props) (answer : option string)
    (newId : string) (now : Z) (e : Env) : Env :=
  match answer with
  | None => e
  | Some name =>
      if blank answer then e
      else
        let newProject := IProject.mk newId (trim name) (JsDate.isoOfTime now) in
        let next := (projects (state e) ++ [newProject])%list in
        if useSharePoint p then
          awaitEnv (SharePoint.saveProjectsToLibrary next)
            (fun _ e =>
               setCurrentProjectId (Some newId)
                 (onState (setProjects (fun _ => next)) e))
            (fun msg => onState (setError (Some msg))) e
        else
          let e := onStorage (ChatStorage.saveProjects next) e in
          let e := onState (setProjects (fun _ => next)) e in
          setCurrentProjectId (Some newId) e
  end.

(** [{ ...x, name }] *)
Definition withName (x : IProject.t) (name : string) : IProject.t :=
  IProject.mk (IProject.id x) name (IProject.createdAt x).

(** [handleRenameProject] *)
Definition handleRenameProject (p : Props) (proj : IProject.t)
    (answer : option string) (e : Env) : Env :=
  match answer with
  | None => e
  | Some name =>
      if blank answer || String.eqb name (IProject.name proj) then e
      else
        let next :=
          map (fun x => if String.eqb (IProject.id x) (IProject.id proj)
                        then withName x (trim name) else x)
              (projects (state e)) in
        if useSharePoint p then
          awaitEnv (SharePoint.saveProjectsToLibrary next)
            (fun _ => onState (setProjects (fun _ => next)))
            (fun msg => onState (setError (Some msg))) e
        else
          let e := onStorage (ChatStorage.saveProjects next) e in
          onState (setProjects (fun _ => next)) e
  end.

(** [{ ...c, title, updatedAt }] *)
Definition retitled (c : IStoredChat.t) (title updatedAt : string)
  : IStoredChat.t :=
  IStoredChat.mk (IStoredChat.id c) (IStoredChat.projectId c) title
    (IStoredChat.messages c) (IStoredChat.createdAt c) updatedAt.

(** [all[idx] = updated] at the first chat with that id, when there is
    one. *)
Fixpoint replaceFirst (cid : string) (updated : IStoredChat.t)
    (l : list IStoredChat.t) : list IStoredChat.t :=
  match l with
  | [] => []
  | c :: r =>
      if hasChatId cid c then updated :: r else c :: replaceFirst cid updated r
  end.

(** [getChatsForProject(currentProjectId)] where the id may be [null]:
    no chat has the project id [null]. *)
Definition chatsOfCurrent (cur : option string) (ls : ChatStorage.LocalStorage)
  : list IStoredChat.t :=
  match cur with
  | Some pid => ChatStorage.getChatsForProject pid ls
  | None => []
  end.

(** [handleRenameChat] *)
Definition handleRenameChat (p : Props) (c : IStoredChat.t)
    (answer : option string) (now : Z) (e : Env) : Env :=
  match answer with
  | None => e
  | Some title =>
      if String.eqb title (orElse (IStoredChat.title c) "New chat") then e
      else
        let updated :=
          retitled c (orElse (trim title) "New chat") (JsDate.isoOfTime now) in
        if useSharePoint p then
          awaitEnv (SharePoint.saveChatToLibrary updated)
            (fun _ => onState (setAllChats (map (fun x =>
               if hasChatId (IStoredChat.id c) x then updated else x))))
            (fun msg => onState (setError (Some msg))) e
        else
          let all := ChatStorage.getAllChats (storage e) in
          if existsb (hasChatId (IStoredChat.id c)) all then
            let all := replaceFirst (IStoredChat.id c) updated all in
            let e := onStorage (ChatStorage.saveAllChats all) e in
            let e := onState (setAllChats (fun _ => all)) e in
            onState (setChats (fun _ =>
              chatsOfCurrent (currentProjectId (state e)) (storage e))) e
          else e
  end.

Definition notChat (id : string) (c : IStoredChat.t) : bool :=
  negb (hasChatId id c).

Definition isCurrentChat (id : string) (s : State) : bool :=
  match currentChatId s with
  | Some cur => String.eqb cur id
  | None => false
  end.

Definition ofCurrentProject (s : State) (c : IStoredChat.t) : bool :=
  match currentProjectId s with
  | Some pid => chatOfProject pid c
  | None => false
  end.

(** [handleDeleteChat]; the closure holds the state [st] of the render. *)
Definition handleDeleteChat (p : Props) (chat : IStoredChat.t)
    (confirmed : bool) (e : Env) : Env :=
  if negb confirmed then e
  else
    let st := state e in
    let id := IStoredChat.id chat in
    if useSharePoint p then
      awaitEnv (SharePoint.deleteChatFromLibrary id)
        (fun _ e =>
           let e := onState (setAllChats (filter (notChat id))) e in
           let e := onState (setChats (filter (notChat id))) e in
           if isCurrentChat id st then
             let e := setCurrentChatId None e in
             let e := onState (setMessages (fun _ => [])) e in
             match filter (notChat id) (chats st) with
             | first :: _ => handleSelectChat first e
             | [] => e
             end
           else e)
        (fun msg => onState (setError (Some msg))) e
    else
      let all := filter (notChat id) (ChatStorage.getAllChats (storage e)) in
      let e := onStorage (ChatStorage.saveAllChats all) e in
      let e := onState (setAllChats (fun _ => all)) e in
      let e := onState (setChats (fun _ =>
                 chatsOfCurrent (currentProjectId st) (storage e))) e in
      if isCurrentChat id st then
        let e := setCurrentChatId None e in
        let e := onState (setMessages (fun _ => [])) e in
        match filter (ofCurrentProject st) all with
        | first :: _ => setCurrentChatId (Some (IStoredChat.id first)) e
        | [] => e
        end
      else onState (setChats (filter (notChat id))) e.

(** [first.content.slice(0, 50).trim() || 'New chat'] for the first user
    message, [null] when there is none. *)
Definition firstUserTitle (msgs : list IChatMessage.t) : option string :=
  match find Builder.isUserMessage msgs with
  | Some first =>
      Some (orElse (trim (slice (IChatMessage.content first) 0 50)) "New chat")
  | None => None
  end.

(** [c.title = newTitle; c.updatedAt = now] on the chat [all.find]
    returns, when its title is still [New chat]. *)
Fixpoint retitleFirst (cid newTitle updatedAt : string)
    (l : list IStoredChat.t) : option (list IStoredChat.t) :=
  match l with
  | [] => None
  | c :: r =>
      if hasChatId cid c then
        if String.eqb (IStoredChat.title c) "New chat"
        then Some (retitled c newTitle updatedAt :: r)
        else None
      else option_map (cons c) (retitleFirst cid newTitle updatedAt r)
  end.

(** The effect that runs when [loading] falls back to [false]: persist
    the chat, and give it a title when it has none yet.  [now] is the
    clock of the effect.  With the library the two saves are taken in
    the order they are issued. *)
Definition persistOnTurnEnd (p : Props) (now : Z) (e : Env) : Result Env :=
  let st := state e in
  match currentChatId st with
  | Some cid =>
      if ChatStorage.truthyId (currentChatId st)
         && ChatStorage.truthyId (currentProjectId st) then
        match persistCurrentChat p (messages st) None now e with
        | Throw msg => Throw msg
        | Ok e1 =>
            let newTitle := firstUserTitle (messages st) in
            if useSharePoint p then
              match newTitle, find (hasChatId cid) (allChats st) with
              | Some t, Some c =>
                  if String.eqb (IStoredChat.title c) "New chat" then
                    match ChatStorage.mapResult ChatStorage.messageToStored
                            (messages st) with
                    | Throw msg => Throw msg
                    | Ok stored =>
                        let updated :=
                          IStoredChat.mk (IStoredChat.id c)
                            (IStoredChat.projectId c) t stored
                            (IStoredChat.createdAt c) (JsDate.isoOfTime now) in
                        Ok (await (SharePoint.saveChatToLibrary updated)
                              (fun _ => setAllChats (map (fun x =>
                                 if hasChatId cid x then updated else x)))
                              (fun _ s => s) e1)
                    end
                  else Ok e1
              | _, _ => Ok e1
              end
            else
              let all := ChatStorage.getAllChats (storage e1) in
              let e2 :=
                match newTitle with
                | Some t =>
                    match retitleFirst cid t (JsDate.isoOfTime now) all with
                    | Some all' => onStorage (ChatStorage.saveAllChats all') e1
                    | None => e1
                    end
                | None => e1
                end in
              Ok (onState (setChats (fun _ =>
                    chatsOfCurrent (currentProjectId st) (storage e2))) e2)
        end
      else Ok e
  | None => Ok e
  end.

Definition defaultProject (newId : string) (now : Z) : IProject.t :=
  IProject.mk newId "Default" (JsDate.isoOfTime now).

(** The effect that loads the projects and chats from the library when
    the component mounts, creating the default project when there is
    none.  (It ends by clearing the flag [storageLoading] of the
    sidebar, which is not part of [State].) *)
Definition loadLibrary (p : Props) (newId : string) (now : Z) (e : Env) : Env :=
  if negb (useSharePoint p) then e
  else
    awaitEnv
      (SharePoint.bind SharePoint.getProjectsFromLibrary (fun proj =>
       SharePoint.bind SharePoint.getChatsFromLibrary (fun chatsList =>
       SharePoint.ret (proj, chatsList))))
      (fun loaded e =>
         let '(proj, chatsList) := loaded in
         match proj with
         | [] =>
             awaitEnv
               (SharePoint.saveProjectsToLibrary [defaultProject newId now])
               (fun _ e =>
                  let e := onState (setProjects (fun _ =>
                             [defaultProject newId now])) e in
                  let e := setCurrentProjectId (Some newId) e in
                  let e := onState (setCurrentProjectIdState (Some newId)) e in
                  onState (setAllChats (fun _ => chatsList)) e)
               (fun msg => onState (setError (Some msg))) e
         | _ =>
             let e := onState (setProjects (fun _ => proj)) e in
             onState (setAllChats (fun _ => chatsList)) e
         end)
      (fun msg => onState (setError (Some msg))) e.

(** The effect that creates the default project in [localStorage] when
    the component mounts without a library. *)
Definition ensureDefaultProject (p : Props) (newId : string) (now : Z)
    (e : Env) : Env :=
  if useSharePoint p then e
  else
    match ChatStorage.getProjects (storage e) with
    | [] =>
        let e := onStorage (ChatStorage.saveProjects
                              [defaultProject newId now]) e in
        let e := setCurrentProjectId (Some newId) e in
        let e := onState (setProjects (fun _ => [defaultProject newId now])) e in
        onState (setCurrentProjectIdState (Some newId)) e
    | _ => e
    end.

(** The component right after its first render. *)
Definition mounted (p : Props) (ls : ChatStorage.LocalStorage)
    (w : SharePoint.World) : Env :=
  mkEnv (initialState p ls) ls w.

Section Actions.

Variable deltaOf : string -> option string.
Variable p : Props.

(** Everything that can act on a session: the events of [Chat.step],
    the remaining handlers, and the effects of mounting and of the end
    of a turn. *)
Inductive Action : Type :=
| Engine (ev : Event)
| Mount (newId : string) (now : Z)
| TypeInput (v : string)
| PickModel (v : string)
| AddFiles (files : list File.t)
| RemoveAttachment (index : nat)
| AddProject (answer : option string) (newId : string) (now : Z)
| RenameProject (proj : IProject.t) (answer : option string)
| SelectProject (proj : IProject.t)
| RenameChat (c : IStoredChat.t) (answer : option string) (now : Z)
| DeleteChat (chat : IStoredChat.t) (confirmed : bool)
| TurnEnd (now : Z).

(** One action; [Throw] when the effect at the end of a turn throws. *)
Definition act (a : Action) (e : Env) : Result Env :=
  match a with
  | Engine ev => Ok (step deltaOf p ev e)
  | Mount newId now =>
      Ok (ensureDefaultProject p newId now (loadLibrary p newId now e))
  | TypeInput v => Ok (onState (setInput v) e)
  | PickModel v => Ok (onState (setModel v) e)
  | AddFiles files => Ok (onState (onFileChange files) e)
  | RemoveAttachment index => Ok (onState (removeAttachment index) e)
  | AddProject answer newId now => Ok (handleAddProject p answer newId now e)
  | RenameProject proj answer => Ok (handleRenameProject p proj answer e)
  | SelectProject proj => Ok (setCurrentProjectId (Some (IProject.id proj)) e)
  | RenameChat c answer now => Ok (handleRenameChat p c answer now e)
  | DeleteChat chat confirmed => Ok (handleDeleteChat p chat confirmed e)
  | TurnEnd now => persistOnTurnEnd p now e
  end.

(** A sequence of actions, up to the first that throws. *)
Fixpoint acts (l : list Action) (e : Env) : Result Env :=
  match l with
  | [] => Ok e
  | a :: r =>
      match act a e with
      | Ok e' => acts r e'
      | Throw msg => Throw msg
      end
  end.

End Actions.

(** A file small enough for the extractor: at most 4 MB for an image,
    at most 10 MB otherwise. *)
Definition withinLimit (f : File.t) : bool :=
  File.size f <=? (if Extractor.isImageFile f
                   then Extractor.MAX_IMAGE_SIZE_MB * 1024 * 1024
                   else Extractor.MAX_FILE_SIZE_MB * 1024 * 1024).

(** An attachment carries at most one of a data URL and a text. *)
Definition oneKind (a : IChatAttachment.t) : bool :=
  match IChatAttachment.dataUrl a, IChatAttachment.textContent a with
  | Some _, Some _ => false
  | _, _ => true
  end.

(** What [localStorage] keeps of a selected id: [setCurrentProjectId]
    and [setCurrentChatId] store a truthy id and remove the entry
    otherwise. *)
Definition stored (id : option string) : option string :=
  if ChatStorage.truthyId id then id else None.

(** The selection kept in [localStorage] is the selection of the state. *)
Definition selectionPersisted (e : Env) : Prop :=
  ChatStorage.getCurrentProjectId (storage e) = stored (currentProjectId (state e))
  /\ ChatStorage.getCurrentChatId (storage e) = stored (currentChatId (state e)).

(** The projects kept in [localStorage] are the projects of the state. *)
Definition projectsPersisted (e : Env) : Prop :=
  ChatStorage.getProjects (storage e) = projects (state e).

(** What the two properties above look at. *)
Definition summary (e : Env)
  : (option string * option string * list IProject.t)
    * (option string * option string * list IProject.t) :=
  ((ChatStorage.getCurrentProjectId (storage e),
    ChatStorage.getCurrentChatId (storage e),
    ChatStorage.getProjects (storage e)),
   (currentProjectId (state e), currentChatId (state e), projects (state e))).

(** [localStorage] is in step with the state: the selection is
    persisted, and with the local adapter so are the projects. *)
Definition coherent (p : Props) (e : Env) : Prop :=
  selectionPersisted e /\ (useSharePoint p = false -> projectsPersisted e).

(** [localStorage] holds no empty id as its selection (the adapter
    never writes one). *)
Definition cleanSelection (ls : ChatStorage.LocalStorage) : Prop :=
  stored (ChatStorage.getCurrentProjectId ls) = ChatStorage.getCurrentProjectId ls
  /\ stored (ChatStorage.getCurrentChatId ls) = ChatStorage.getCurrentChatId ls.

(** An extension as [name.slice(name.lastIndexOf('.'))] can return it:
    a dot followed by characters other than the dot. *)
Definition plainExtension (ext : string) : bool :=
  match ext with
  | String c rest => Ascii.eqb c "."%char && negb (includes rest ".")
  | EmptyString => false
  end.

(** The time value of [updatedAt], when the stamp parses. *)
Definition updatedTime (c : IStoredChat.t) : option Z :=
  JsDate.getTime (JsDate.newDate (IStoredChat.updatedAt c)).

(** The stamp [updatedAt] was written by [toISOString], as every stamp
    the component writes is: it is the ISO text of a time value. *)
Definition stamped (c : IStoredChat.t) : Prop :=
  exists t, JsDate.inRange t = true
            /\ IStoredChat.updatedAt c = JsDate.isoOfTime t.

(** [a] was updated no earlier than [b]. *)
Definition newerOrSame (a b : IStoredChat.t) : Prop :=
  match updatedTime a, updatedTime b with
  | Some ta, Some tb => tb <= ta
  | _, _ => False
  end.

End Handlers.

(* ================================================================= *)
(** ** Further sample sessions *)

Module Scenario.



(** The idle session of [Sample.idleEnv] after its first message was
    persisted. *)
Definition persisted : Chat.Env :=
  match Chat.persistCurrentChat Sample.localProps [Sample.question] None
          1700000003000 Sample.idleEnv with
  | Ok e' => e'
  | Throw _ => Sample.idleEnv
  end.

(** The same session after another chat was opened: the persisted
    message is no longer on screen. *)
Definition elsewhere : Chat.Env :=
  Chat.onState (Chat.setMessages (fun _ => []))
    (Chat.setCurrentChatId (Some "c2") persisted).

(** A message read from a record whose stamp is empty: its timestamp
    is an Invalid Date. *)
Definition undated : IChatMessage.t :=
  ChatStorage.storedToMessage
    (IStoredMessage.mk "m-old" user "Hello" "" None None None).

(** The idle session of [Sample.idleEnv] on a [localStorage] whose
    quota is used up but for ten code units. *)
Definition crampedEnv : Chat.Env :=
  Chat.mkEnv Sample.idleState (ChatStorage.mkStorage None None None None 10)
    Sample.world.




(** With the turn of [Sample.streamingEnv] in flight, the other chat of
    the project is opened; the reply then arrives and the turn ends. *)
Definition switchWhileStreaming : list Handlers.Action :=
  [ Handlers.Engine (Chat.SelectChat Sample.emptyChat);
    Handlers.Engine Chat.Effects;
    Handlers.Engine
      (Chat.Deliver Sample.flight (Chat.Chunk ("data: Paris" ++ Js.LF)));
    Handlers.Engine
      (Chat.Deliver (Chat.mkFlight 1 (Chat.assistantId Sample.fresh) "" "Paris")
                    Chat.Done);
    Handlers.TurnEnd 1700000004000 ].

(** A first session with the local adapter, from an empty
    [localStorage]: the component mounts, a second project is added, a
    question is typed and sent, the reply arrives, the turn ends, and
    the first project is selected again. *)
Definition firstSession : list Handlers.Action :=
  [ Handlers.Mount "p-default" 1700000000000;
    Handlers.AddProject (Some " Travel ") "p-travel" 1700000001000;
    Handlers.Engine Chat.Effects;
    Handlers.TypeInput "What is the capital of France?";
    Handlers.Engine (Chat.Send false Sample.fresh);
    Handlers.Engine Chat.Effects;
    Handlers.Engine
      (Chat.Deliver Sample.flight (Chat.Chunk ("data: Paris." ++ Js.LF)));
    Handlers.Engine
      (Chat.Deliver (Chat.mkFlight 1 (Chat.assistantId Sample.fresh) "" "Paris.")
                    Chat.Done);
    Handlers.TurnEnd 1700000004000;
    Handlers.SelectProject (Handlers.defaultProject "p-default" 1700000000000);
    Handlers.Engine Chat.Effects ].

(** A text file the browser gives no type for; its name has two dots
    and an upper-case extension. *)
Definition notes : File.t :=
  File.mk "Notes.v2.TXT" "" 120 (Throw "not an image") (Ok "remember")
    (Throw "not a PDF") (Throw "not a document") (Throw "not a workbook").

(** A file of a format the extractor knows nothing of: it is attached
    by name only. *)
Definition scan : File.t :=
  File.mk "scan.bin" "application/octet-stream" 4096 (Throw "not an image")
    (Throw "not text") (Throw "not a PDF") (Throw "not a document")
    (Throw "not a workbook").

(** The idle session with three attachments and nothing typed: an
    image, a text file whose content was read, and a file attached by
    name only. *)
Definition attachedOnlyEnv : Chat.Env :=
  Chat.onState
    (Chat.setAttachments
       [ Extractor.imageAttachment Sample.photo "data:image/png;base64,AAAA";
         IChatAttachment.mk notes None (Some "remember") None;
         IChatAttachment.mk scan None None None ])
    Sample.idleEnv.

(** Three chats of one project, stored oldest first. *)
Definition monday : IStoredChat.t :=
  IStoredChat.mk "c-mon" "p1" "Plan" [] "2023-11-13T10:00:00.000Z"
                 "2023-11-13T10:00:00.000Z".
Definition tuesday : IStoredChat.t :=
  IStoredChat.mk "c-tue" "p1" "Notes" [] "2023-11-14T10:00:00.000Z"
                 "2023-11-14T10:00:00.000Z".
Definition wednesday : IStoredChat.t :=
  IStoredChat.mk "c-wed" "p1" "Review" [] "2023-11-15T10:00:00.000Z"
                 "2023-11-15T10:00:00.000Z".

Definition week : ChatStorage.LocalStorage :=
  ChatStorage.saveAllChats [monday; Sample.chatTwo; tuesday; wednesday]
    ChatStorage.emptyStorage.

(** A session of the local adapter on these chats, with the chat of
    Tuesday open. *)
Definition tuesdayEnv : Chat.Env :=
  Chat.mkEnv (Chat.setCurrentChatIdState (Some "c-tue") Sample.idleState)
    week Sample.world.

End Scenario.

(* ================================================================= *)
(** ** The text of a streamed reply *)

Module Reply.
Import Js.

Section Deltas.

Variable deltaOf : string -> option string.

(** What one line of the event stream adds to the reply: the content
    delta of a [data: ] line other than [data: [DONE]], nothing for any
    other line. *)
Definition deltaOfLine (line : string) : string :=
  if startsWith line "data: " then
    let data := sliceFrom line 6 in
    if String.eqb data "[DONE]" then ""
    else match deltaOf data with
         | Some delta => delta
         | None => ""
         end
  else "".

Definition concat (pieces : list string) : string :=
  fold_right append "" pieces.

(** The deltas of the complete lines of a stream, in order; the piece
    after the last line feed is not a line yet. *)
Definition textOf (stream : string) : string :=
  concat (map deltaOfLine (removelast (Chat.splitLines stream))).

End Deltas.

End Reply.

(* ================================================================= *)
(** ** Theorems *)

(* ----------------------------------------------------------------- *)
(** *** Strings *)

Section StringFacts.
Import Js.

Lemma strlen_nonneg s : 0 <= strlen s.
Proof. unfold strlen. lia. Qed.

Lemma length_append (a b : string) :
  String.length (a ++ b) = (String.length a + String.length b)%nat.
Proof. induction a as [|c a IH]; simpl; [reflexivity | now rewrite IH]. Qed.

Lemma strlen_append (a b : string) : strlen (a ++ b) = strlen a + strlen b.
Proof. unfold strlen. rewrite length_append. lia. Qed.

Lemma length_substring_0 (s : string) (n : nat) :
  (n <= String.length s)%nat -> String.length (substring 0 n s) = n.
Proof.
  revert n. induction s as [|c s IH]; intros [|n] H; simpl in *;
    try reflexivity; try lia.
  rewrite IH; [reflexivity | lia].
Qed.

Lemma strlen_slice_0 (s : string) (n : Z) :
  0 <= n <= strlen s -> strlen (slice s 0 n) = n.
Proof.
  intros H. unfold slice, relIndex.
  pose proof (strlen_nonneg s) as Hs.
  replace (0 <? 0) with false by reflexivity.
  destruct (n <? 0) eqn:En; [apply Z.ltb_lt in En; lia|].
  rewrite (Z.min_l 0) by lia. rewrite (Z.min_l n) by lia.
  rewrite Z.sub_0_r, Z.max_l by lia. simpl (Z.to_nat 0).
  unfold strlen in *. rewrite length_substring_0 by lia. lia.
Qed.

Lemma prefix_append (p s : string) : String.prefix p (p ++ s) = true.
Proof.
  induction p as [|c p IH]; simpl; [now destruct s|].
  destruct (ascii_dec c c) as [_|n]; [exact IH | now elim n].
Qed.

Lemma includes_unfold (s needle : string) :
  includes s needle
  = String.prefix needle s
    || match s with
       | EmptyString => false
       | String _ r => includes r needle
       end.
Proof. destruct s; reflexivity. Qed.

Lemma includes_prefix (p s : string) : includes (p ++ s) p = true.
Proof. rewrite includes_unfold, prefix_append. reflexivity. Qed.

Lemma includes_append_l (a s needle : string) :
  includes s needle = true -> includes (a ++ s) needle = true.
Proof.
  intros H. induction a as [|c a IH]; simpl; [exact H|].
  rewrite IH. apply orb_true_r.
Qed.

Lemma includes_middle (a needle b : string) :
  includes (a ++ needle ++ b) needle = true.
Proof. apply includes_append_l, includes_prefix. Qed.

End StringFacts.

(* ----------------------------------------------------------------- *)
(** *** The attachment extractor and its character budget *)

Section ExtractorFacts.
Import Js Extractor.

Lemma totalText_app l1 l2 : totalText (l1 ++ l2) = totalText l1 + totalText l2.
Proof. induction l1 as [|a l1 IH]; simpl; [reflexivity | rewrite IH; lia]. Qed.

Lemma totalText_nonneg l : 0 <= totalText l.
Proof.
  induction l as [|a l IH]; simpl; [lia|].
  unfold textLength. destruct (IChatAttachment.textContent a).
  - pose proof (strlen_nonneg s). lia.
  - lia.
Qed.

Lemma budgeted_app run l1 l2 :
  budgeted run (l1 ++ l2) <->
  budgeted run l1 /\ budgeted (run + totalText l1) l2.
Proof.
  revert run. induction l1 as [|a l1 IH]; intros run; simpl.
  - rewrite Z.add_0_r. tauto.
  - rewrite IH, Z.add_assoc. tauto.
Qed.

Lemma marker_length : strlen TRUNCATION_MARKER = 15.
Proof. reflexivity. Qed.

(** What [truncated] returns, by cases. *)
Lemma truncated_cases text run :
  0 <= run < MAX_TOTAL_TEXT_CHARS ->
  (strlen text <= MAX_TOTAL_TEXT_CHARS - run /\ truncated text run = text)
  \/ (strlen text > MAX_TOTAL_TEXT_CHARS - run
      /\ truncated text run
         = slice text 0 (MAX_TOTAL_TEXT_CHARS - run) ++ TRUNCATION_MARKER
      /\ strlen (slice text 0 (MAX_TOTAL_TEXT_CHARS - run))
         = MAX_TOTAL_TEXT_CHARS - run).
Proof.
  intros H. unfold truncated.
  destruct (strlen text >? MAX_TOTAL_TEXT_CHARS - run) eqn:E.
  - right. apply Z.gtb_lt in E. split; [lia|]. split; [reflexivity|].
    apply strlen_slice_0. lia.
  - left. split; [|reflexivity].
    rewrite Z.gtb_ltb in E. apply Z.ltb_ge in E. exact E.
Qed.

Lemma truncated_length text run :
  0 <= run < MAX_TOTAL_TEXT_CHARS ->
  run + strlen (truncated text run)
    <= MAX_TOTAL_TEXT_CHARS + strlen TRUNCATION_MARKER.
Proof.
  intros H. rewrite marker_length.
  destruct (truncated_cases text run H) as [[Hl ->] | (Hl & -> & Hs)].
  - lia.
  - rewrite strlen_append, Hs, marker_length. lia.
Qed.

Lemma decoderFor_decoderOf f run d :
  decoderFor f run = Some d ->
  run < MAX_TOTAL_TEXT_CHARS /\ decoderOf f = Some d.
Proof.
  unfold decoderFor, decoderOf.
  destruct (run <? MAX_TOTAL_TEXT_CHARS) eqn:E.
  - apply Z.ltb_lt in E. rewrite !andb_true_r. auto.
  - rewrite !andb_false_r. discriminate.
Qed.

Lemma budgeted_snoc_plain l a :
  budgeted 0 l -> IChatAttachment.textContent a = None ->
  budgeted 0 (l ++ [a]) /\ totalText (l ++ [a]) = totalText l.
Proof.
  intros Hb Ha. split.
  - apply budgeted_app. split; [exact Hb|]. simpl. rewrite Ha. tauto.
  - rewrite totalText_app. simpl. unfold textLength. rewrite Ha. lia.
Qed.

Lemma step_inv f acc : loopInv acc -> loopInv (step f acc).
Proof.
  destruct acc as [l total]. unfold loopInv. simpl. intros [Ht Hb]. subst total.
  unfold step.
  destruct (File.size f >? _); [simpl; auto|].
  destruct (isImageFile f).
  - destruct (fileToDataUrl f) as [url|msg]; simpl.
    + destruct (budgeted_snoc_plain l (imageAttachment f url) Hb eq_refl)
        as [H1 H2]. rewrite H2. auto.
    + destruct (budgeted_snoc_plain l (failedAttachment f msg) Hb eq_refl)
        as [H1 H2]. rewrite H2. auto.
  - destruct (decoderFor f (totalText l)) as [d|] eqn:Ed.
    + apply decoderFor_decoderOf in Ed. destruct Ed as [Hroom Hd].
      unfold pushText. destruct d as [text|msg]; simpl.
      * split.
        -- rewrite totalText_app. simpl. unfold textLength. simpl. lia.
        -- apply budgeted_app. split; [exact Hb|]. simpl.
           split; [|exact I]. split; [exact Hroom|].
           exists text. split; [exact Hd | reflexivity].
      * destruct (budgeted_snoc_plain l (failedAttachment f msg) Hb eq_refl)
          as [H1 H2]. rewrite H2. auto.
    + simpl. destruct (budgeted_snoc_plain l (bareAttachment f) Hb eq_refl)
        as [H1 H2]. rewrite H2. auto.
Qed.

Lemma loop_inv files acc : loopInv acc -> loopInv (loop files acc).
Proof.
  revert acc. induction files as [|f files IH]; intros acc H; simpl.
  - exact H.
  - destruct (_ <? _); [apply IH, step_inv, H | exact H].
Qed.

Lemma extractBatch_inv files : loopInv (extractBatch files).
Proof. apply loop_inv. split; simpl; [reflexivity | exact I]. Qed.

Lemma budgeted_bound l : forall run,
  0 <= run <= MAX_TOTAL_TEXT_CHARS + strlen TRUNCATION_MARKER ->
  budgeted run l ->
  run + totalText l <= MAX_TOTAL_TEXT_CHARS + strlen TRUNCATION_MARKER.
Proof.
  induction l as [|a l IH]; intros run Hr Hb;
    cbn [budgeted totalText fold_right] in *; [lia|].
  fold (totalText l). destruct Hb as [Ha Hb].
  rewrite Z.add_assoc. apply IH; [|exact Hb].
  unfold textLength in *.
  destruct (IChatAttachment.textContent a) as [t|]; [|lia].
  destruct Ha as [Hroom (text & _ & ->)].
  pose proof (truncated_length text run ltac:(lia)).
  pose proof (strlen_nonneg (truncated text run)). lia.
Qed.

Lemma budgeted_at run l1 a l2 t :
  budgeted run (l1 ++ a :: l2) ->
  IChatAttachment.textContent a = Some t ->
  run + totalText l1 < MAX_TOTAL_TEXT_CHARS
  /\ exists text,
       decoderOf (IChatAttachment.file a) = Some (Ok text)
       /\ t = truncated text (run + totalText l1).
Proof.
  intros Hb Ha. apply budgeted_app in Hb. destruct Hb as [_ Hb].
  cbn [budgeted] in Hb. rewrite Ha in Hb. tauto.
Qed.

End ExtractorFacts.

(** C1, counterexample.  One PDF whose text has 80001 characters is cut to
    80000 characters, the marker is appended, and the text lengths of the
    batch add up to 80015. *)
Lemma budget_overrun_by_marker :
  Extractor.totalText (fst (Extractor.extractBatch [Extractor.longPdf]))
    = 80015
  /\ ~ (Extractor.totalText (fst (Extractor.extractBatch [Extractor.longPdf]))
        <= Extractor.MAX_TOTAL_TEXT_CHARS).
Proof.
  assert (E : Extractor.totalText
                (fst (Extractor.extractBatch [Extractor.longPdf])) = 80015)
    by (vm_compute; reflexivity).
  rewrite E. split; [reflexivity|]. unfold Extractor.MAX_TOTAL_TEXT_CHARS. lia.
Qed.

(** C1, as amended.  In the batch of one add operation, [totalChars] is
    the sum of the text lengths of the attachments; that sum never exceeds
    the budget by more than the length of one truncation marker; a text
    is written only while the sum before it is below the budget, and it is
    either the whole decoded text, which fits, or the decoded text cut to
    the room that was left (filling the budget exactly) followed by the
    marker; and once the sum has reached the budget no later attachment of
    the batch carries text. *)
Theorem extractor_budget_up_to_marker (files : list File.t) :
  let list := fst (Extractor.extractBatch files) in
  snd (Extractor.extractBatch files) = Extractor.totalText list
  /\ Extractor.totalText list
     <= Extractor.MAX_TOTAL_TEXT_CHARS + Js.strlen Extractor.TRUNCATION_MARKER
  /\ Js.strlen Extractor.TRUNCATION_MARKER = 15
  /\ (forall l1 a l2 t,
        list = (l1 ++ a :: l2)%list ->
        IChatAttachment.textContent a = Some t ->
        let before := Extractor.totalText l1 in
        let room := Extractor.MAX_TOTAL_TEXT_CHARS - before in
        before < Extractor.MAX_TOTAL_TEXT_CHARS
        /\ exists text,
             Extractor.decoderOf (IChatAttachment.file a) = Some (Ok text)
             /\ ((Js.strlen text <= room /\ t = text)
                 \/ (Js.strlen text > room
                     /\ t = Js.slice text 0 room ++ Extractor.TRUNCATION_MARKER
                     /\ before + Js.strlen (Js.slice text 0 room)
                        = Extractor.MAX_TOTAL_TEXT_CHARS)))
  /\ (forall l1 a l2,
        list = (l1 ++ a :: l2)%list ->
        Extractor.MAX_TOTAL_TEXT_CHARS <= Extractor.totalText l1 ->
        IChatAttachment.textContent a = None).
Proof.
  intros list. destruct (extractBatch_inv files) as [Ht Hb]. fold list in Ht, Hb.
  split; [exact Ht|]. split.
  { pose proof (budgeted_bound list 0) as H. rewrite marker_length in *.
    apply H; [unfold Extractor.MAX_TOTAL_TEXT_CHARS; lia | exact Hb]. }
  split; [apply marker_length|]. split.
  - intros l1 a l2 t El Ha before room. rewrite El in Hb.
    destruct (budgeted_at 0 l1 a l2 t Hb Ha) as [Hroom (text & Hd & Et)].
    rewrite Z.add_0_l in Hroom, Et. fold before in Hroom, Et.
    split; [exact Hroom|]. exists text. split; [exact Hd|].
    pose proof (totalText_nonneg l1) as Hn. fold before in Hn.
    destruct (truncated_cases text before (conj Hn Hroom))
      as [[Hl E] | (Hl & E & Hs)]; rewrite E in Et.
    + left. split; assumption.
    + right. fold room in Hl, Hs, Et. repeat split; try assumption.
      rewrite Hs. unfold room. lia.
  - intros l1 a l2 El Hfull.
    destruct (IChatAttachment.textContent a) as [t|] eqn:Ha; [|reflexivity].
    rewrite El in Hb.
    destruct (budgeted_at 0 l1 a l2 t Hb Ha) as [Hroom _]. lia.
Qed.


(** C7. The model hint is [simple] for the short factual question,
    [complex] for the quicksort request, and [complex] for every text as
    soon as there is an attachment. *)
Theorem suggest_examples_and_attachments :
  Hint.suggestModelFromContent "What is the capital of France?" false
    = Hint.simple
  /\ Hint.suggestModelFromContent
       "Write a function that implements quicksort and explain the algorithm step by step"
       false = Hint.complex
  /\ forall text, Hint.suggestModelFromContent text true = Hint.complex.
Proof.
  split; [ reflexivity | split; [ reflexivity | ] ].
  intros text. unfold Hint.suggestModelFromContent.
  destruct (400 <? _); reflexivity.
Qed.

(* ----------------------------------------------------------------- *)
(** *** Request construction *)

Section BuilderFacts.
Import Js Builder.

Lemma prefix_append_r (n s b : string) :
  String.prefix n s = true -> String.prefix n (s ++ b) = true.
Proof.
  revert s. induction n as [|c n IH]; intros s H.
  - now destruct (s ++ b).
  - destruct s as [|c' s]; simpl in *; [discriminate|].
    destruct (ascii_dec c c'); [now apply IH | discriminate].
Qed.

Lemma includes_append_r (s b needle : string) :
  includes s needle = true -> includes (s ++ b) needle = true.
Proof.
  induction s as [|c s IH]; intros H.
  - rewrite includes_unfold in H. rewrite orb_false_r in H.
    rewrite includes_unfold. rewrite (prefix_append_r _ _ b H). reflexivity.
  - rewrite includes_unfold in H. apply orb_true_iff in H.
    change (String c s ++ b) with (String c (s ++ b)).
    rewrite includes_unfold. apply orb_true_iff. destruct H as [H|H].
    + left. apply (prefix_append_r _ _ b H).
    + right. now apply IH.
Qed.

Lemma includes_truthy (s needle : string) :
  includes s needle = true -> truthy needle = true -> truthy s = true.
Proof.
  intros H Hn. destruct s; [|reflexivity].
  destruct needle; [discriminate Hn | discriminate H].
Qed.

Lemma orElse_truthy (s d : string) : truthy s = true -> orElse s d = s.
Proof. unfold orElse. now intros ->. Qed.

(** The text of a message with extracted file text carries the header
    of the file blocks. *)
Lemma buildMessageText_files userText f fts others :
  includes (buildMessageText userText (f :: fts) others) "Attached files:"
  = true.
Proof.
  unfold buildMessageText.
  set (blocks := join (LF ++ LF) (map fileBlock (f :: fts))).
  set (t1 := if truthy userText
             then userText ++ LF ++ LF ++ "Attached files:" ++ LF ++ LF ++ blocks
             else "Attached files:" ++ LF ++ LF ++ blocks).
  assert (H1 : includes t1 "Attached files:" = true).
  { unfold t1. destruct (truthy userText).
    - do 3 apply includes_append_l. apply includes_prefix.
    - apply includes_prefix. }
  set (t2 := match others with
             | Some (n :: names) => _
             | _ => t1
             end).
  assert (H2 : includes t2 "Attached files:" = true).
  { unfold t2. destruct others as [[|n names]|]; try exact H1.
    rewrite (includes_truthy _ _ H1 eq_refl).
    do 2 apply includes_append_r. exact H1. }
  rewrite orElse_truthy; [exact H2 | exact (includes_truthy _ _ H2 eq_refl)].
Qed.

(** The text of a message with unextracted files carries their note. *)
Lemma buildMessageText_others userText fts n names :
  includes (buildMessageText userText fts (Some (n :: names)))
           "content not extracted" = true.
Proof.
  unfold buildMessageText.
  match goal with
  | |- includes (orElse (?x ++ ?note ++ ?rest) _) _ = true =>
      assert (H : includes (x ++ note ++ rest) "content not extracted" = true)
  end.
  { apply includes_append_l, includes_append_r. reflexivity. }
  rewrite orElse_truthy; [exact H | exact (includes_truthy _ _ H eq_refl)].
Qed.

Lemma textOf_userTurn t imgs :
  Api.textOf (Api.content (userTurn t imgs)) = Some t.
Proof. destruct imgs; reflexivity. Qed.

Lemma mentions_userTurn needle t imgs :
  mentions needle (userTurn t imgs) = includes t needle.
Proof.
  unfold mentions. rewrite textOf_userTurn. now destruct imgs.
Qed.

Lemma carriesImage_userTurn t imgs :
  carriesImage (userTurn t imgs) = negb (match imgs with [] => true | _ => false end).
Proof. destruct imgs; reflexivity. Qed.

Lemma toApi_user m :
  isUserMessage m = true ->
  toApi m
  = userTurn (buildMessageText (IChatMessage.content m)
                (orEmpty (IChatMessage.fileTexts m))
                (IChatMessage.otherFileNames m))
             (orEmpty (IChatMessage.imageDataUrls m)).
Proof. unfold isUserMessage, toApi. now destruct (IChatMessage.role m). Qed.

Lemma toApi_assistant m :
  isUserMessage m = false ->
  toApi m = Api.mk Api.assistant (Api.str (IChatMessage.content m)).
Proof. unfold isUserMessage, toApi. now destruct (IChatMessage.role m). Qed.

Lemma toApi_not_system m : Api.isSystem (toApi m) = false.
Proof.
  unfold toApi, userTurn. destruct (IChatMessage.role m);
    [destruct (orEmpty _)|]; reflexivity.
Qed.

Lemma hasFileText_mentions m :
  hasFileText m = true -> mentions "Attached files:" (toApi m) = true.
Proof.
  unfold hasFileText, present. intros H. apply andb_true_iff in H.
  destruct H as [Hu Hp]. rewrite (toApi_user m Hu), mentions_userTurn.
  destruct (IChatMessage.fileTexts m) as [[|f fts]|]; try discriminate.
  apply buildMessageText_files.
Qed.

Lemma hasUnextracted_mentions m :
  hasUnextracted m = true -> mentions "content not extracted" (toApi m) = true.
Proof.
  unfold hasUnextracted, present. intros H. apply andb_true_iff in H.
  destruct H as [Hu Hp]. rewrite (toApi_user m Hu), mentions_userTurn.
  destruct (IChatMessage.otherFileNames m) as [[|n names]|]; try discriminate.
  apply buildMessageText_others.
Qed.

Lemma carriesImage_toApi m : carriesImage (toApi m) = hasImage m.
Proof.
  unfold hasImage. destruct (isUserMessage m) eqn:Hu.
  - rewrite (toApi_user m Hu), carriesImage_userTurn. unfold present, orEmpty.
    now destruct (IChatMessage.imageDataUrls m) as [[|u us]|].
  - now rewrite (toApi_assistant m Hu).
Qed.

Lemma existsb_map {A B : Type} (f : B -> bool) (g : A -> B) (l : list A) :
  existsb f (map g l) = existsb (fun x => f (g x)) l.
Proof. induction l as [|x l IH]; simpl; [reflexivity | now rewrite IH]. Qed.

Lemma existsb_ext_in {A : Type} (f g : A -> bool) (l : list A) :
  (forall x, f x = g x) -> existsb f l = existsb g l.
Proof. intros H. induction l as [|x l IH]; simpl; [reflexivity | now rewrite H, IH]. Qed.

Lemma existsb_implies {A : Type} (f g : A -> bool) (l : list A) :
  (forall x, f x = true -> g x = true) ->
  existsb f l = true -> existsb g l = true.
Proof.
  intros H Hf. apply existsb_exists in Hf. destruct Hf as (x & Hin & Hx).
  apply existsb_exists. exists x. auto.
Qed.

Lemma existsb_unshiftIf {A : Type} (f : A -> bool) b x (l : list A) :
  f x = false -> existsb f (unshiftIf b x l) = existsb f l.
Proof. intros H. destruct b; simpl; [now rewrite H | reflexivity]. Qed.

Lemma map_toApi_conversation messages userText imgs fts others rg :
  map toApi (conversation messages userText imgs fts others rg)
  = if rg then map toApi (dropLast 1 messages)
    else (map toApi messages
          ++ [userTurn (buildMessageText userText fts (Some others)) imgs])%list.
Proof.
  unfold conversation. destruct rg; [reflexivity|].
  rewrite map_app. reflexivity.
Qed.

(** The request is the conversation, rendered, behind at most three
    system messages. *)
Lemma buildOpenAIMessages_shape messages userText imgs fts others rg :
  let history :=
    map toApi (conversation messages userText imgs fts others rg) in
  let files := existsb (mentions "Attached files:") history in
  let unext := existsb (mentions "content not extracted") history in
  let img := existsb carriesImage history in
  buildOpenAIMessages messages userText imgs fts others rg
  = unshiftIf img IMAGES_INSTRUCTION
      (unshiftIf (negb files && unext) UNEXTRACTED_INSTRUCTION
         (unshiftIf files FILES_INSTRUCTION history)).
Proof.
  intros history files unext img. unfold buildOpenAIMessages.
  assert (E : (if rg then map toApi (if rg then dropLast 1 messages else messages)
               else (map toApi (if rg then dropLast 1 messages else messages)
                     ++ [userTurn (buildMessageText userText fts (Some others))
                                  imgs])%list) = history).
  { unfold history. rewrite map_toApi_conversation. now destruct rg. }
  rewrite E. fold files.
  rewrite (existsb_unshiftIf (mentions "content not extracted")) by reflexivity.
  fold unext.
  rewrite !(existsb_unshiftIf carriesImage) by reflexivity.
  reflexivity.
Qed.

End BuilderFacts.

(** C2, counterexample.  A first message with one extracted PDF and one
    file whose content was not extracted: the conversation contains an
    unextracted-file note, yet the request carries the instruction about
    file text only. *)
Lemma unextracted_instruction_suppressed :
  let conv := Builder.conversation [] "Compare these" []
                Builder.mixedTurnFiles Builder.mixedTurnOthers false in
  let request := Builder.buildOpenAIMessages [] "Compare these" []
                   Builder.mixedTurnFiles Builder.mixedTurnOthers false in
  existsb Builder.hasUnextracted conv = true
  /\ request = Builder.FILES_INSTRUCTION :: map Builder.toApi conv
  /\ ~ In Builder.UNEXTRACTED_INSTRUCTION request.
Proof.
  split; [reflexivity|]. split; [reflexivity|].
  intros [H|[H|[]]]; discriminate H.
Qed.

(** C2, as amended.  The request is the rendered conversation preceded by
    the system messages: the instruction about file text exactly when a
    user turn's text contains [Attached files:], which is the case
    whenever a user message carries extracted file text; the instruction
    about unextracted files exactly when a user turn's text contains
    [content not extracted], which is the case whenever a user message
    lists unextracted files, and no user turn's text contains
    [Attached files:]; the instruction about images exactly when a user
    message carries inline images.  Each is there at most once and none
    of the rendered conversation messages is a system message. *)
Theorem request_system_messages messages userText imgs fts others rg :
  let conv := Builder.conversation messages userText imgs fts others rg in
  let history := map Builder.toApi conv in
  let files := existsb (Builder.mentions "Attached files:") history in
  let unext := existsb (Builder.mentions "content not extracted") history in
  let img := existsb Builder.hasImage conv in
  Builder.buildOpenAIMessages messages userText imgs fts others rg
  = Builder.unshiftIf img Builder.IMAGES_INSTRUCTION
      (Builder.unshiftIf (negb files && unext) Builder.UNEXTRACTED_INSTRUCTION
         (Builder.unshiftIf files Builder.FILES_INSTRUCTION history))
  /\ Forall (fun m => Api.isSystem m = false) history
  /\ (existsb Builder.hasFileText conv = true -> files = true)
  /\ (existsb Builder.hasUnextracted conv = true -> unext = true).
Proof.
  intros conv history files unext img. split.
  - rewrite buildOpenAIMessages_shape. fold conv. fold history.
    fold files. fold unext.
    replace (existsb Builder.carriesImage history) with img; [reflexivity|].
    unfold img, history. rewrite existsb_map.
    apply existsb_ext_in. intros x. symmetry. apply carriesImage_toApi.
  - split.
    { unfold history. apply Forall_forall. intros m Hin.
      apply in_map_iff in Hin. destruct Hin as (x & <- & _).
      apply toApi_not_system. }
    split; intros H; [unfold files | unfold unext]; unfold history;
      rewrite existsb_map; revert H; apply existsb_implies.
    + apply hasFileText_mentions.
    + apply hasUnextracted_mentions.
Qed.

(* ----------------------------------------------------------------- *)
(** *** Sending and regenerating *)

Section SendFacts.
Import Js Builder Chat.






Lemma unshiftIf_app {A : Type} b (x : A) l :
  unshiftIf b x l = ((if b then [x] else []) ++ l)%list.
Proof. now destruct b. Qed.

(** The system messages in front of a request. *)
Lemma buildOpenAIMessages_split messages userText imgs fts others rg :
  exists sys,
    buildOpenAIMessages messages userText imgs fts others rg
    = (sys ++ map toApi (conversation messages userText imgs fts others rg))%list
    /\ Forall (fun m => Api.isSystem m = true) sys.
Proof.
  rewrite buildOpenAIMessages_shape. cbv zeta.
  set (h := map toApi _).
  generalize (existsb carriesImage h) (existsb (mentions "Attached files:") h)
             (existsb (mentions "content not extracted") h).
  intros b1 b2 b3.
  exists ((if b1 then [IMAGES_INSTRUCTION] else [])
          ++ (if negb b2 && b3 then [UNEXTRACTED_INSTRUCTION] else [])
          ++ (if b2 then [FILES_INSTRUCTION] else []))%list.
  split.
  - rewrite !unshiftIf_app, !app_assoc. reflexivity.
  - destruct b1, b2, b3; simpl; repeat constructor.
Qed.

End SendFacts.

(** What [buildOpenAIMessages] makes of a stored user message, written
    out. *)
Lemma toApi_user_written_out (u : IChatMessage.t) :
  IChatMessage.role u = user ->
  let content := IChatMessage.content u in
  let images :=
    match IChatMessage.imageDataUrls u with Some l => l | None => [] end in
  let files :=
    match IChatMessage.fileTexts u with Some l => l | None => [] end in
  let others :=
    match IChatMessage.otherFileNames u with Some l => l | None => [] end in
  let blocks :=
    Js.join (Js.LF ++ Js.LF)
      (map (fun f => "--- " ++ FileText.name f ++ " ---" ++ Js.LF
                     ++ FileText.text f) files) in
  let withFiles :=
    match files with
    | [] => content
    | _ => if Js.truthy content
           then content ++ Js.LF ++ Js.LF ++ "Attached files:" ++ Js.LF ++ Js.LF
                ++ blocks
           else "Attached files:" ++ Js.LF ++ Js.LF ++ blocks
    end in
  let withOthers :=
    match others with
    | [] => withFiles
    | _ => (if Js.truthy withFiles then withFiles ++ Js.LF ++ Js.LF else "")
           ++ "(Also attached; content not extracted: "
           ++ Js.join ", " others ++ ")"
    end in
  let fullText := if Js.truthy withOthers then withOthers else "(No content)" in
  let turn :=
    Api.mk Api.user
      match images with
      | [] => Api.str fullText
      | _ => Api.parts (Api.text fullText :: map Api.image_url images)
      end in
  Builder.toApi u = turn.
Proof.
  intros Hu. cbv zeta. unfold Builder.toApi. rewrite Hu.
  unfold Builder.userTurn, Builder.buildMessageText, Builder.orEmpty,
    Builder.fileBlock, Js.orElse.
  destruct (IChatMessage.imageDataUrls u) as [[|i il]|];
    destruct (IChatMessage.fileTexts u) as [[|f fl]|];
    destruct (IChatMessage.otherFileNames u) as [[|o ol]|];
    reflexivity.
Qed.



(* ----------------------------------------------------------------- *)
(** *** Sending attachments without text *)

Section AttachmentSendFacts.
Import Js Builder Chat.

Lemma messages_await {A : Type} (op : SharePoint.M A) onOk onErr e :
  (forall a s, messages (onOk a s) = messages s) ->
  (forall m s, messages (onErr m s) = messages s) ->
  messages (state (await op onOk onErr e)) = messages (state e).
Proof.
  intros H1 H2. unfold await. destruct (op (world e)) as [[a|m] w]; simpl; auto.
Qed.

Lemma messages_storeNewChat p record pid onErr e :
  (forall m s, messages (onErr m s) = messages s) ->
  messages (state (storeNewChat p record pid onErr e)) = messages (state e).
Proof.
  intros H. unfold storeNewChat. destruct (useSharePoint p).
  - apply messages_await; [reflexivity | exact H].
  - reflexivity.
Qed.

Lemma messages_appendUserTurn p fr userText imgs fts others st e :
  messages (state (appendUserTurn p fr userText imgs fts others st e))
  = (messages (state e) ++ [userMessageOf fr userText imgs fts others])%list.
Proof.
  unfold appendUserTurn. cbv zeta.
  destruct (negb _ && _); [|reflexivity].
  destruct (currentProjectId st); [|reflexivity].
  unfold onState at 1. cbn [state setMessages messages].
  rewrite messages_storeNewChat; reflexivity.
Qed.

(** Every attachment is an image, a text, or an unextracted file. *)
Lemma attachment_sorted (l : list IChatAttachment.t) :
  l <> [] ->
  isEmpty (imageUrlsOf l) && isEmpty (fileTextsOf l)
  && isEmpty (otherFileNamesOf l) = false.
Proof.
  destruct l as [|a l]; [congruence|]. intros _.
  unfold imageUrlsOf, fileTextsOf, otherFileNamesOf, isOtherFile,
    ChatStorage.truthyId.
  cbn [flat_map filter map].
  destruct (IChatAttachment.dataUrl a) as [u|];
    [destruct (truthy u)|];
    destruct (IChatAttachment.textContent a);
    simpl; rewrite ?andb_false_r; reflexivity.
Qed.

Lemma isEmpty_imageUrlsOf (l : list IChatAttachment.t) :
  isEmpty (imageUrlsOf l)
  = negb (existsb (fun a => ChatStorage.truthyId (IChatAttachment.dataUrl a)) l).
Proof.
  induction l as [|a l IH]; [reflexivity|].
  unfold imageUrlsOf in *. cbn [flat_map existsb]. unfold ChatStorage.truthyId at 1.
  destruct (IChatAttachment.dataUrl a) as [u|]; [destruct (truthy u)|];
    simpl; auto.
Qed.

End AttachmentSendFacts.

(** C10.  A send that is not a regenerate, made while idle with an API
    key, whose trimmed input is empty and which carries at least one
    attachment, is dispatched.  The user message appended to the history
    has the content [(Sent images)] when an attachment carries an image
    data URL and [(Sent files)] otherwise, and stores the image data
    URLs, the file texts and the other file names of the attachments.
    The request is sent for the selected model, streamed, under the
    fresh abort signal; its messages are system messages, the rendering
    of the history, and one final user turn built from the attachments
    and the empty text: the heading [Attached files:] with one block per
    extracted file, the note on the files whose content was not
    extracted ([(No content)] when there is neither), alone or followed
    by one [image_url] part per image. *)
Theorem attachments_only_send_uses_placeholder
    (p : Chat.Props) (fr : Chat.Fresh) (e : Chat.Env) :
  Js.truthy (Js.trim (Chat.apiKey p)) = true ->
  Chat.loading (Chat.state e) = false ->
  Js.trim (Chat.input (Chat.state e)) = "" ->
  Chat.attachments (Chat.state e) <> [] ->
  let atts := Chat.attachments (Chat.state e) in
  let withImage :=
    existsb (fun a => ChatStorage.truthyId (IChatAttachment.dataUrl a)) atts in
  let images := Chat.imageUrlsOf atts in
  let files := Chat.fileTextsOf atts in
  let others := Chat.otherFileNamesOf atts in
  let withFiles :=
    match files with
    | [] => ""
    | _ => "Attached files:" ++ Js.LF ++ Js.LF
           ++ Js.join (Js.LF ++ Js.LF)
                (map (fun f => "--- " ++ FileText.name f ++ " ---" ++ Js.LF
                               ++ FileText.text f) files)
    end in
  let withOthers :=
    match others with
    | [] => withFiles
    | _ => (if Js.truthy withFiles then withFiles ++ Js.LF ++ Js.LF else "")
           ++ "(Also attached; content not extracted: "
           ++ Js.join ", " others ++ ")"
    end in
  let fullText := if Js.truthy withOthers then withOthers else "(No content)" in
  let turn :=
    Api.mk Api.user
      match images with
      | [] => Api.str fullText
      | _ => Api.parts (Api.text fullText :: map Api.image_url images)
      end in
  exists e' stored sys,
    Chat.sendMessage p false fr e
    = (e', Chat.Sent
             (Chat.mkRequest (Chat.model (Chat.state e))
                (sys ++ map Builder.toApi (Chat.messages (Chat.state e))
                 ++ [turn])%list
                1024 true (Chat.controller fr))
             (Chat.mkFlight (Chat.controller fr) (Chat.assistantId fr) "" ""))
    /\ Forall (fun m => Api.isSystem m = true) sys
    /\ Chat.messages (Chat.state e')
       = (Chat.messages (Chat.state e)
          ++ [stored; Chat.assistantPlaceholder fr])%list
    /\ IChatMessage.role stored = user
    /\ IChatMessage.content stored
       = (if withImage then "(Sent images)" else "(Sent files)")
    /\ IChatMessage.imageDataUrls stored
       = match images with [] => None | _ => Some images end
    /\ IChatMessage.fileTexts stored
       = match files with [] => None | _ => Some files end
    /\ IChatMessage.otherFileNames stored
       = match others with [] => None | _ => Some others end
    /\ Chat.loading (Chat.state e') = true.
Proof.
  intros Hkey Hload Hinput Hatts atts withImage. cbv zeta.
  pose proof (attachment_sorted atts Hatts) as Hsome.
  pose proof (isEmpty_imageUrlsOf atts) as Himg. fold withImage in Himg.
  unfold Chat.sendMessage. cbv zeta. rewrite Hkey, Hload, Hinput.
  cbn [negb andb]. fold atts.
  assert (Hc : Js.truthy "" || negb (Chat.isEmpty (Chat.imageUrlsOf atts))
               || negb (Chat.isEmpty (Chat.fileTextsOf atts))
               || negb (Chat.isEmpty (Chat.otherFileNamesOf atts)) = true).
  { destruct (Chat.isEmpty (Chat.imageUrlsOf atts)),
             (Chat.isEmpty (Chat.fileTextsOf atts)),
             (Chat.isEmpty (Chat.otherFileNamesOf atts));
      try reflexivity; discriminate Hsome. }
  rewrite Hc. cbn [negb andb].
  destruct (buildOpenAIMessages_split (Chat.messages (Chat.state e)) ""
              (Chat.imageUrlsOf atts) (Chat.fileTextsOf atts)
              (Chat.otherFileNamesOf atts) false)
    as (sys & Hreq & Hsys).
  rewrite Hreq. unfold Builder.conversation. rewrite map_app. cbn [map].
  rewrite (toApi_user_written_out
             (Builder.pendingTurn "" (Chat.imageUrlsOf atts)
                (Chat.fileTextsOf atts) (Chat.otherFileNamesOf atts)) eq_refl).
  eexists _,
    (Chat.userMessageOf fr "" (Chat.imageUrlsOf atts) (Chat.fileTextsOf atts)
       (Chat.otherFileNamesOf atts)), sys.
  split; [reflexivity|]. split; [exact Hsys|]. split.
  { cbn [Chat.state Chat.onState Chat.setAbortRef Chat.setLoading
         Chat.setMessages Chat.messages].
    rewrite messages_appendUserTurn. cbn [Chat.state Chat.onState Chat.setError
      Chat.messages]. rewrite <- app_assoc. reflexivity. }
  split; [reflexivity|].
  split.
  { cbn [Chat.userMessageOf IChatMessage.content]. rewrite Himg.
    unfold Js.orElse. cbn [Js.truthy]. now destruct withImage. }
  split; [reflexivity|]. split; [reflexivity|]. split; reflexivity.
Qed.

Lemma attachments_only_send_uses_placeholder_witness :
  exists e' stored sys,
    Chat.sendMessage Sample.localProps false Sample.fresh Scenario.attachedOnlyEnv
    = (e', Chat.Sent
             (Chat.mkRequest "gpt-4o-mini"
                (sys ++ map Builder.toApi [Sample.question; Sample.answer]
                 ++ [Api.mk Api.user
                       (Api.parts
                          [Api.text
                             ("Attached files:" ++ Js.LF ++ Js.LF
                              ++ "--- Notes.v2.TXT ---" ++ Js.LF ++ "remember"
                              ++ Js.LF ++ Js.LF
                              ++ "(Also attached; content not extracted: scan.bin)");
                           Api.image_url "data:image/png;base64,AAAA"])])%list
                1024 true (Chat.controller Sample.fresh))
             (Chat.mkFlight (Chat.controller Sample.fresh)
                (Chat.assistantId Sample.fresh) "" ""))
    /\ Forall (fun m => Api.isSystem m = true) sys
    /\ Chat.messages (Chat.state e')
       = [Sample.question; Sample.answer; stored;
          Chat.assistantPlaceholder Sample.fresh]
    /\ IChatMessage.role stored = user
    /\ IChatMessage.content stored = "(Sent images)"
    /\ IChatMessage.imageDataUrls stored = Some ["data:image/png;base64,AAAA"]
    /\ IChatMessage.fileTexts stored
       = Some [FileText.mk "Notes.v2.TXT" "remember"]
    /\ IChatMessage.otherFileNames stored = Some ["scan.bin"]
    /\ Chat.loading (Chat.state e') = true.
Proof.
  apply (attachments_only_send_uses_placeholder Sample.localProps Sample.fresh
           Scenario.attachedOnlyEnv);
    try reflexivity.
  discriminate.
Defined.

(* ----------------------------------------------------------------- *)
(** *** The read loop of a streamed reply *)

Section StreamFacts.
Import Js Chat.

Variable deltaOf : string -> option string.

Lemma trimStart_whitespaceOnly s : whitespaceOnly s = true -> trimStart s = "".
Proof.
  induction s as [|c s IH]; simpl; [reflexivity|].
  intros H. apply andb_true_iff in H. destruct H as [Hc Hs].
  rewrite Hc. now apply IH.
Qed.


Lemma putContent_twice id c1 c2 ms :
  putContent id c2 (putContent id c1 ms) = putContent id c2 ms.
Proof.
  unfold putContent. rewrite map_map. apply map_ext. intros m.
  destruct (String.eqb (IChatMessage.id m) id) eqn:E; simpl; now rewrite E.
Qed.

(** What the read loop keeps: the signal and the placeholder of the
    flight, the aborted controllers, and every message other than the
    placeholder. *)
Lemma onLine_keeps line fl st :
  let '(fl', st') := onLine deltaOf line (fl, st) in
  flightSignal fl' = flightSignal fl
  /\ placeholderId fl' = placeholderId fl
  /\ aborted st' = aborted st
  /\ forall c, putContent (placeholderId fl) c (messages st')
               = putContent (placeholderId fl) c (messages st).
Proof.
  unfold onLine. destruct (startsWith line "data: "); [|now auto].
  destruct (String.eqb _ "[DONE]"); [now auto|].
  destruct (deltaOf _) as [delta|]; [|now auto].
  destruct (truthy delta); [|now auto].
  split; [reflexivity|]. split; [reflexivity|]. split; [reflexivity|].
  intros c. simpl. apply putContent_twice.
Qed.

Lemma lines_keep lines : forall fl st,
  let '(fl', st') :=
    fold_left (fun acc line => onLine deltaOf line acc) lines (fl, st) in
  flightSignal fl' = flightSignal fl
  /\ placeholderId fl' = placeholderId fl
  /\ aborted st' = aborted st
  /\ forall c, putContent (placeholderId fl) c (messages st')
               = putContent (placeholderId fl) c (messages st).
Proof.
  induction lines as [|line lines IH]; intros fl st; cbn [fold_left];
    [now auto|].
  pose proof (onLine_keeps line fl st) as H1.
  destruct (onLine deltaOf line (fl, st)) as [fl1 st1].
  destruct H1 as (S1 & P1 & A1 & M1).
  pose proof (IH fl1 st1) as H2.
  destruct (fold_left _ lines (fl1, st1)) as [fl2 st2].
  destruct H2 as (S2 & P2 & A2 & M2).
  cbv beta iota.
  split; [congruence|]. split; [congruence|]. split; [congruence|].
  intros c. rewrite <- M1, <- P1. apply M2.
Qed.

Lemma onChunk_keeps value fl st :
  let '(fl', st') := onChunk deltaOf value fl st in
  flightSignal fl' = flightSignal fl
  /\ placeholderId fl' = placeholderId fl
  /\ aborted st' = aborted st
  /\ forall c, putContent (placeholderId fl) c (messages st')
               = putContent (placeholderId fl) c (messages st).
Proof.
  unfold onChunk. cbv zeta.
  set (fl0 := mkFlight _ _ _ _).
  exact (lines_keep _ fl0 st).
Qed.


(** A reply that is not aborted and ends with [done] is its chunks
    followed by [onDone]. *)
Lemma run_to_done values : forall fl st,
  isAborted (flightSignal fl) st = false ->
  run deltaOf (map Chunk values ++ [Done]) fl st
  = onDone (fst (received deltaOf values fl st))
           (snd (received deltaOf values fl st)).
Proof.
  unfold received.
  induction values as [|v values IH]; intros fl st Hlive;
    cbn [map app run fold_left fst snd].
  - unfold deliver. now rewrite Hlive.
  - unfold deliver. rewrite Hlive.
    pose proof (onChunk_keeps v fl st) as H1.
    destruct (onChunk deltaOf v fl st) as [fl1 st1].
    destruct H1 as (S1 & P1 & A1 & M1). simpl.
    apply IH. unfold isAborted in *. now rewrite S1, A1.
Qed.

End StreamFacts.



(* ----------------------------------------------------------------- *)
(** *** Failures of the remote adapter *)

Section RemoteFailureFacts.
Import Js SharePoint.

Lemma getCurrentUserId_result w :
  getCurrentUserId w
  = if userLookupFails w then (Throw (lookupError w), w)
    else (Ok (resolvedUser w),
          mkWorld (libraryTitle w) (Some (resolvedUser w)) (server w)).
Proof.
  unfold getCurrentUserId, userLookupFails, resolvedUser, lookupError.
  destruct w as [t [id|] srv]; simpl; [reflexivity|].
  now destruct (failing srv CurrentUser) as [[b|m|m]|].
Qed.

Lemma getMyFileItems_result w :
  getMyFileItems w
  = if userLookupFails w then (Throw (lookupError w), w)
    else match failing (server w) Items with
         | Some (NotOk _) => (Ok [], cached w)
         | Some (Rejected msg) => (Throw msg, cached w)
         | Some (BadBody msg) => (Throw msg, cached w)
         | None => (Ok (itemsOf (server w) (resolvedUser w)), cached w)
         end.
Proof.
  unfold getMyFileItems, bind. rewrite getCurrentUserId_result.
  destruct (userLookupFails w); reflexivity.
Qed.


Lemma getFolder_result w :
  getFolderServerRelativeUrl w
  = match failing (server w) RootFolder with
    | Some (NotOk (Ok text)) =>
        (Throw ("Library not found or no access: " ++ libraryTitle w ++ ". "
                ++ slice text 0 200), w)
    | Some (NotOk (Throw msg)) => (Throw msg, w)
    | Some (Rejected msg) => (Throw msg, w)
    | Some (BadBody msg) => (Throw msg, w)
    | None => (Ok (folderUrl (server w)), w)
    end.
Proof. reflexivity. Qed.







Lemma getFileContent_result url w :
  getFileContent url w
  = match failing (server w) FileContent with
    | Some (NotOk _) => (Ok (RawText ""), w)
    | Some (Rejected msg) => (Throw msg, w)
    | Some (BadBody msg) => (Throw msg, w)
    | None =>
        (Ok (match fileAt (server w) url with
             | Some f => snd f
             | None => RawText ""
             end), w)
    end.
Proof.
  unfold getFileContent.
  destruct (failing (server w) FileContent) as [[b|m|m]|]; try reflexivity.
  now destruct (fileAt (server w) url).
Qed.







End RemoteFailureFacts.



(* ----------------------------------------------------------------- *)
(** *** The quota of [localStorage] *)

Section StorageFacts.
Import ChatStorage.

Lemma sum_nonneg l : Forall (fun x => 0 <= x) l -> 0 <= sum l.
Proof. induction 1; simpl; lia. Qed.

Lemma sum_map_nonneg {A : Type} (f : A -> Z) (l : list A) :
  (forall x, 0 <= f x) -> 0 <= sum (map f l).
Proof.
  intros H. apply sum_nonneg. apply Forall_forall. intros x Hx.
  apply in_map_iff in Hx. destruct Hx as (a & <- & _). apply H.
Qed.


Lemma sizeOfChats_cons c l :
  sizeOfChats (c :: l)
  = sum (map sizeOfMessage (IStoredChat.messages c)) + sizeOfChats l.
Proof. reflexivity. Qed.

Lemma sizeOfTexts_nonneg c i f o : 0 <= sizeOfTexts c i f o.
Proof.
  unfold sizeOfTexts.
  pose proof (strlen_nonneg c).
  pose proof (sum_map_nonneg Js.strlen (orNone i) strlen_nonneg).
  pose proof (sum_map_nonneg Js.strlen (orNone o) strlen_nonneg).
  pose proof (sum_map_nonneg
                (fun f => Js.strlen (FileText.name f) + Js.strlen (FileText.text f))
                (orNone f)
                (fun f => Z.add_nonneg_nonneg _ _ (strlen_nonneg _)
                            (strlen_nonneg _))).
  lia.
Qed.

Lemma sizeOfMessage_nonneg m : 0 <= sizeOfMessage m.
Proof. apply sizeOfTexts_nonneg. Qed.

(** Converting the messages for the store keeps their size. *)
Lemma sizeOfMessages_stored : forall msgs stored,
  mapResult messageToStored msgs = Ok stored ->
  sum (map sizeOfMessage stored) = sizeOfMessages msgs.
Proof.
  induction msgs as [|m msgs IH]; intros stored H; simpl in H.
  - now inversion H.
  - unfold messageToStored in H at 1.
    destruct (JsDate.toISOString (IChatMessage.timestamp m)); [|discriminate].
    destruct (mapResult messageToStored msgs) as [ys|]; [|discriminate].
    inversion H. subst stored. unfold sizeOfMessages. cbn [map sum fold_right].
    fold (sum (map sizeOfMessage ys)). rewrite (IH ys eq_refl).
    reflexivity.
Qed.

Lemma sizeOfChats_upsert_le cid updated all :
  sizeOfChats (Chat.upsert cid updated all)
  <= sizeOfChats all + sum (map sizeOfMessage (IStoredChat.messages updated)).
Proof.
  induction all as [|c all IH]; cbn [Chat.upsert].
  - unfold sizeOfChats. simpl. lia.
  - pose proof (sum_map_nonneg sizeOfMessage (IStoredChat.messages c)
                  sizeOfMessage_nonneg).
    destruct (Chat.hasChatId cid c); rewrite !sizeOfChats_cons; lia.
Qed.

(** Messages that fit in the room left can be stored under any chat. *)
Lemma fits_upsert cid updated all msgs ls :
  all = getAllChats ls ->
  mapResult messageToStored msgs = Ok (IStoredChat.messages updated) ->
  sizeOfMessages msgs <= Z.of_N (room ls) ->
  fits (Chat.upsert cid updated all) ls = true.
Proof.
  intros -> Hs Hroom. unfold fits, capacity. apply Z.leb_le.
  pose proof (sizeOfChats_upsert_le cid updated (getAllChats ls)).
  rewrite (sizeOfMessages_stored _ _ Hs) in H. lia.
Qed.

Lemma sizeOfChats_nonneg chats : 0 <= sizeOfChats chats.
Proof.
  apply sum_map_nonneg. intros c. apply sum_map_nonneg, sizeOfMessage_nonneg.
Qed.


Lemma sizeOfChats_filter_le f l : sizeOfChats (filter f l) <= sizeOfChats l.
Proof.
  induction l as [|c l IH]; [reflexivity|]. cbn [filter].
  pose proof (sum_map_nonneg sizeOfMessage (IStoredChat.messages c)
                sizeOfMessage_nonneg).
  destruct (f c); rewrite ?sizeOfChats_cons; lia.
Qed.

(** A write that does not grow the slot fits. *)
Lemma fits_le chats ls :
  sizeOfChats chats <= sizeOfChats (getAllChats ls) -> fits chats ls = true.
Proof. intros H. unfold fits, capacity. apply Z.leb_le. lia. Qed.

Lemma fits_filter f ls : fits (filter f (getAllChats ls)) ls = true.
Proof. apply fits_le, sizeOfChats_filter_le. Qed.

Lemma saveAllChats_fits chats ls :
  fits chats ls = true ->
  saveAllChats chats ls
  = mkStorage (KEY_PROJECTS ls) (Some (JsonChats chats))
              (KEY_CURRENT_PROJECT ls) (KEY_CURRENT_CHAT ls)
              (Z.to_N (capacity ls - sizeOfChats chats)).
Proof. intros H. unfold saveAllChats. now rewrite H. Qed.

Lemma saveAllChats_full chats ls :
  fits chats ls = false -> saveAllChats chats ls = ls.
Proof. intros H. unfold saveAllChats. now rewrite H. Qed.

Lemma getAllChats_saved chats ls :
  fits chats ls = true -> getAllChats (saveAllChats chats ls) = chats.
Proof. intros H. now rewrite saveAllChats_fits. Qed.

(** Whether it fits or not, the write leaves the other slots alone. *)
Lemma saveAllChats_others chats ls :
  KEY_PROJECTS (saveAllChats chats ls) = KEY_PROJECTS ls
  /\ KEY_CURRENT_PROJECT (saveAllChats chats ls) = KEY_CURRENT_PROJECT ls
  /\ KEY_CURRENT_CHAT (saveAllChats chats ls) = KEY_CURRENT_CHAT ls.
Proof. unfold saveAllChats. destruct (fits chats ls); repeat split. Qed.

Lemma getProjects_saveAllChats chats ls :
  getProjects (saveAllChats chats ls) = getProjects ls.
Proof.
  unfold getProjects. now destruct (saveAllChats_others chats ls) as (-> & _).
Qed.

Lemma getCurrentProjectId_saveAllChats chats ls :
  getCurrentProjectId (saveAllChats chats ls) = getCurrentProjectId ls.
Proof.
  unfold getCurrentProjectId.
  now destruct (saveAllChats_others chats ls) as (_ & -> & _).
Qed.

Lemma getCurrentChatId_saveAllChats chats ls :
  getCurrentChatId (saveAllChats chats ls) = getCurrentChatId ls.
Proof.
  unfold getCurrentChatId.
  now destruct (saveAllChats_others chats ls) as (_ & _ & ->).
Qed.


(** The capacity of the slot does not change with what it holds. *)
Lemma capacity_saveAllChats chats ls :
  capacity (saveAllChats chats ls) = capacity ls.
Proof.
  unfold saveAllChats. destruct (fits chats ls) eqn:E; [|reflexivity].
  unfold fits in E. apply Z.leb_le in E.
  unfold capacity at 1. cbn [getAllChats KEY_CHATS room].
  pose proof (sizeOfChats_nonneg chats). lia.
Qed.




End StorageFacts.

(* ----------------------------------------------------------------- *)
(** *** Deleting a project *)

Section DeleteProjectFacts.
Import Chat.

Lemma forallb_filter_self {A : Type} (f : A -> bool) (l : list A) :
  forallb f (filter f l) = true.
Proof.
  induction l as [|x l IH]; simpl; [reflexivity|].
  destruct (f x) eqn:E; simpl; [now rewrite E | exact IH].
Qed.

Lemma selectAfterDelete_keeps remaining nextAll e :
  let e' := selectAfterDelete remaining nextAll e in
  allChats (state e') = allChats (state e)
  /\ chats (state e') = chats (state e)
  /\ projects (state e') = projects (state e)
  /\ ChatStorage.getAllChats (storage e') = ChatStorage.getAllChats (storage e)
  /\ ChatStorage.getProjects (storage e') = ChatStorage.getProjects (storage e).
Proof. destruct remaining; repeat split. Qed.

(** With the local adapter the cascade is complete: no chat of the
    deleted project stays in [localStorage], in [allChats] or in
    [chats], whichever project is selected. *)
Lemma local_delete_project_cascades p proj e :
  useSharePoint p = false ->
  let e' := handleDeleteProject p proj true e in
  let gone := forallb (notOfProject (IProject.id proj)) in
  gone (ChatStorage.getAllChats (storage e')) = true
  /\ gone (allChats (state e')) = true
  /\ gone (chats (state e')) = true
  /\ forallb (notProject (IProject.id proj))
       (ChatStorage.getProjects (storage e')) = true.
Proof.
  intros Hlocal. unfold handleDeleteProject. rewrite Hlocal. cbn [negb].
  cbv zeta.
  destruct (isCurrentProject (IProject.id proj) (state e)).
  - match goal with |- context [selectAfterDelete ?r ?n ?x] =>
      destruct (selectAfterDelete_keeps r n x) as (H1 & H2 & H3 & H4 & H5)
    end.
    rewrite H1, H2, H4, H5. simpl.
    rewrite getProjects_saveAllChats, getAllChats_saved
      by (apply fits_le, sizeOfChats_filter_le).
    repeat split; apply forallb_filter_self.
  - simpl.
    rewrite getProjects_saveAllChats, getAllChats_saved
      by (apply fits_le, sizeOfChats_filter_le).
    repeat split; apply forallb_filter_self.
Qed.

End DeleteProjectFacts.

(** The same session, deleting the selected project instead: its chats
    are in [chats], so the DELETE is sent and the chat file is gone. *)
Lemma delete_selected_project_removes_its_chat_file :
  let e' := Chat.handleDeleteProject Sample.libraryProps Sample.projectOne true
              Sample.libraryEnv in
  Chat.error (Chat.state e') = None
  /\ Chat.projects (Chat.state e') = [Sample.projectTwo]
  /\ Chat.allChats (Chat.state e') = [Sample.chatTwo]
  /\ Chat.currentProjectId (Chat.state e') = Some "p2"
  /\ fst (SharePoint.getChatsFromLibrary (Chat.world e')) = Ok [Sample.chatTwo].
Proof. repeat split; vm_compute; reflexivity. Qed.

(** C3, the failing input evaluated.  With the library adapter, the
    first project selected and [chats] holding its chats only, deleting
    the second project removes it and its chat from the component state
    and saves the shortened project list, but sends no DELETE: the chat
    file of the second project is still in the library and is loaded
    again with the next session. *)
Theorem delete_other_project_keeps_its_chat_file :
  let e' := Chat.handleDeleteProject Sample.libraryProps Sample.projectTwo true
              Sample.libraryEnv in
  Chat.chats (Chat.state Sample.libraryEnv) = [Sample.chatOne]
  /\ Chat.error (Chat.state e') = None
  /\ Chat.projects (Chat.state e') = [Sample.projectOne]
  /\ Chat.allChats (Chat.state e') = [Sample.chatOne]
  /\ fst (SharePoint.getProjectsFromLibrary (Chat.world e'))
     = Ok [Sample.projectOne]
  /\ fst (SharePoint.getChatsFromLibrary (Chat.world e'))
     = Ok [Sample.chatOne; Sample.chatTwo]
  /\ IStoredChat.projectId Sample.chatTwo = IProject.id Sample.projectTwo.
Proof. repeat split; vm_compute; reflexivity. Qed.

(* ----------------------------------------------------------------- *)
(** *** Cancellation *)

Section CancellationFacts.
Import Chat.

Variable deltaOf : string -> option string.
Variable p : Props.

Lemma aborted_await {A : Type} (op : SharePoint.M A) onOk onErr e :
  (forall a s, aborted (onOk a s) = aborted s) ->
  (forall m s, aborted (onErr m s) = aborted s) ->
  aborted (state (await op onOk onErr e)) = aborted (state e).
Proof.
  intros H1 H2. unfold await. destruct (op (world e)) as [[a|m] w]; simpl; auto.
Qed.

Lemma aborted_storeNewChat record pid onErr e :
  (forall m s, aborted (onErr m s) = aborted s) ->
  aborted (state (storeNewChat p record pid onErr e)) = aborted (state e).
Proof.
  intros H. unfold storeNewChat. destruct (useSharePoint p).
  - apply aborted_await; [reflexivity | exact H].
  - reflexivity.
Qed.

Lemma aborted_appendUserTurn fr userText imgs fts others st e :
  aborted (state (appendUserTurn p fr userText imgs fts others st e))
  = aborted (state e).
Proof.
  unfold appendUserTurn. cbv zeta.
  destruct (negb _ && _); [|reflexivity].
  destruct (currentProjectId st); [|reflexivity].
  unfold onState at 1. cbn [state setMessages aborted].
  rewrite aborted_storeNewChat; reflexivity.
Qed.

Lemma aborted_sendMessage rg fr e :
  aborted (state (fst (sendMessage p rg fr e))) = aborted (state e).
Proof.
  unfold sendMessage. cbv zeta.
  destruct (negb (Js.truthy _)); [reflexivity|].
  set (lastUser := if rg && _ then _ else None).
  assert (H0 : aborted (state match lastUser with
                               | Some _ => onState (setMessages (Builder.dropLast 2)) e
                               | None => e
                               end) = aborted (state e))
    by (destruct lastUser; reflexivity).
  destruct (negb _ && negb rg); [exact H0|].
  destruct (loading (state e)); [exact H0|].
  cbn [fst state onState setAbortRef setLoading setMessages aborted].
  destruct rg.
  - cbn [state onState setError aborted]. exact H0.
  - rewrite aborted_appendUserTurn. cbn [state onState setError aborted].
    exact H0.
Qed.

Lemma aborted_selectAfterDelete remaining nextAll e :
  aborted (state (selectAfterDelete remaining nextAll e)) = aborted (state e).
Proof. destruct remaining; reflexivity. Qed.

Lemma aborted_handleDeleteProject proj confirmed e :
  aborted (state (handleDeleteProject p proj confirmed e)) = aborted (state e).
Proof.
  unfold handleDeleteProject. destruct (negb confirmed); [reflexivity|].
  cbv zeta. destruct (useSharePoint p).
  - destruct (SharePoint.bind _ _ (world e)) as [[u|msg] w]; [|reflexivity].
    destruct (isCurrentProject _ _); [|reflexivity].
    now rewrite aborted_selectAfterDelete.
  - destruct (isCurrentProject _ _); [|reflexivity].
    now rewrite aborted_selectAfterDelete.
Qed.

Lemma aborted_effects e :
  aborted (state (loadMessages p (syncChats p e))) = aborted (state e).
Proof.
  assert (H1 : aborted (state (syncChats p e)) = aborted (state e)).
  { unfold syncChats. destruct (ChatStorage.truthyId _); [|reflexivity].
    destruct (currentProjectId _); [|reflexivity].
    now destruct (useSharePoint p). }
  rewrite <- H1. generalize (syncChats p e). intros e0.
  unfold loadMessages. destruct (ChatStorage.truthyId _); [|reflexivity].
  destruct (currentChatId _); [|reflexivity].
  destruct (find _ _) as [chat|]; [|reflexivity].
  now destruct (IStoredChat.messages chat).
Qed.

Lemma aborted_newChat newId at_ e c :
  In c (aborted (state e)) -> In c (aborted (state (newChat p newId at_ e))).
Proof.
  intros H. unfold newChat. cbv zeta.
  assert (H0 : In c (aborted (abortCurrent (state e)))).
  { unfold abortCurrent. destruct (abortRef (state e)); simpl; auto. }
  cbn [onState state setInput setAttachments setError setLoading
       currentProjectId].
  destruct (currentProjectId (abortCurrent (state e))); [|exact H0].
  destruct (Js.truthy _); [|exact H0].
  unfold setCurrentChatId.
  cbn [onState onStorage state setMessages setCurrentChatIdState aborted].
  rewrite aborted_storeNewChat; [exact H0 | reflexivity].
Qed.

Lemma aborted_deliver d fl st :
  aborted (snd (deliver deltaOf d fl st)) = aborted st.
Proof.
  unfold deliver. destruct (isAborted _ st); [reflexivity|].
  destruct d as [value| |msg]; try reflexivity.
  pose proof (onChunk_keeps deltaOf value fl st) as H.
  destruct (onChunk deltaOf value fl st) as [fl' st'].
  now destruct H as (_ & _ & A & _).
Qed.

Lemma isAborted_In c st : isAborted c st = true <-> In c (aborted st).
Proof.
  unfold isAborted. rewrite existsb_exists. split.
  - intros (x & Hin & Hx). apply Nat.eqb_eq in Hx. now subst.
  - intros H. exists c. split; [exact H | apply Nat.eqb_refl].
Qed.

(** Once aborted, a signal stays aborted whatever happens next. *)
Lemma isAborted_step c ev e :
  isAborted c (state e) = true ->
  isAborted c (state (step deltaOf p ev e)) = true.
Proof.
  rewrite !isAborted_In. intros H.
  destruct ev as [rg fr|chat|newId at_|proj confirmed| |fl d]; simpl.
  - now rewrite aborted_sendMessage.
  - exact H.
  - now apply aborted_newChat.
  - now rewrite aborted_handleDeleteProject.
  - now rewrite aborted_effects.
  - now rewrite aborted_deliver.
Qed.

Lemma isAborted_steps c evs : forall e,
  isAborted c (state e) = true ->
  isAborted c (state (steps deltaOf p evs e)) = true.
Proof.
  unfold steps. induction evs as [|ev evs IH]; intros e H; simpl; [exact H|].
  apply IH, isAborted_step, H.
Qed.

(** A delivery for an aborted signal changes no message. *)
Lemma deliver_aborted d fl st :
  isAborted (flightSignal fl) st = true ->
  deliver deltaOf d fl st = (None, onAbortError st)
  /\ messages (snd (deliver deltaOf d fl st)) = messages st.
Proof. intros H. unfold deliver. rewrite H. split; reflexivity. Qed.

End CancellationFacts.

(** C5, the failing input evaluated.  While the reply to the question
    asked in chat [c1] streams, the user selects another chat of the
    project, [c2], stored without messages, and the effects run.  The
    signal of the request is not aborted ([newChat] aborts it,
    [handleSelectChat] does not), so the next chunk of the reply is
    still written into the placeholder on screen; and when the reply is
    complete and the turn ends, the question and its reply are stored
    as the messages of [c2], while [c1] is stored without them. *)
Theorem switching_chat_does_not_cancel :
  let e1 := Chat.steps Sample.echoDelta Sample.localProps
              [Chat.SelectChat Sample.emptyChat; Chat.Effects]
              Sample.streamingEnv in
  let e2 := Chat.step Sample.echoDelta Sample.localProps
              (Chat.Deliver Sample.flight (Chat.Chunk ("data: Paris" ++ Js.LF)))
              e1 in
  Chat.loading (Chat.state Sample.streamingEnv) = true
  /\ Chat.abortRef (Chat.state Sample.streamingEnv)
     = Some (Chat.flightSignal Sample.flight)
  /\ Chat.currentChatId (Chat.state Sample.streamingEnv) = Some "c1"
  /\ Chat.currentChatId (Chat.state e1) = Some "c2"
  /\ Chat.isAborted (Chat.flightSignal Sample.flight) (Chat.state e1) = false
  /\ map IChatMessage.content (Chat.messages (Chat.state e1))
     = ["What is the capital of France?"; ""]
  /\ map IChatMessage.content (Chat.messages (Chat.state e2))
     = ["What is the capital of France?"; "Paris"]
  /\ exists e3,
       Handlers.acts Sample.echoDelta Sample.localProps
         Scenario.switchWhileStreaming Sample.streamingEnv = Ok e3
       /\ map (fun c => (IStoredChat.id c,
                         map IStoredMessage.content (IStoredChat.messages c)))
              (ChatStorage.getAllChats (Chat.storage e3))
          = [("c1", []); ("c2", ["What is the capital of France?"; "Paris"])].
Proof.
  repeat (split; [reflexivity|]).
  eexists. split; vm_compute; reflexivity.
Qed.

(** What does cancel.  While a stream is active, a call of
    [sendMessage] dispatches nothing and leaves the request in flight as
    it is, not aborted; starting a new chat aborts the request in
    flight, and from then on, whatever the session does, no delivery of
    the aborted request changes any message. *)
Theorem send_rejected_and_new_chat_aborts
    (deltaOf : string -> option string) (p : Chat.Props) (e : Chat.Env)
    (c : nat) :
  Chat.loading (Chat.state e) = true ->
  Chat.abortRef (Chat.state e) = Some c ->
  (forall rg fr,
     let e' := fst (Chat.sendMessage p rg fr e) in
     snd (Chat.sendMessage p rg fr e) = Chat.NotSent
     /\ Chat.aborted (Chat.state e') = Chat.aborted (Chat.state e)
     /\ Chat.abortRef (Chat.state e') = Some c)
  /\ (forall newId at_,
        let e1 := Chat.newChat p newId at_ e in
        Chat.isAborted c (Chat.state e1) = true
        /\ forall evs fl d,
             Chat.flightSignal fl = c ->
             let before := Chat.steps deltaOf p evs e1 in
             Chat.messages
               (Chat.state (Chat.step deltaOf p (Chat.Deliver fl d) before))
             = Chat.messages (Chat.state before)).
Proof.
  intros Hload Href. split.
  - intros rg fr e'. split; [|split].
    + unfold Chat.sendMessage. cbv zeta.
      destruct (negb (Js.truthy _)); [reflexivity|].
      destruct (negb _ && negb rg); [reflexivity|].
      now rewrite Hload.
    + apply aborted_sendMessage.
    + unfold e', Chat.sendMessage. cbv zeta.
      destruct (negb (Js.truthy _)); [exact Href|].
      set (lastUser := if rg && _ then _ else None).
      assert (H0 : Chat.abortRef (Chat.state
                     match lastUser with
                     | Some _ =>
                         Chat.onState (Chat.setMessages (Builder.dropLast 2)) e
                     | None => e
                     end) = Some c)
        by (destruct lastUser; exact Href).
      destruct (negb _ && negb rg); [exact H0|].
      rewrite Hload. exact H0.
  - intros newId at_ e1.
    assert (Ha : Chat.isAborted c (Chat.state e1) = true).
    { apply isAborted_In. unfold e1, Chat.newChat. cbv zeta.
      assert (H0 : In c (Chat.aborted (Chat.abortCurrent (Chat.state e))))
        by (unfold Chat.abortCurrent; rewrite Href; simpl; auto).
      cbn [Chat.onState Chat.state Chat.setInput Chat.setAttachments
           Chat.setError Chat.setLoading Chat.currentProjectId].
      destruct (Chat.currentProjectId (Chat.abortCurrent (Chat.state e)));
        [|exact H0].
      destruct (Js.truthy _); [|exact H0].
      unfold Chat.setCurrentChatId.
      cbn [Chat.onState Chat.onStorage Chat.state Chat.setMessages
           Chat.setCurrentChatIdState Chat.aborted].
      rewrite aborted_storeNewChat; [exact H0 | reflexivity]. }
    split; [exact Ha|].
    intros evs fl d Hsig before. simpl.
    apply deliver_aborted. rewrite Hsig.
    apply isAborted_steps, Ha.
Qed.

Lemma send_rejected_and_new_chat_aborts_witness :
  (forall rg fr,
     let e' := fst (Chat.sendMessage Sample.localProps rg fr
                      Sample.streamingEnv) in
     snd (Chat.sendMessage Sample.localProps rg fr Sample.streamingEnv)
     = Chat.NotSent
     /\ Chat.aborted (Chat.state e')
        = Chat.aborted (Chat.state Sample.streamingEnv)
     /\ Chat.abortRef (Chat.state e') = Some 1%nat)
  /\ (forall newId at_,
        let e1 := Chat.newChat Sample.localProps newId at_
                    Sample.streamingEnv in
        Chat.isAborted 1 (Chat.state e1) = true
        /\ forall evs fl d,
             Chat.flightSignal fl = 1%nat ->
             let before := Chat.steps Sample.echoDelta Sample.localProps
                             evs e1 in
             Chat.messages
               (Chat.state (Chat.step Sample.echoDelta Sample.localProps
                              (Chat.Deliver fl d) before))
             = Chat.messages (Chat.state before)).
Proof.
  apply (send_rejected_and_new_chat_aborts Sample.echoDelta Sample.localProps
           Sample.streamingEnv 1%nat);
    reflexivity.
Defined.

(* ----------------------------------------------------------------- *)
(** *** Dates: [new Date(d.toISOString())] is [d] *)

Section DateFacts.
Import JsDate.

Lemma small_digit_cases (r : Z) (P : Z -> Prop) :
  0 <= r < 10 ->
  P 0 -> P 1 -> P 2 -> P 3 -> P 4 -> P 5 -> P 6 -> P 7 -> P 8 -> P 9 -> P r.
Proof.
  intros H P0 P1 P2 P3 P4 P5 P6 P7 P8 P9.
  assert (E : r = 0 \/ r = 1 \/ r = 2 \/ r = 3 \/ r = 4 \/ r = 5 \/ r = 6
              \/ r = 7 \/ r = 8 \/ r = 9) by lia.
  repeat (destruct E as [E|E]; [subst r; assumption|]). now subst r.
Qed.

Lemma digitValue_digitChar n : digitValue (digitChar n) = Some (n mod 10).
Proof.
  unfold digitChar.
  apply (small_digit_cases (n mod 10)
           (fun r => digitValue (ascii_of_N (Z.to_N (48 + r))) = Some r));
    try reflexivity.
  apply Z.mod_pos_bound. lia.
Qed.

Lemma readYear_digit n r :
  readYear (String (digitChar n) r) = readDigits 4 0 (String (digitChar n) r).
Proof.
  unfold digitChar.
  apply (small_digit_cases (n mod 10)
           (fun d => readYear (String (ascii_of_N (Z.to_N (48 + d))) r)
                     = readDigits 4 0 (String (ascii_of_N (Z.to_N (48 + d))) r)));
    try reflexivity.
  apply Z.mod_pos_bound. lia.
Qed.

Lemma readDigits_snoc k : forall acc s,
  readDigits (S k) acc s
  = match readDigits k acc s with
    | Some (a, r) => readDigits 1 a r
    | None => None
    end.
Proof.
  induction k as [|k IH]; intros acc s.
  - reflexivity.
  - destruct s as [|c r]; [reflexivity|].
    change (readDigits (S (S k)) acc (String c r))
      with (match digitValue c with
            | Some d => readDigits (S k) (acc * 10 + d) r
            | None => None
            end).
    change (readDigits (S k) acc (String c r))
      with (match digitValue c with
            | Some d => readDigits k (acc * 10 + d) r
            | None => None
            end).
    destruct (digitValue c) as [d|]; [|reflexivity].
    apply IH.
Qed.

Lemma readDigits_padAcc k : forall n acc rest,
  readDigits k acc (padAcc k n rest)
  = Some (acc * 10 ^ Z.of_nat k + n mod 10 ^ Z.of_nat k, rest).
Proof.
  induction k as [|k IH]; intros n acc rest.
  - simpl. rewrite Z.mod_1_r. f_equal. f_equal. lia.
  - rewrite readDigits_snoc. cbn [padAcc]. rewrite IH.
    cbn [readDigits]. rewrite digitValue_digitChar.
    f_equal. f_equal.
    rewrite Nat2Z.inj_succ, Z.pow_succ_r by lia.
    rewrite (Z.rem_mul_r n 10 (10 ^ Z.of_nat k)) by lia. ring.
Qed.

Lemma readDigits_pad k n rest :
  0 <= n < 10 ^ Z.of_nat k ->
  readDigits k 0 (padAcc k n rest) = Some (n, rest).
Proof.
  intros H. rewrite readDigits_padAcc, Z.mod_small by exact H.
  reflexivity.
Qed.

Lemma readYear_yearAcc y rest :
  -999999 <= y <= 999999 -> readYear (yearAcc y rest) = Some (y, rest).
Proof.
  intros H. unfold yearAcc.
  destruct ((0 <=? y) && (y <=? 9999)) eqn:E.
  - apply andb_true_iff in E. destruct E as [E1 E2].
    apply Z.leb_le in E1, E2.
    change (padAcc 4 y rest)
      with (padAcc 3 (y / 10) (String (digitChar y) rest)).
    cbn [padAcc]. rewrite readYear_digit.
    change (String (digitChar (y / 10 / 10 / 10))
              (String (digitChar (y / 10 / 10))
                 (String (digitChar (y / 10)) (String (digitChar y) rest))))
      with (padAcc 4 y rest).
    apply readDigits_pad. simpl. lia.
  - destruct (y <? 0) eqn:En.
    + apply Z.ltb_lt in En. cbn [readYear].
      rewrite readDigits_pad by (simpl; lia). f_equal. f_equal. lia.
    + apply Z.ltb_ge in En. cbn [readYear].
      apply readDigits_pad. simpl. lia.
Qed.

(** The calendar conversion and its inverse, with the ranges of the
    fields. *)
Lemma civil_roundtrip z :
  let '(y, m, d) := civilFromDays z in
  daysFromCivil y m d = z
  /\ 1 <= m <= 12 /\ 1 <= d <= 31
  /\ 400 * ((z + 719468) / 146097) <= y <= 400 * ((z + 719468) / 146097) + 400.
Proof.
  unfold civilFromDays. cbv zeta.
  set (era := (z + 719468) / 146097).
  set (doe := (z + 719468) mod 146097).
  assert (Hz : z + 719468 = 146097 * era + doe)
    by (unfold era, doe; apply Z.div_mod; lia).
  assert (Hdoe : 0 <= doe < 146097)
    by (unfold doe; apply Z.mod_pos_bound; lia).
  clearbody era doe.
  set (yoe := (doe - doe / 1460 + doe / 36524 - doe / 146096) / 365).
  assert (Hyoe : 0 <= yoe <= 399)
    by (unfold yoe; Z.div_mod_to_equations; lia).
  set (doy := doe - (365 * yoe + yoe / 4 - yoe / 100)).
  assert (Hdoy : 0 <= doy <= 365)
    by (unfold doy, yoe; Z.div_mod_to_equations; lia).
  assert (Edoe : doe = yoe * 365 + yoe / 4 - yoe / 100 + doy)
    by (unfold doy; lia).
  clearbody doy. clearbody yoe.
  set (mp := (5 * doy + 2) / 153).
  assert (Hmp : 0 <= mp <= 11) by (unfold mp; Z.div_mod_to_equations; lia).
  set (d := doy - (153 * mp + 2) / 5 + 1).
  assert (Hd : 1 <= d <= 31) by (unfold d, mp; Z.div_mod_to_equations; lia).
  assert (Edoy : doy = (153 * mp + 2) / 5 + d - 1) by (unfold d; lia).
  clearbody d. clearbody mp.
  set (m := if mp <? 10 then mp + 3 else mp - 9).
  assert (Hm : 1 <= m <= 12 /\ (if 2 <? m then m - 3 else m + 9) = mp).
  { unfold m. destruct (mp <? 10) eqn:E.
    - apply Z.ltb_lt in E. split; [lia|].
      destruct (2 <? mp + 3) eqn:E2; [lia | apply Z.ltb_ge in E2; lia].
    - apply Z.ltb_ge in E. split; [lia|].
      destruct (2 <? mp - 9) eqn:E2; [apply Z.ltb_lt in E2; lia | lia]. }
  destruct Hm as [Hm Emp]. clearbody m.
  set (leap := if m <=? 2 then 1 else 0).
  assert (Hleap : 0 <= leap <= 1) by (unfold leap; destruct (m <=? 2); lia).
  split; [|split; [exact Hm | split; [exact Hd | lia]]].
  unfold daysFromCivil. cbv zeta. fold leap. rewrite Emp.
  replace (yoe + era * 400 + leap - leap) with (yoe + era * 400) by lia.
  rewrite Z.div_add, Z.mod_add, Z.div_small, Z.mod_small by lia.
  rewrite <- Edoy. lia.
Qed.

Lemma time_of_day ms :
  0 <= ms < msPerDay ->
  0 <= ms / 3600000 <= 23
  /\ 0 <= ms / 60000 mod 60 <= 59
  /\ 0 <= ms / 1000 mod 60 <= 59
  /\ 0 <= ms mod 1000 <= 999
  /\ ms / 3600000 * 3600000 + ms / 60000 mod 60 * 60000
     + ms / 1000 mod 60 * 1000 + ms mod 1000 = ms.
Proof.
  unfold msPerDay. intros H. Z.div_mod_to_equations. lia.
Qed.

Lemma between_true lo x hi : lo <= x <= hi -> between lo x hi = true.
Proof.
  intros H. unfold between. apply andb_true_iff. split; apply Z.leb_le; lia.
Qed.

(** Parsing what [toISOString] wrote gives the time value back. *)
Lemma parseIso_isoOfTime t :
  inRange t = true -> parseIso (isoOfTime t) = Some t.
Proof.
  intros Hr. unfold inRange, maxTime in Hr. apply andb_true_iff in Hr.
  destruct Hr as [H1 H2]. apply Z.leb_le in H1, H2.
  unfold isoOfTime. cbv zeta.
  set (day := t / msPerDay). set (ms := t mod msPerDay).
  assert (Et : t = msPerDay * day + ms)
    by (unfold day, ms; apply Z.div_mod; unfold msPerDay; lia).
  assert (Hms : 0 <= ms < msPerDay)
    by (unfold ms; apply Z.mod_pos_bound; unfold msPerDay; lia).
  assert (Hday : -100000000 <= day <= 100000000)
    by (unfold msPerDay in *; lia).
  clearbody day ms.
  pose proof (civil_roundtrip day) as Hc.
  destruct (civilFromDays day) as [[y m] d].
  destruct Hc as (Eday & Hm & Hd & Hy).
  assert (Hyr : -999999 <= y <= 999999)
    by (revert Hy; Z.div_mod_to_equations; lia).
  destruct (time_of_day ms Hms) as (Hh & Hmi & Hs & Hmil & Ems).
  unfold parseIso.
  rewrite readYear_yearAcc by exact Hyr. cbn [bindO expect Ascii.eqb Bool.eqb].
  rewrite readDigits_pad by (simpl; lia). cbn [bindO expect Ascii.eqb Bool.eqb].
  rewrite readDigits_pad by (simpl; lia). cbn [bindO expect Ascii.eqb Bool.eqb].
  rewrite readDigits_pad by (simpl; lia). cbn [bindO expect Ascii.eqb Bool.eqb].
  rewrite readDigits_pad by (simpl; lia). cbn [bindO expect Ascii.eqb Bool.eqb].
  rewrite readDigits_pad by (simpl; lia). cbn [bindO expect Ascii.eqb Bool.eqb].
  rewrite readDigits_pad by (simpl; lia). cbn [bindO expect Ascii.eqb Bool.eqb].
  rewrite !between_true by lia. cbn [andb].
  f_equal. rewrite Eday. unfold msPerDay in *. lia.
Qed.

Lemma newDate_isoOfTime t :
  inRange t = true -> newDate (isoOfTime t) = TimeValue t.
Proof.
  intros H. unfold newDate. now rewrite parseIso_isoOfTime, H, String.eqb_refl.
Qed.

End DateFacts.

(* ----------------------------------------------------------------- *)
(** *** Persisting a chat and reading it back *)

Section RoundTripFacts.
Import Js ChatStorage.

Lemma stored_roundtrip m :
  JsDate.validDate (IChatMessage.timestamp m) ->
  exists s, messageToStored m = Ok s /\ storedToMessage s = m.
Proof.
  destruct m as [id role content [t|] imgs fts others]; simpl;
    [|contradiction].
  intros H. eexists. split; [reflexivity|].
  unfold storedToMessage. simpl. now rewrite newDate_isoOfTime.
Qed.

Lemma stored_roundtrip_all msgs :
  Forall (fun m => JsDate.validDate (IChatMessage.timestamp m)) msgs ->
  exists stored,
    mapResult messageToStored msgs = Ok stored
    /\ map storedToMessage stored = msgs.
Proof.
  induction 1 as [|m msgs Hm _ IH]; simpl.
  - now exists [].
  - destruct (stored_roundtrip m Hm) as (s & -> & Es).
    destruct IH as (stored & -> & Est).
    exists (s :: stored). split; [reflexivity|]. simpl. now rewrite Es, Est.
Qed.

Lemma find_upsert cid updated all :
  IStoredChat.id updated = cid ->
  find (Chat.hasChatId cid) (Chat.upsert cid updated all) = Some updated.
Proof.
  intros Hid.
  assert (Hu : Chat.hasChatId cid updated = true)
    by (unfold Chat.hasChatId; rewrite Hid; apply String.eqb_refl).
  induction all as [|c all IH]; simpl.
  - now rewrite Hu.
  - destruct (Chat.hasChatId cid c) eqn:E; simpl; [now rewrite Hu|].
    now rewrite E.
Qed.

Lemma str_app_assoc (a b c : string) : (a ++ b) ++ c = a ++ b ++ c.
Proof. induction a as [|x a IH]; simpl; [reflexivity | now rewrite IH]. Qed.

Lemma str_app_nil_r (a : string) : a ++ "" = a.
Proof. induction a as [|x a IH]; simpl; [reflexivity | now rewrite IH]. Qed.

Lemma rev_append (a b : string) : Js.rev (a ++ b) = Js.rev b ++ Js.rev a.
Proof.
  induction a as [|x a IH]; simpl.
  - now rewrite str_app_nil_r.
  - now rewrite IH, str_app_assoc.
Qed.

Lemma endsWith_append (a e : string) : endsWith (a ++ e) e = true.
Proof. unfold endsWith. rewrite rev_append. apply prefix_append. Qed.

Lemma eqb_append_l (a x y : string) :
  String.eqb (a ++ x) (a ++ y) = String.eqb x y.
Proof.
  induction a as [|c a IH]; simpl; [reflexivity|].
  now rewrite Ascii.eqb_refl.
Qed.

Lemma append_inv_l (a x y : string) : a ++ x = a ++ y -> x = y.
Proof.
  intros H. apply String.eqb_eq. rewrite <- (eqb_append_l a).
  now apply String.eqb_eq.
Qed.

Lemma append_inv_r (x y e : string) : x ++ e = y ++ e -> x = y.
Proof.
  revert y. induction x as [|c x IH]; intros [|d y] H; simpl in H.
  - reflexivity.
  - apply (f_equal String.length) in H. simpl in H.
    rewrite length_append in H. lia.
  - apply (f_equal String.length) in H. simpl in H.
    rewrite length_append in H. lia.
  - inversion H. f_equal. now apply IH.
Qed.

Section Library.
Import SharePoint.

Lemma chatFileName_inj a b : chatFileName a = chatFileName b -> a = b.
Proof.
  unfold chatFileName. intros H.
  apply append_inv_l in H. now apply append_inv_r in H.
Qed.

Lemma isChatFileName_chatFileName id : isChatFileName (chatFileName id) = true.
Proof.
  unfold isChatFileName, chatFileName, startsWith.
  rewrite prefix_append. cbn [andb].
  rewrite <- str_app_assoc. apply endsWith_append.
Qed.

Lemma url_eqb srv a b :
  String.eqb (serverRelativeUrl srv a) (serverRelativeUrl srv b)
  = String.eqb a b.
Proof. unfold serverRelativeUrl. now rewrite !eqb_append_l. Qed.

Lemma find_putFile name c fs :
  find (fun f => String.eqb (fst f) name) (putFile name c fs) = Some (name, c).
Proof.
  induction fs as [|f fs IH]; simpl.
  - now rewrite String.eqb_refl.
  - destruct (String.eqb (fst f) name) eqn:E; simpl.
    + now rewrite String.eqb_refl.
    + now rewrite E.
Qed.

Lemma in_putFile name c fs : In (name, c) (putFile name c fs).
Proof.
  induction fs as [|f fs IH]; simpl; [now left|].
  destruct (String.eqb (fst f) name); simpl; auto.
Qed.

Lemma names_putFile name c fs n :
  In n (map fst (putFile name c fs)) -> n = name \/ In n (map fst fs).
Proof.
  induction fs as [|f fs IH]; simpl.
  - intros [H|[]]; auto.
  - destruct (String.eqb (fst f) name) eqn:E; simpl.
    + intros [H|H]; auto.
    + intros [H|H]; [auto|]. destruct (IH H); auto.
Qed.

Lemma NoDup_putFile name c fs :
  NoDup (map fst fs) -> NoDup (map fst (putFile name c fs)).
Proof.
  induction fs as [|f fs IH]; simpl; intros H.
  - constructor; [intros [] | constructor].
  - inversion H as [|x l Hnot Hnd]; subst.
    destruct (String.eqb (fst f) name) eqn:E; simpl.
    + apply String.eqb_eq in E. rewrite <- E. now constructor.
    + apply String.eqb_neq in E. constructor; [|now apply IH].
      intros Hin. apply names_putFile in Hin. destruct Hin; auto.
Qed.

Lemma in_putFile_inv name c fs g :
  NoDup (map fst fs) ->
  In g (putFile name c fs) -> g = (name, c) \/ (In g fs /\ fst g <> name).
Proof.
  induction fs as [|f fs IH]; simpl; intros Hnd.
  - intros [H|[]]; auto.
  - inversion Hnd as [|x l Hnot Hnd']; subst.
    destruct (String.eqb (fst f) name) eqn:E; simpl.
    + apply String.eqb_eq in E. intros [H|H]; [auto|].
      right. split; [now right|]. intros Eg. apply Hnot. rewrite E, <- Eg.
      now apply in_map.
    + apply String.eqb_neq in E. intros [H|H].
      * subst g. right. split; [now left | exact E].
      * destruct (IH Hnd' H) as [?|[? ?]]; auto.
Qed.

Lemma wellNamed_putFile chat fs :
  wellNamed fs ->
  wellNamed (putFile (chatFileName (IStoredChat.id chat)) (JsonChat chat) fs).
Proof.
  intros [Hnd Hname]. split; [now apply NoDup_putFile|].
  intros name c Hin. apply in_putFile_inv in Hin; [|exact Hnd].
  destruct Hin as [H|[H _]]; [|now apply Hname].
  inversion H. reflexivity.
Qed.

Lemma readChats_pure items : forall acc w,
  failing (server w) FileContent = None ->
  readChats items acc w
  = (Ok (acc ++ flat_map (chatIn (server w)) items)%list, w).
Proof.
  induction items as [|file items IH]; intros acc w Hok; simpl.
  - now rewrite app_nil_r.
  - unfold bind at 1.
    assert (E : readChat file acc w = (Ok (acc ++ chatIn (server w) file)%list, w)).
    { unfold readChat, bind, chatIn. rewrite getFileContent_result, Hok.
      destruct (fileAt (server w) (ServerRelativeUrl file)) as [[n body]|];
        simpl; [|now rewrite app_nil_r].
      destruct body as [l|l|chat|raw]; simpl;
        try (now rewrite app_nil_r).
      - destruct (_ && _); simpl; [reflexivity | now rewrite app_nil_r].
      - destruct raw; simpl; now rewrite app_nil_r. }
    rewrite E, IH by exact Hok. now rewrite <- app_assoc.
Qed.

Lemma In_insertSorted {A : Type} (cmp : A -> A -> option Z) x y l :
  In x (insertSorted cmp y l) <-> x = y \/ In x l.
Proof.
  induction l as [|z l IH]; simpl.
  - intuition auto.
  - destruct (cmp y z) as [v|]; [destruct (0 <? v)|]; simpl;
      rewrite ?IH; intuition auto.
Qed.

Lemma In_sort {A : Type} (cmp : A -> A -> option Z) x l :
  In x (ChatStorage.sort cmp l) <-> In x l.
Proof.
  unfold ChatStorage.sort. induction l as [|y l IH]; simpl; [tauto|].
  rewrite In_insertSorted, IH. intuition auto.
Qed.

Lemma healthy_user w : healthy w -> userLookupFails w = false.
Proof.
  intros H. unfold userLookupFails. rewrite (H CurrentUser).
  now destruct (cachedUserId w).
Qed.

(** What [getChatsFromLibrary] reads from a library that answers. *)
Lemma getChatsFromLibrary_healthy w :
  healthy w ->
  getChatsFromLibrary w
  = (Ok (ChatStorage.sort ChatStorage.byUpdatedDesc
           (flat_map (chatIn (server w))
              (filter (fun f => isChatFileName (Name f))
                      (itemsOf (server w) (resolvedUser w))))),
     cached w).
Proof.
  intros H. unfold getChatsFromLibrary, bind.
  rewrite getMyFileItems_result, (healthy_user w H), (H Items).
  rewrite readChats_pure by apply H. reflexivity.
Qed.

Lemma fileAt_find srv name :
  fileAt srv (serverRelativeUrl srv name)
  = find (fun f => String.eqb (fst f) name) (files srv).
Proof.
  unfold fileAt. induction (files srv) as [|f fs IH]; simpl; [reflexivity|].
  rewrite url_eqb, IH. reflexivity.
Qed.

Lemma NoDup_fst_inj {B : Type} (l : list (string * B)) a x y :
  NoDup (map fst l) -> In (a, x) l -> In (a, y) l -> x = y.
Proof.
  induction l as [|[b z] l IH]; simpl; intros Hnd Hx Hy; [contradiction|].
  inversion Hnd as [|? ? Hnot Hnd']; subst.
  destruct Hx as [Hx|Hx], Hy as [Hy|Hy].
  - congruence.
  - inversion Hx; subst. elim Hnot. now apply (in_map fst) in Hy.
  - inversion Hy; subst. elim Hnot. now apply (in_map fst) in Hx.
  - now apply IH.
Qed.

Lemma find_unique {A : Type} (f : A -> bool) (l : list A) (x : A) :
  In x l -> f x = true -> (forall y, In y l -> f y = true -> y = x) ->
  find f l = Some x.
Proof.
  intros Hin Hx Hu. destruct (find f l) as [y|] eqn:E.
  - apply find_some in E. destruct E as [Hy Hfy]. f_equal. now apply Hu.
  - now rewrite (find_none _ _ E x Hin) in Hx.
Qed.

(** The chats read from a well-named library: a chat that is read was
    stored under the file name of its id. *)
Lemma chatIn_stored srv file c :
  In c (chatIn srv file) ->
  exists n, In (n, JsonChat c) (files srv)
            /\ Js.truthy (IStoredChat.id c) = true
            /\ Js.truthy (IStoredChat.projectId c) = true.
Proof.
  unfold chatIn, fileAt.
  destruct (find _ (files srv)) as [[n body]|] eqn:E; [|contradiction].
  destruct body as [l|l|chat|raw]; try contradiction.
  destruct (Js.truthy (IStoredChat.id chat)) eqn:E1; [|contradiction].
  destruct (Js.truthy (IStoredChat.projectId chat)) eqn:E2; [|contradiction].
  intros [H|[]]. subst c. apply find_some in E. exists n. tauto.
Qed.

(** Saving a chat to a library that answers, and loading the chats
    again: the chat is there, as it was saved, and it is the one found
    under its id. *)
Lemma library_roundtrip chat w :
  healthy w -> sameUser w -> wellNamed (files (server w)) ->
  Js.truthy (IStoredChat.id chat) = true ->
  Js.truthy (IStoredChat.projectId chat) = true ->
  exists w1 chats,
    saveChatToLibrary chat w = (Ok tt, w1)
    /\ healthy w1 /\ sameUser w1 /\ wellNamed (files (server w1))
    /\ fst (getChatsFromLibrary w1) = Ok chats
    /\ find (Chat.hasChatId (IStoredChat.id chat)) chats = Some chat.
Proof.
  intros Hh Hu Hw Hid Hpid.
  set (name := chatFileName (IStoredChat.id chat)).
  set (fs1 := putFile name (JsonChat chat) (files (server w))).
  assert (Es : saveChatToLibrary chat w = (Ok tt, withFiles w fs1)).
  { unfold saveChatToLibrary, bind. rewrite getFolder_result, (Hh RootFolder).
    unfold postFile. now rewrite (Hh AddFile), String.eqb_refl. }
  set (w1 := withFiles w fs1).
  assert (Hh1 : healthy w1) by (intros e; apply Hh).
  assert (Hu1 : sameUser w1) by exact Hu.
  assert (Hw1 : wellNamed (files (server w1))) by (now apply wellNamed_putFile).
  exists w1. eexists. split; [exact Es|].
  split; [exact Hh1|]. split; [exact Hu1|]. split; [exact Hw1|].
  rewrite (getChatsFromLibrary_healthy w1 Hh1). split; [reflexivity|].
  set (items := filter _ (itemsOf (server w1) (resolvedUser w1))).
  assert (Hin : In chat (flat_map (chatIn (server w1)) items)).
  { apply in_flat_map.
    exists (mkItem name (serverRelativeUrl (server w1) name)). split.
    - unfold items. apply filter_In. split.
      + unfold itemsOf. rewrite Hu1, Z.eqb_refl.
        apply in_map_iff. exists (name, JsonChat chat). split; [reflexivity|].
        apply in_putFile.
      + apply isChatFileName_chatFileName.
    - unfold chatIn. cbn [ServerRelativeUrl]. rewrite fileAt_find.
      cbn [w1 withFiles server files]. unfold fs1. rewrite find_putFile.
      rewrite Hid, Hpid. now left. }
  apply find_unique.
  - now apply In_sort.
  - unfold Chat.hasChatId. apply String.eqb_refl.
  - intros c Hc Hcid. apply In_sort in Hc. apply in_flat_map in Hc.
    destruct Hc as (file & _ & Hc).
    destruct (chatIn_stored _ _ _ Hc) as (n & Hn & _).
    destruct Hw1 as [Hnd Hnames].
    pose proof (Hnames n c Hn) as En.
    unfold Chat.hasChatId in Hcid. apply String.eqb_eq in Hcid.
    rewrite Hcid in En. fold name in En. subst n.
    assert (Hchat : In (name, JsonChat chat) (files (server w1)))
      by apply in_putFile.
    pose proof (NoDup_fst_inj _ _ _ _ Hnd Hn Hchat) as E.
    now inversion E.
Qed.

End Library.

End RoundTripFacts.

(** C8, counterexample.  A message whose timestamp is an Invalid Date
    (here one read from a record whose stamp is empty) cannot be
    converted for the store: [messageToStored] throws, so the
    conversions do not give the message back, and persisting it throws
    with either adapter.  With the local adapter, when [localStorage]
    has no room for the texts of the messages, persisting returns
    normally but the write is dropped, and no chat is read back. *)
Lemma persisted_chat_not_always_read_back :
  IChatMessage.timestamp Scenario.undated = JsDate.InvalidDate
  /\ ChatStorage.messageToStored Scenario.undated = Throw "Invalid time value"
  /\ Chat.persistCurrentChat Sample.localProps [Scenario.undated] None
       1700000003000 Sample.idleEnv = Throw "Invalid time value"
  /\ Chat.persistCurrentChat Sample.libraryProps [Scenario.undated] None
       1700000003000 Sample.libraryEnv = Throw "Invalid time value"
  /\ exists e',
       Chat.persistCurrentChat Sample.localProps
         [Sample.question; Sample.answer] None 1700000003000
         Scenario.crampedEnv = Ok e'
       /\ ChatStorage.getAllChats (Chat.storage e') = []
       /\ find (Chat.hasChatId "c1") (ChatStorage.getAllChats (Chat.storage e'))
          = None.
Proof.
  split; [reflexivity|]. split; [reflexivity|]. split; [reflexivity|].
  split; [reflexivity|]. eexists. split; [reflexivity|].
  split; vm_compute; reflexivity.
Qed.

(** C8, as amended.  For a message whose timestamp is a valid [Date],
    [storedToMessage (messageToStored m)] is [m].  When a chat and a
    project are selected, persisting messages with valid timestamps
    succeeds with either adapter, provided that the write goes through
    (for the local adapter: the texts of the messages fit in the room
    left in [localStorage]; for the library: it answers, for the same
    user, and its chat files are named after their chats), and the chat
    then read back through the same adapter and found under its id
    carries exactly these messages: the same ids, roles, contents,
    timestamps, image data URLs, file texts and other file names. *)
Theorem persisted_chat_reads_back
    (p : Chat.Props) (msgs : list IChatMessage.t) (title : option string)
    (now : Z) (e : Chat.Env) (cid pid : string) :
  Chat.currentChatId (Chat.state e) = Some cid -> Js.truthy cid = true ->
  Chat.currentProjectId (Chat.state e) = Some pid -> Js.truthy pid = true ->
  Forall (fun m => JsDate.validDate (IChatMessage.timestamp m)) msgs ->
  (Chat.useSharePoint p = true ->
   SharePoint.healthy (Chat.world e) /\ SharePoint.sameUser (Chat.world e)
   /\ SharePoint.wellNamed (SharePoint.files (SharePoint.server (Chat.world e)))) ->
  (Chat.useSharePoint p = false ->
   ChatStorage.sizeOfMessages msgs
   <= Z.of_N (ChatStorage.room (Chat.storage e))) ->
  (forall m, JsDate.validDate (IChatMessage.timestamp m) ->
     exists s, ChatStorage.messageToStored m = Ok s
               /\ ChatStorage.storedToMessage s = m)
  /\ exists e' all chat,
       Chat.persistCurrentChat p msgs title now e = Ok e'
       /\ (if Chat.useSharePoint p
           then fst (SharePoint.getChatsFromLibrary (Chat.world e')) = Ok all
           else ChatStorage.getAllChats (Chat.storage e') = all)
       /\ find (Chat.hasChatId cid) all = Some chat
       /\ map ChatStorage.storedToMessage (IStoredChat.messages chat) = msgs.
Proof.
  intros Hcid Tcid Hpid Tpid Hvalid Hlib Hroom.
  split; [exact stored_roundtrip|].
  destruct (stored_roundtrip_all msgs Hvalid) as (stored & Hstored & Hback).
  unfold Chat.persistCurrentChat. rewrite Hcid, Hpid, Tcid, Tpid. cbn [andb].
  cbv zeta. rewrite Hstored.
  match goal with
  | |- context [IStoredChat.mk cid pid ?t stored ?c ?u] =>
      set (updated := IStoredChat.mk cid pid t stored c u)
  end.
  destruct (Chat.useSharePoint p) eqn:Emode.
  - destruct (Hlib eq_refl) as (Hh & Hu & Hw).
    destruct (library_roundtrip updated (Chat.world e) Hh Hu Hw Tcid Tpid)
      as (w1 & chats & Hsave & _ & _ & _ & Hread & Hfind).
    eexists _, chats, updated. split; [reflexivity|].
    unfold Chat.await. rewrite Hsave. cbn [Chat.world].
    split; [exact Hread|]. split; [exact Hfind | exact Hback].
  - eexists _, _, updated. split; [reflexivity|].
    split; [reflexivity|]. split; [|exact Hback].
    cbn [Chat.storage Chat.onState Chat.onStorage].
    rewrite getAllChats_saved
      by (now apply (fits_upsert cid updated _ msgs); auto).
    now apply find_upsert.
Qed.

Lemma sample_library_well_named :
  SharePoint.healthy (Chat.world Sample.libraryEnv)
  /\ SharePoint.sameUser (Chat.world Sample.libraryEnv)
  /\ SharePoint.wellNamed
       (SharePoint.files (SharePoint.server (Chat.world Sample.libraryEnv))).
Proof.
  split; [intros e; reflexivity|]. split; [reflexivity|]. split.
  - simpl. repeat constructor; simpl; intuition discriminate.
  - simpl. intros name c [H|[H|[H|[]]]]; inversion H; reflexivity.
Qed.

Lemma sample_messages_valid :
  Forall (fun m => JsDate.validDate (IChatMessage.timestamp m))
         [Sample.question; Sample.answer].
Proof. repeat constructor. Qed.

Lemma persisted_chat_reads_back_witness :
  (exists e' all chat,
     Chat.persistCurrentChat Sample.libraryProps
       [Sample.question; Sample.answer] None 1700000003000
       Sample.libraryEnv = Ok e'
     /\ fst (SharePoint.getChatsFromLibrary (Chat.world e')) = Ok all
     /\ find (Chat.hasChatId "c1") all = Some chat
     /\ map ChatStorage.storedToMessage (IStoredChat.messages chat)
        = [Sample.question; Sample.answer])
  /\ (exists e' all chat,
        Chat.persistCurrentChat Sample.localProps
          [Sample.question; Sample.answer] None 1700000003000
          Sample.idleEnv = Ok e'
        /\ ChatStorage.getAllChats (Chat.storage e') = all
        /\ find (Chat.hasChatId "c1") all = Some chat
        /\ map ChatStorage.storedToMessage (IStoredChat.messages chat)
           = [Sample.question; Sample.answer]).
Proof.
  split.
  - apply (persisted_chat_reads_back Sample.libraryProps
             [Sample.question; Sample.answer] None 1700000003000
             Sample.libraryEnv "c1" "p1"); try reflexivity.
    + exact sample_messages_valid.
    + intros _. exact sample_library_well_named.
    + intros H. discriminate H.
  - apply (persisted_chat_reads_back Sample.localProps
             [Sample.question; Sample.answer] None 1700000003000
             Sample.idleEnv "c1" "p1"); try reflexivity.
    + exact sample_messages_valid.
    + intros H. discriminate H.
    + intros _. now vm_compute.
Defined.

(* ================================================================= *)
(** ** Further properties of the code *)

(* ----------------------------------------------------------------- *)
(** *** The attachment extractor: which files a batch keeps *)

Section BatchFacts.
Import Js Extractor.

Lemma step_files f acc :
  map IChatAttachment.file (fst (step f acc))
  = (map IChatAttachment.file (fst acc)
     ++ (if Handlers.withinLimit f then [f] else []))%list
  /\ (forallb Handlers.oneKind (fst acc) = true ->
      forallb Handlers.oneKind (fst (step f acc)) = true).
Proof.
  destruct acc as [l total]. unfold step, Handlers.withinLimit.
  rewrite Z.gtb_ltb, Z.leb_antisym.
  destruct (_ <? File.size f); cbn [negb fst].
  - rewrite app_nil_r. auto.
  - destruct (isImageFile f).
    + destruct (fileToDataUrl f); cbn [fst]; rewrite map_app, forallb_app;
        split; try reflexivity; intros ->; reflexivity.
    + destruct (decoderFor f total) as [[text|msg]|]; cbn [pushText fst];
        rewrite map_app, forallb_app;
        split; try reflexivity; intros ->; reflexivity.
Qed.

Lemma firstn_app_short {A : Type} (n : nat) (l r : list A) :
  (n <= List.length l)%nat -> firstn n (l ++ r) = firstn n l.
Proof.
  intros H. rewrite firstn_app.
  replace (n - List.length l)%nat with 0%nat by lia.
  simpl. apply app_nil_r.
Qed.

Lemma loop_files files : forall acc,
  (List.length (fst acc) <= 10)%nat ->
  map IChatAttachment.file (fst (loop files acc))
  = firstn 10 (map IChatAttachment.file (fst acc)
               ++ filter Handlers.withinLimit files)
  /\ (forallb Handlers.oneKind (fst acc) = true ->
      forallb Handlers.oneKind (fst (loop files acc)) = true).
Proof.
  induction files as [|f files IH]; intros acc Hlen; cbn [loop filter].
  - rewrite app_nil_r, firstn_all2 by (rewrite length_map; exact Hlen). auto.
  - destruct (step_files f acc) as [Hstep Hkind].
    unfold MAX_FILES_PER_MESSAGE.
    destruct (Z.of_nat (List.length (fst acc)) <? 10) eqn:E.
    + apply Z.ltb_lt in E.
      assert (Hlen' : (List.length (fst (step f acc)) <= 10)%nat).
      { rewrite <- (length_map IChatAttachment.file), Hstep, length_app,
          length_map. destruct (Handlers.withinLimit f); simpl; lia. }
      destruct (IH (step f acc) Hlen') as [IH1 IH2].
      split; [|auto].
      rewrite IH1, Hstep.
      destruct (Handlers.withinLimit f); [|now rewrite app_nil_r].
      now rewrite <- app_assoc.
    + apply Z.ltb_ge in E. split; [|auto].
      rewrite firstn_app_short by (rewrite length_map; lia).
      rewrite firstn_all2 by (rewrite length_map; lia). reflexivity.
Qed.

Lemma partition_count (l : list IChatAttachment.t) :
  forallb Handlers.oneKind l = true ->
  (List.length (Chat.imageUrlsOf l) + List.length (Chat.fileTextsOf l)
   + List.length (Chat.otherFileNamesOf l) = List.length l)%nat.
Proof.
  unfold Chat.imageUrlsOf, Chat.fileTextsOf, Chat.otherFileNamesOf.
  induction l as [|a l IH]; [reflexivity|].
  cbn [forallb]. intros H. apply andb_true_iff in H. destruct H as [Ha Hl].
  specialize (IH Hl). cbn [flat_map filter].
  unfold Chat.isOtherFile, ChatStorage.truthyId, Handlers.oneKind in *.
  destruct (IChatAttachment.dataUrl a) as [u|];
    [destruct (truthy u)|];
    destruct (IChatAttachment.textContent a);
    try discriminate Ha;
    cbn [negb andb app map List.length]; rewrite ?length_app;
    cbn [List.length]; lia.
Qed.

End BatchFacts.

(** X1.  The batch of one add operation holds the first ten files that
    are within the size limit, one attachment for each, in the order
    they were given. *)
Theorem batch_is_first_ten_within_limit (files : list File.t) :
  map IChatAttachment.file (fst (Extractor.extractBatch files))
  = firstn 10 (filter Handlers.withinLimit files).
Proof.
  destruct (loop_files files ([], 0)) as [H _]; [simpl; lia|]. exact H.
Qed.

(** X2.  Every attachment the extractor produces is counted by a send
    exactly once: as an image data URL, as a file text, or as the name
    of a file whose content was not extracted. *)
Theorem batch_attachments_are_sent_once (files : list File.t) :
  let l := fst (Extractor.extractBatch files) in
  (List.length (Chat.imageUrlsOf l) + List.length (Chat.fileTextsOf l)
   + List.length (Chat.otherFileNamesOf l) = List.length l)%nat.
Proof.
  intros l. apply partition_count.
  destruct (loop_files files ([], 0)) as [_ H]; [simpl; lia|].
  apply H. reflexivity.
Qed.

(** X3.  Adding files to at most ten attachments keeps the earlier
    attachments in front and appends the new ones, the attachments the
    extractor makes of the files, in their order and as many of them as
    fit under ten; it never holds more than ten, clears the error banner
    as soon as one file is within the size limit, and sets the banner,
    without touching the attachments, when files were offered and none
    is within the limit. *)
Theorem add_files_keeps_earlier_and_caps (files : list File.t) (s : Chat.State) :
  (List.length (Chat.attachments s) <= 10)%nat ->
  let s' := Handlers.onFileChange files s in
  let batch := fst (Extractor.extractBatch files) in
  (List.length (Chat.attachments s') <= 10)%nat
  /\ Chat.attachments s'
     = (Chat.attachments s
        ++ firstn (10 - List.length (Chat.attachments s)) batch)%list
  /\ (filter Handlers.withinLimit files <> [] ->
      batch <> [] /\ Chat.error s' = None)
  /\ (files <> [] -> filter Handlers.withinLimit files = [] ->
      Chat.attachments s' = Chat.attachments s /\ Chat.error s' <> None)
  /\ (files = [] -> s' = s).
Proof.
  intros Hlen s'. unfold s', Handlers.onFileChange, Extractor.onFileChange.
  cbv zeta.
  destruct files as [|f files].
  { cbn. split; [exact Hlen|].
    split; [now rewrite firstn_nil, app_nil_r|].
    split; [intros H; now elim H|]. split; [intros H; now elim H|].
    intros _. now destruct s. }
  pose proof (batch_is_first_ten_within_limit (f :: files)) as Hb.
  set (batch := fst (Extractor.extractBatch (f :: files))) in *.
  set (ok := filter Handlers.withinLimit (f :: files)) in *.
  destruct batch as [|a rest] eqn:Eb.
  - assert (Hok : ok = []) by (destruct ok; [reflexivity | discriminate Hb]).
    cbn. split; [exact Hlen|].
    split; [now rewrite firstn_nil, app_nil_r|].
    split; [intros H; now elim H|]. split; [|discriminate].
    intros _ _. split; [reflexivity | discriminate].
  - assert (Hok : ok <> []) by (intros E; rewrite E in Hb; discriminate Hb).
    cbn [Chat.setError Chat.setAttachments Chat.attachments Chat.error].
    unfold Extractor.takeFirst, Extractor.MAX_FILES_PER_MESSAGE.
    change (Z.to_nat 10) with 10%nat.
    split; [apply firstn_le_length|].
    split.
    { now rewrite firstn_app, (firstn_all2 (n := 10)) by exact Hlen. }
    split; [intros _; split; [discriminate | reflexivity]|].
    split; [intros _ E; now elim Hok|discriminate].
Qed.

Lemma add_files_keeps_earlier_and_caps_witness :
  let s := Chat.state Scenario.attachedOnlyEnv in
  let s' := Handlers.onFileChange [Sample.photo; Scenario.notes] s in
  Chat.attachments s'
  = (Chat.attachments s
     ++ [ Extractor.imageAttachment Sample.photo "data:image/png;base64,AAAA";
          IChatAttachment.mk Scenario.notes None (Some "remember") None ])%list
  /\ List.length (Chat.attachments s') = 5%nat
  /\ Chat.error s' = None.
Proof.
  destruct (add_files_keeps_earlier_and_caps [Sample.photo; Scenario.notes]
              (Chat.state Scenario.attachedOnlyEnv))
    as (_ & H2 & H3 & _).
  - simpl. lia.
  - split; [exact H2|]. split; [now rewrite H2|].
    apply H3. discriminate.
Defined.

(* ----------------------------------------------------------------- *)
(** *** The model hint *)

Section HintFacts.
Import Js Hint.

Lemma indexOfFrom_includes s needle : forall i,
  0 <= i -> (0 <=? indexOfFrom s needle i) = includes s needle.
Proof.
  induction s as [|c s IH]; intros i Hi; rewrite includes_unfold;
    cbn [indexOfFrom]; destruct (String.prefix needle _); cbn [orb].
  - now apply Z.leb_le.
  - reflexivity.
  - now apply Z.leb_le.
  - apply IH. lia.
Qed.

Lemma isWhiteSpace_lowerChar c : isWhiteSpace (lowerChar c) = isWhiteSpace c.
Proof. destruct c as [[] [] [] [] [] [] [] []]; reflexivity. Qed.

Lemma toLowerCase_trimStart s :
  toLowerCase (trimStart s) = trimStart (toLowerCase s).
Proof.
  induction s as [|c s IH]; [reflexivity|]. cbn [trimStart toLowerCase].
  rewrite isWhiteSpace_lowerChar. now destruct (isWhiteSpace c).
Qed.

Lemma toLowerCase_trimEnd s :
  toLowerCase (trimEnd s) = trimEnd (toLowerCase s).
Proof.
  induction s as [|c s IH]; [reflexivity|]. cbn [trimEnd toLowerCase].
  rewrite <- IH, isWhiteSpace_lowerChar.
  destruct (trimEnd s); cbn [toLowerCase]; [now destruct (isWhiteSpace c)|].
  reflexivity.
Qed.

Lemma toLowerCase_trim s : toLowerCase (trim s) = trim (toLowerCase s).
Proof. unfold trim. now rewrite toLowerCase_trimEnd, toLowerCase_trimStart. Qed.

Lemma trimStart_skip w s :
  whitespaceOnly w = true -> trimStart (w ++ s) = trimStart s.
Proof.
  induction w as [|c w IH]; [reflexivity|]. cbn [whitespaceOnly].
  intros H. apply andb_true_iff in H. destruct H as [Hc Hw].
  cbn [append trimStart]. rewrite Hc. now apply IH.
Qed.

Lemma trimEnd_whitespaceOnly w : whitespaceOnly w = true -> trimEnd w = "".
Proof.
  induction w as [|c w IH]; [reflexivity|]. cbn [whitespaceOnly].
  intros H. apply andb_true_iff in H. destruct H as [Hc Hw].
  cbn [trimEnd]. now rewrite (IH Hw), Hc.
Qed.

Lemma trimEnd_skip w s :
  whitespaceOnly w = true -> trimEnd (s ++ w) = trimEnd s.
Proof.
  intros Hw. induction s as [|c s IH]; cbn [append trimEnd].
  - now apply trimEnd_whitespaceOnly.
  - now rewrite IH.
Qed.

Lemma trimStart_whitespace_tail w s :
  whitespaceOnly w = true -> trimEnd (trimStart (s ++ w)) = trimEnd (trimStart s).
Proof.
  intros Hw. induction s as [|c s IH]; cbn [append trimStart].
  - rewrite (trimStart_whitespaceOnly w Hw). reflexivity.
  - destruct (isWhiteSpace c); [exact IH|].
    change (String c (s ++ w)) with (String c s ++ w).
    now apply trimEnd_skip.
Qed.

Lemma trim_surrounded w1 s w2 :
  whitespaceOnly w1 = true -> whitespaceOnly w2 = true ->
  trim (w1 ++ s ++ w2) = trim s.
Proof.
  intros H1 H2. unfold trim. rewrite trimStart_skip by exact H1.
  now apply trimStart_whitespace_tail.
Qed.

End HintFacts.

(** X4.  The hint is [simple] exactly when the trimmed text has at most
    400 characters, nothing is attached, and the lower-cased text
    contains none of the keywords. *)
Theorem suggestion_is_simple_iff (text : string) (hasAttachments : bool) :
  let t := Js.toLowerCase (Js.trim text) in
  Hint.suggestModelFromContent text hasAttachments = Hint.simple
  <-> (Js.strlen t <= 400 /\ hasAttachments = false
       /\ forall kw, In kw Hint.complexKeywords -> Js.includes t kw = false).
Proof.
  intros t. unfold Hint.suggestModelFromContent. fold t.
  assert (Hk : existsb (fun kw => 0 <=? Js.indexOf t kw) Hint.complexKeywords
               = existsb (Js.includes t) Hint.complexKeywords).
  { apply existsb_ext_in. intros kw. apply indexOfFrom_includes. lia. }
  rewrite Hk.
  destruct (400 <? Js.strlen t) eqn:El.
  { apply Z.ltb_lt in El. split; [discriminate | intros [H _]; lia]. }
  apply Z.ltb_ge in El. destruct hasAttachments.
  { split; [discriminate | intros (_ & H & _); discriminate H]. }
  destruct (existsb (Js.includes t) Hint.complexKeywords) eqn:Ee.
  - split; [discriminate|]. intros (_ & _ & H).
    apply existsb_exists in Ee. destruct Ee as (kw & Hin & Hkw).
    rewrite (H kw Hin) in Hkw. discriminate Hkw.
  - split; [|reflexivity]. intros _. split; [exact El|]. split; [reflexivity|].
    intros kw Hin. destruct (Js.includes t kw) eqn:E; [|reflexivity].
    assert (existsb (Js.includes t) Hint.complexKeywords = true)
      by (apply existsb_exists; eauto).
    congruence.
Qed.

(** X5.  The hint does not depend on letter case nor on white space
    around the text. *)
Theorem suggestion_ignores_case_and_margins
    (a b w1 w2 : string) (hasAttachments : bool) :
  Js.whitespaceOnly w1 = true -> Js.whitespaceOnly w2 = true ->
  Js.toLowerCase a = Js.toLowerCase b ->
  Hint.suggestModelFromContent (w1 ++ a ++ w2) hasAttachments
  = Hint.suggestModelFromContent b hasAttachments.
Proof.
  intros H1 H2 Hab. unfold Hint.suggestModelFromContent.
  rewrite (trim_surrounded w1 a w2 H1 H2).
  now rewrite !toLowerCase_trim, Hab.
Qed.

Lemma suggestion_ignores_case_and_margins_witness :
  Hint.suggestModelFromContent ("  " ++ "Explain In Detail" ++ Js.LF) false
  = Hint.suggestModelFromContent "explain in detail" false.
Proof.
  apply (suggestion_ignores_case_and_margins
           "Explain In Detail" "explain in detail" "  " Js.LF false);
    reflexivity.
Defined.

(* ----------------------------------------------------------------- *)
(** *** Sending: the guard and what an accepted send does *)

Section SendGuardFacts.
Import Js Chat.

Lemma isEmpty_sorted (l : list IChatAttachment.t) :
  isEmpty (imageUrlsOf l) && isEmpty (fileTextsOf l)
  && isEmpty (otherFileNamesOf l) = isEmpty l.
Proof.
  destruct l as [|a l]; [reflexivity|].
  apply (attachment_sorted (a :: l)). discriminate.
Qed.

Lemma hasContent_canSend (s : State) :
  (truthy (trim (input s)) || negb (isEmpty (imageUrlsOf (attachments s)))
   || negb (isEmpty (fileTextsOf (attachments s)))
   || negb (isEmpty (otherFileNamesOf (attachments s))))
  && negb (loading s)
  = Handlers.canSend s.
Proof.
  unfold Handlers.canSend. rewrite <- (isEmpty_sorted (attachments s)).
  destruct (truthy _), (isEmpty (imageUrlsOf _)), (isEmpty (fileTextsOf _)),
    (isEmpty (otherFileNamesOf _)); reflexivity.
Qed.




(** What a save of a record that was just created leaves of the state
    when its failure is ignored: only the chat lists can differ. *)
Lemma storeNewChat_state p record pid e :
  exists f g,
    state (storeNewChat p record pid (fun _ s => s) e)
    = setAllChats f (setChats g (state e)).
Proof.
  unfold storeNewChat. destruct (useSharePoint p).
  - unfold await. destruct (SharePoint.saveChatToLibrary record (world e))
      as [[a|msg] w]; cbn [state].
    + exists (fun prev => (prev ++ [record])%list), (fun x => x).
      now destruct (state e).
    + exists (fun x => x), (fun x => x). now destruct (state e).
  - eexists (fun x => x), _. cbn [state onState onStorage].
    destruct (state e); reflexivity.
Qed.

End SendGuardFacts.

(** X6.  A send that is not a regenerate is dispatched exactly when the
    API key is set and the send button is enabled ([canSend]); a send
    that is not dispatched changes nothing, apart from the banner that
    reports the missing key. *)
Theorem send_dispatches_iff_can_send
    (p : Chat.Props) (fr : Chat.Fresh) (e : Chat.Env) :
  let r := Chat.sendMessage p false fr e in
  ((exists rq fl, snd r = Chat.Sent rq fl)
   <-> Handlers.showApiKeyWarning p = false
       /\ Handlers.canSend (Chat.state e) = true)
  /\ (snd r = Chat.NotSent ->
      fst r = if Handlers.showApiKeyWarning p
              then Chat.onState (Chat.setError (Some Chat.API_KEY_MISSING)) e
              else e).
Proof.
  cbv zeta. unfold Handlers.showApiKeyWarning, Chat.sendMessage.
  pose proof (hasContent_canSend (Chat.state e)) as Hc.
  destruct (Js.truthy (Js.trim (Chat.apiKey p))); cbn [negb andb snd fst].
  2:{ split; [|reflexivity]. split.
      - intros (rq & fl & H). discriminate H.
      - intros [H _]. discriminate H. }
  cbv zeta. cbn [andb]. rewrite <- Hc.
  destruct (_ || _ || _ || _); cbn [negb andb];
    destruct (Chat.loading (Chat.state e)); cbn [negb snd fst].
  - split; [|reflexivity]. split.
    + intros (rq & fl & H). discriminate H.
    + intros [_ H]. discriminate H.
  - split; [|discriminate]. split; [now split|]. intros _. eauto.
  - split; [|reflexivity]. split.
    + intros (rq & fl & H). discriminate H.
    + intros [_ H]. discriminate H.
  - split; [|reflexivity]. split.
    + intros (rq & fl & H). discriminate H.
    + intros [_ H]. discriminate H.
Qed.

(** X7.  A dispatched send that is not a regenerate empties the input
    and the attachment list, clears the banner, turns [loading] on and
    installs the controller of the request; the request asks for the
    selected model, 1024 tokens and a stream, under the signal of that
    controller.  The model, the projects and the selected project are
    untouched. *)
Theorem accepted_send_resets_composer
    (p : Chat.Props) (fr : Chat.Fresh) (e e' : Chat.Env)
    (rq : Chat.Request) (fl : Chat.Flight) :
  Chat.sendMessage p false fr e = (e', Chat.Sent rq fl) ->
  Chat.input (Chat.state e') = ""
  /\ Chat.attachments (Chat.state e') = []
  /\ Chat.error (Chat.state e') = None
  /\ Chat.loading (Chat.state e') = true
  /\ Chat.abortRef (Chat.state e') = Some (Chat.controller fr)
  /\ Chat.model (Chat.state e') = Chat.model (Chat.state e)
  /\ Chat.projects (Chat.state e') = Chat.projects (Chat.state e)
  /\ Chat.currentProjectId (Chat.state e')
     = Chat.currentProjectId (Chat.state e)
  /\ Chat.reqModel rq = Chat.model (Chat.state e)
  /\ Chat.max_tokens rq = 1024 /\ Chat.stream rq = true
  /\ Chat.signal rq = Chat.controller fr
  /\ fl = Chat.mkFlight (Chat.controller fr) (Chat.assistantId fr) "" "".
Proof.
  unfold Chat.sendMessage.
  destruct (Js.truthy (Js.trim (Chat.apiKey p))); cbn [negb andb];
    [|discriminate].
  cbv zeta. cbn [andb].
  match goal with
  | |- (if ?c then _ else _) = _ -> _ => destruct c; [discriminate|]
  end.
  destruct (Chat.loading (Chat.state e)); [discriminate|].
  intros H. inversion H as [[He Hrq Hfl]]. clear H He Hrq Hfl.
  cbn [Chat.reqModel Chat.max_tokens Chat.stream Chat.signal].
  unfold Chat.appendUserTurn. cbv zeta.
  destruct (negb _ && _).
  - destruct (Chat.currentProjectId (Chat.state e)) as [pid|] eqn:Ep.
    + match goal with
      | |- context [Chat.storeNewChat p ?r ?q _ ?e0] =>
          destruct (storeNewChat_state p r q e0) as (f & g & Es)
      end.
      cbn [Chat.state Chat.onState] in *. rewrite Es.
      cbn. rewrite Ep. repeat split; reflexivity.
    + cbn. rewrite Ep. repeat split; reflexivity.
  - cbn. repeat split; reflexivity.
Qed.

Lemma accepted_send_resets_composer_witness :
  exists e' rq fl,
    Chat.sendMessage Sample.localProps false Sample.fresh Sample.attachedEnv
    = (e', Chat.Sent rq fl)
    /\ Chat.input (Chat.state e') = ""
    /\ Chat.attachments (Chat.state e') = []
    /\ Chat.reqModel rq = Chat.model (Chat.state Sample.attachedEnv).
Proof.
  eexists _, _, _. split; [reflexivity|].
  pose proof (accepted_send_resets_composer Sample.localProps Sample.fresh
                Sample.attachedEnv _ _ _ eq_refl) as H.
  repeat split; apply H.
Defined.

(* ----------------------------------------------------------------- *)
(** *** The chat a first send creates *)

Section FirstSendFacts.
Import Js Chat.

Lemma storage_await {A : Type} (op : SharePoint.M A) onOk onErr e :
  storage (await op onOk onErr e) = storage e.
Proof. unfold await. now destruct (op (world e)) as [[a|m] w]. Qed.

Lemma currentChatId_await {A : Type} (op : SharePoint.M A) onOk onErr e :
  (forall a s, currentChatId (onOk a s) = currentChatId s) ->
  (forall m s, currentChatId (onErr m s) = currentChatId s) ->
  currentChatId (state (await op onOk onErr e)) = currentChatId (state e).
Proof.
  intros H1 H2. unfold await. destruct (op (world e)) as [[a|m] w]; simpl; auto.
Qed.

End FirstSendFacts.



(** X9.  A send stores nothing and selects nothing when it is a
    regenerate, when a chat is already selected, or when no project is
    selected: [localStorage], the library and the selected chat are what
    they were. *)
Theorem send_stores_nothing_otherwise
    (p : Chat.Props) (regenerate : bool) (fr : Chat.Fresh) (e : Chat.Env) :
  regenerate = true
  \/ ChatStorage.truthyId (Chat.currentChatId (Chat.state e)) = true
  \/ ChatStorage.truthyId (Chat.currentProjectId (Chat.state e)) = false ->
  let e' := fst (Chat.sendMessage p regenerate fr e) in
  Chat.storage e' = Chat.storage e /\ Chat.world e' = Chat.world e
  /\ Chat.currentChatId (Chat.state e') = Chat.currentChatId (Chat.state e).
Proof.
  intros H. cbv zeta. unfold Chat.sendMessage.
  destruct (negb (Js.truthy (Js.trim (Chat.apiKey p)))); [now auto|].
  cbv zeta.
  set (lastUser := if regenerate && _ then _ else None).
  set (e1 := match lastUser with Some _ => _ | None => e end).
  assert (H1 : Chat.storage e1 = Chat.storage e /\ Chat.world e1 = Chat.world e
               /\ Chat.currentChatId (Chat.state e1)
                  = Chat.currentChatId (Chat.state e))
    by (unfold e1; destruct lastUser; now auto).
  destruct (negb _ && negb regenerate); [exact H1|].
  destruct (Chat.loading (Chat.state e)); [exact H1|].
  cbn [fst].
  destruct regenerate.
  - cbn. exact H1.
  - assert (Hg : negb (ChatStorage.truthyId (Chat.currentChatId (Chat.state e)))
                 && ChatStorage.truthyId (Chat.currentProjectId (Chat.state e))
                 = false).
    { destruct H as [H|[H|H]]; [discriminate H| |]; rewrite H;
        [reflexivity | apply andb_false_r]. }
    unfold Chat.appendUserTurn. cbv zeta. rewrite Hg. cbn. exact H1.
Qed.

Lemma send_stores_nothing_otherwise_witness :
  let e' := fst (Chat.sendMessage Sample.localProps false Sample.fresh
                   Sample.attachedEnv) in
  Chat.storage e' = Chat.storage Sample.attachedEnv
  /\ Chat.world e' = Chat.world Sample.attachedEnv
  /\ Chat.currentChatId (Chat.state e')
     = Chat.currentChatId (Chat.state Sample.attachedEnv).
Proof.
  apply (send_stores_nothing_otherwise Sample.localProps false Sample.fresh
           Sample.attachedEnv).
  right. left. reflexivity.
Defined.

(* ----------------------------------------------------------------- *)
(** *** The read loop: chunk boundaries, content, failure *)

Section ChunkFacts.
Import Js Chat.

Variable deltaOf : string -> option string.

Lemma splitLines_nonempty s : splitLines s <> [].
Proof.
  destruct s as [|c r]; cbn [splitLines]; [discriminate|].
  destruct (Ascii.eqb c _); [discriminate|].
  destruct (splitLines r); discriminate.
Qed.

Lemma splitLines_app a b :
  splitLines (a ++ b)
  = (removelast (splitLines a)
     ++ splitLines (last (splitLines a) "" ++ b))%list.
Proof.
  induction a as [|c r IH]; [reflexivity|].
  change (String c r ++ b) with (String c (r ++ b)).
  cbn [splitLines]. rewrite IH.
  pose proof (splitLines_nonempty r) as Hr.
  destruct (splitLines r) as [|h t]; [congruence|].
  destruct (Ascii.eqb c (ascii_of_N 10)) eqn:Ec.
  - destruct t; reflexivity.
  - destruct t as [|x t].
    + cbn [removelast last app].
      change (String c h ++ b) with (String c (h ++ b)).
      cbn [splitLines]. now rewrite Ec.
    + reflexivity.
Qed.

Lemma last_app_nonempty {A : Type} (l1 l2 : list A) d :
  l2 <> [] -> last (l1 ++ l2) d = last l2 d.
Proof.
  intros H. induction l1 as [|x l1 IH]; [reflexivity|].
  cbn [app last]. rewrite IH.
  destruct (l1 ++ l2)%list eqn:E; [|reflexivity].
  apply app_eq_nil in E. destruct E as [_ E]. congruence.
Qed.

(** The lines of a chunk are handled the same whatever the buffer of the
    flight holds, and leave it as it is. *)
Lemma lines_buffer lines : forall fl st b,
  fold_left (fun acc line => onLine deltaOf line acc) lines
    (mkFlight (flightSignal fl) (placeholderId fl) b (fullContent fl), st)
  = (mkFlight
       (flightSignal (fst (fold_left (fun acc line => onLine deltaOf line acc)
                             lines (fl, st))))
       (placeholderId (fst (fold_left (fun acc line => onLine deltaOf line acc)
                              lines (fl, st))))
       b
       (fullContent (fst (fold_left (fun acc line => onLine deltaOf line acc)
                            lines (fl, st)))),
     snd (fold_left (fun acc line => onLine deltaOf line acc) lines (fl, st))).
Proof.
  induction lines as [|line lines IH]; intros fl st b; cbn [fold_left];
    [reflexivity|].
  assert (E : onLine deltaOf line
                (mkFlight (flightSignal fl) (placeholderId fl) b
                          (fullContent fl), st)
              = (mkFlight
                   (flightSignal (fst (onLine deltaOf line (fl, st))))
                   (placeholderId (fst (onLine deltaOf line (fl, st))))
                   b (fullContent (fst (onLine deltaOf line (fl, st)))),
                 snd (onLine deltaOf line (fl, st)))).
  { unfold onLine. destruct (startsWith line "data: "); [|reflexivity].
    destruct (String.eqb _ "[DONE]"); [reflexivity|].
    destruct (deltaOf _) as [delta|]; [|reflexivity].
    destruct (truthy delta); reflexivity. }
  rewrite E.
  destruct (onLine deltaOf line (fl, st)) as [fl1 st1]. cbn [fst snd].
  apply IH.
Qed.

Lemma lines_keep_buffer lines : forall fl st,
  buffer (fst (fold_left (fun acc line => onLine deltaOf line acc) lines
                 (fl, st))) = buffer fl.
Proof.
  induction lines as [|line lines IH]; intros fl st; cbn [fold_left];
    [reflexivity|].
  assert (E : buffer (fst (onLine deltaOf line (fl, st))) = buffer fl).
  { unfold onLine. destruct (startsWith line "data: "); [|reflexivity].
    destruct (String.eqb _ "[DONE]"); [reflexivity|].
    destruct (deltaOf _) as [delta|]; [|reflexivity].
    destruct (truthy delta); reflexivity. }
  destruct (onLine deltaOf line (fl, st)) as [fl1 st1]. cbn [fst] in E.
  now rewrite IH.
Qed.

(** A chunk cut in two is handled as the two pieces in turn. *)
Lemma onChunk_append v1 v2 fl st :
  onChunk deltaOf (v1 ++ v2) fl st
  = onChunk deltaOf v2 (fst (onChunk deltaOf v1 fl st))
                       (snd (onChunk deltaOf v1 fl st)).
Proof.
  unfold onChunk. cbv zeta.
  rewrite <- str_app_assoc, splitLines_app.
  set (A := splitLines (buffer fl ++ v1)).
  rewrite lines_keep_buffer. cbn [buffer].
  set (B := splitLines (last A "" ++ v2)).
  assert (HB : B <> []) by apply splitLines_nonempty.
  rewrite last_app_nonempty by exact HB.
  rewrite removelast_app by exact HB.
  rewrite fold_left_app.
  pose proof (lines_buffer (removelast A)
                (mkFlight (flightSignal fl) (placeholderId fl) (last A "")
                          (fullContent fl)) st (last B "")) as E.
  cbn [flightSignal placeholderId fullContent] in E. rewrite E.
  reflexivity.
Qed.

Lemma received_cons v vs fl st :
  received deltaOf (v :: vs) fl st
  = received deltaOf vs (fst (onChunk deltaOf v fl st))
                        (snd (onChunk deltaOf v fl st)).
Proof.
  unfold received. cbn [fold_left fst snd].
  now destruct (onChunk deltaOf v fl st).
Qed.

(** The chunks of a reply are handled as one chunk holding their text. *)
Lemma received_concat vs : forall v fl st,
  received deltaOf (v :: vs) fl st
  = onChunk deltaOf (Reply.concat (v :: vs)) fl st.
Proof.
  induction vs as [|v2 vs IH]; intros v fl st; rewrite received_cons.
  - unfold Reply.concat. cbn [fold_right]. rewrite str_app_nil_r.
    unfold received. cbn [fold_left]. now destruct (onChunk deltaOf v fl st).
  - rewrite IH. change (Reply.concat (v :: v2 :: vs))
      with (v ++ Reply.concat (v2 :: vs)).
    now rewrite onChunk_append.
Qed.

Lemma concat_app l1 l2 :
  Reply.concat (l1 ++ l2) = Reply.concat l1 ++ Reply.concat l2.
Proof.
  unfold Reply.concat. induction l1 as [|x l1 IH]; cbn [app fold_right];
    [reflexivity|].
  now rewrite IH, str_app_assoc.
Qed.




End ChunkFacts.

(** X10.  How the transport cuts a reply into chunks does not matter:
    two non-empty sequences of chunks that carry the same text leave the
    same state when the reply ends. *)
Theorem reply_independent_of_chunking
    (deltaOf : string -> option string) (vs1 vs2 : list string)
    (fl : Chat.Flight) (st : Chat.State) :
  vs1 <> [] -> vs2 <> [] -> Reply.concat vs1 = Reply.concat vs2 ->
  Chat.run deltaOf (map Chat.Chunk vs1 ++ [Chat.Done]) fl st
  = Chat.run deltaOf (map Chat.Chunk vs2 ++ [Chat.Done]) fl st.
Proof.
  intros H1 H2 Heq.
  destruct vs1 as [|v1 vs1]; [congruence|].
  destruct vs2 as [|v2 vs2]; [congruence|].
  destruct (Chat.isAborted (Chat.flightSignal fl) st) eqn:Ea.
  - cbn [map app Chat.run]. unfold Chat.deliver. now rewrite Ea.
  - rewrite !run_to_done by exact Ea.
    now rewrite !received_concat, Heq.
Qed.

Lemma reply_independent_of_chunking_witness :
  Chat.run Sample.echoDelta
    (map Chat.Chunk ["data: Par"; "is" ++ Js.LF] ++ [Chat.Done])
    Sample.flight Sample.streamingState
  = Chat.run Sample.echoDelta
      (map Chat.Chunk ["data: Paris" ++ Js.LF] ++ [Chat.Done])
      Sample.flight Sample.streamingState.
Proof.
  apply (reply_independent_of_chunking Sample.echoDelta
           ["data: Par"; "is" ++ Js.LF] ["data: Paris" ++ Js.LF]
           Sample.flight Sample.streamingState);
    [discriminate | discriminate | reflexivity].
Defined.





(* ----------------------------------------------------------------- *)
(** *** Persisting the current chat with the local adapter *)

Section PersistFacts.
Import Js Chat.

Lemma filter_upsert cid updated all :
  hasChatId cid updated = true ->
  filter (Handlers.notChat cid) (upsert cid updated all)
  = filter (Handlers.notChat cid) all.
Proof.
  intros Hu. unfold Handlers.notChat.
  induction all as [|c all IH]; cbn [upsert filter].
  - now rewrite Hu.
  - destruct (hasChatId cid c) eqn:E; cbn [filter negb].
    + now rewrite Hu.
    + now rewrite E, IH.
Qed.

Lemma upsert_found cid updated all old :
  find (hasChatId cid) all = Some old ->
  exists pre post,
    all = (pre ++ old :: post)%list
    /\ forallb (Handlers.notChat cid) pre = true
    /\ upsert cid updated all = (pre ++ updated :: post)%list.
Proof.
  induction all as [|c all IH]; cbn [find upsert]; [discriminate|].
  destruct (hasChatId cid c) eqn:E.
  - intros H. inversion H. subst. exists [], all. repeat split.
  - intros H. destruct (IH H) as (pre & post & -> & Hp & ->).
    exists (c :: pre), post. repeat split. cbn [forallb].
    unfold Handlers.notChat at 1. now rewrite E, Hp.
Qed.

Lemma upsert_missing cid updated all :
  find (hasChatId cid) all = None ->
  upsert cid updated all = (all ++ [updated])%list.
Proof.
  induction all as [|c all IH]; cbn [find upsert]; [reflexivity|].
  destruct (hasChatId cid c); [discriminate|].
  intros H. now rewrite (IH H).
Qed.

End PersistFacts.

(** X13.  With the local adapter, when the timestamps of the messages
    are valid Dates and their texts fit in the room left in
    [localStorage], persisting the current chat writes one record and
    nothing else.  The record stored under the id of the chat carries
    the messages, belongs to the selected project and is stamped with
    the time of the save.  When the chat was stored before, the record
    takes the place of the first stored chat of that id, the chats
    before and after it staying where they are, and keeps its creation
    time and (no title being given) its title; otherwise it is appended
    after the stored chats, created now and titled [New chat].  Every
    chat with another id is stored as before; the messages on screen and
    the library are untouched. *)
Theorem persist_updates_only_the_current_chat
    (p : Chat.Props) (msgs : list IChatMessage.t) (title : option string)
    (now : Z) (e : Chat.Env) (cid pid : string) :
  Chat.useSharePoint p = false ->
  Chat.currentChatId (Chat.state e) = Some cid -> Js.truthy cid = true ->
  Chat.currentProjectId (Chat.state e) = Some pid -> Js.truthy pid = true ->
  Forall (fun m => JsDate.validDate (IChatMessage.timestamp m)) msgs ->
  ChatStorage.sizeOfMessages msgs
  <= Z.of_N (ChatStorage.room (Chat.storage e)) ->
  let before := ChatStorage.getAllChats (Chat.storage e) in
  exists e' saved,
    let after := ChatStorage.getAllChats (Chat.storage e') in
    Chat.persistCurrentChat p msgs title now e = Ok e'
    /\ find (Chat.hasChatId cid) after = Some saved
    /\ IStoredChat.id saved = cid
    /\ IStoredChat.projectId saved = pid
    /\ IStoredChat.updatedAt saved = JsDate.isoOfTime now
    /\ map ChatStorage.storedToMessage (IStoredChat.messages saved) = msgs
    /\ match find (Chat.hasChatId cid) before with
       | Some old =>
           IStoredChat.createdAt saved = IStoredChat.createdAt old
           /\ IStoredChat.title saved
              = Chat.orDefault title (IStoredChat.title old)
           /\ exists pre post,
                before = (pre ++ old :: post)%list
                /\ forallb (Handlers.notChat cid) pre = true
                /\ after = (pre ++ saved :: post)%list
       | None =>
           IStoredChat.createdAt saved = JsDate.isoOfTime now
           /\ IStoredChat.title saved = Chat.orDefault title "New chat"
           /\ after = (before ++ [saved])%list
       end
    /\ filter (Handlers.notChat cid) after = filter (Handlers.notChat cid) before
    /\ Chat.messages (Chat.state e') = Chat.messages (Chat.state e)
    /\ Chat.world e' = Chat.world e
    /\ ChatStorage.getProjects (Chat.storage e')
       = ChatStorage.getProjects (Chat.storage e).
Proof.
  intros Hmode Hcid Tcid Hpid Tpid Hvalid Hroom before.
  destruct (stored_roundtrip_all msgs Hvalid) as (stored & Hstored & Hback).
  unfold Chat.persistCurrentChat. rewrite Hcid, Hpid, Tcid, Tpid, Hmode.
  cbn [andb]. cbv zeta. rewrite Hstored. fold before.
  match goal with
  | |- context [IStoredChat.mk cid pid ?t stored ?c ?u] =>
      set (updated := IStoredChat.mk cid pid t stored c u)
  end.
  assert (Hu : Chat.hasChatId cid updated = true)
    by (unfold Chat.hasChatId; cbn; apply String.eqb_refl).
  assert (Hfit : ChatStorage.fits (Chat.upsert cid updated before)
                   (Chat.storage e) = true)
    by (now apply (fits_upsert cid updated before msgs)).
  eexists _, updated. cbv zeta. split; [reflexivity|].
  cbn [Chat.storage Chat.state Chat.world Chat.onState Chat.onStorage
       Chat.setChats Chat.messages].
  rewrite getProjects_saveAllChats, (getAllChats_saved _ _ Hfit).
  split; [now apply find_upsert|].
  split; [reflexivity|]. split; [reflexivity|]. split; [reflexivity|].
  split; [exact Hback|].
  split.
  - destruct (find (Chat.hasChatId cid) before) as [old|] eqn:Hold.
    + split; [reflexivity|]. split; [reflexivity|].
      destruct (upsert_found cid updated before old Hold)
        as (pre & post & E1 & Hpre & E2).
      now exists pre, post.
    + split; [reflexivity|]. split; [reflexivity|].
      now apply upsert_missing.
  - split; [now apply filter_upsert|]. repeat split; reflexivity.
Qed.

Lemma persist_updates_only_the_current_chat_witness :
  let before := ChatStorage.getAllChats (Chat.storage Scenario.tuesdayEnv) in
  exists e' saved,
    let after := ChatStorage.getAllChats (Chat.storage e') in
    Chat.persistCurrentChat Sample.localProps [Sample.question; Sample.answer]
      None 1700000003000 Scenario.tuesdayEnv = Ok e'
    /\ find (Chat.hasChatId "c-tue") after = Some saved
    /\ IStoredChat.id saved = "c-tue"
    /\ IStoredChat.projectId saved = "p1"
    /\ IStoredChat.updatedAt saved = JsDate.isoOfTime 1700000003000
    /\ map ChatStorage.storedToMessage (IStoredChat.messages saved)
       = [Sample.question; Sample.answer]
    /\ match find (Chat.hasChatId "c-tue") before with
       | Some old =>
           IStoredChat.createdAt saved = IStoredChat.createdAt old
           /\ IStoredChat.title saved
              = Chat.orDefault None (IStoredChat.title old)
           /\ exists pre post,
                before = (pre ++ old :: post)%list
                /\ forallb (Handlers.notChat "c-tue") pre = true
                /\ after = (pre ++ saved :: post)%list
       | None =>
           IStoredChat.createdAt saved = JsDate.isoOfTime 1700000003000
           /\ IStoredChat.title saved = Chat.orDefault None "New chat"
           /\ after = (before ++ [saved])%list
       end
    /\ filter (Handlers.notChat "c-tue") after
       = filter (Handlers.notChat "c-tue") before
    /\ Chat.messages (Chat.state e')
       = Chat.messages (Chat.state Scenario.tuesdayEnv)
    /\ Chat.world e' = Chat.world Scenario.tuesdayEnv
    /\ ChatStorage.getProjects (Chat.storage e')
       = ChatStorage.getProjects (Chat.storage Scenario.tuesdayEnv).
Proof.
  apply (persist_updates_only_the_current_chat Sample.localProps
           [Sample.question; Sample.answer] None 1700000003000
           Scenario.tuesdayEnv "c-tue" "p1").
  - reflexivity.
  - reflexivity.
  - reflexivity.
  - reflexivity.
  - reflexivity.
  - exact sample_messages_valid.
  - now vm_compute.
Defined.

(* ----------------------------------------------------------------- *)
(** *** The end of a turn, and opening a chat again *)

Section TurnEndFacts.
Import Js Chat.






(** What the effect on the current chat shows once a chat is selected
    whose record is found in [localStorage]. *)
Lemma loadMessages_found p e cid chat :
  useSharePoint p = false ->
  currentChatId (state e) = Some cid -> truthy cid = true ->
  find (hasChatId cid) (ChatStorage.getAllChats (storage e)) = Some chat ->
  messages (state (loadMessages p e))
  = match IStoredChat.messages chat with
    | [] => messages (state e)
    | ms => map ChatStorage.storedToMessage ms
    end.
Proof.
  intros Hmode Hcid Tcid Hfind. unfold loadMessages.
  rewrite Hcid. unfold ChatStorage.truthyId. rewrite Tcid, Hmode, Hfind.
  now destruct (IStoredChat.messages chat).
Qed.

End TurnEndFacts.




(** X15.  Persisting and opening again, with the local adapter: once
    the messages of the current chat, with valid timestamps and texts
    that fit in the room left in [localStorage], are persisted,
    selecting that chat later, with the same chats stored and while
    another chat or none is selected (so that the effect on the current
    chat runs), shows exactly these messages, whatever was on screen;
    but when the chat was persisted with no message, what was on screen
    stays. *)
Theorem reopened_chat_shows_what_was_persisted
    (p : Chat.Props) (msgs : list IChatMessage.t) (title : option string)
    (now : Z) (e e' : Chat.Env) (cid pid : string) :
  Chat.useSharePoint p = false ->
  Chat.currentChatId (Chat.state e) = Some cid -> Js.truthy cid = true ->
  Chat.currentProjectId (Chat.state e) = Some pid -> Js.truthy pid = true ->
  Forall (fun m => JsDate.validDate (IChatMessage.timestamp m)) msgs ->
  ChatStorage.sizeOfMessages msgs
  <= Z.of_N (ChatStorage.room (Chat.storage e)) ->
  Chat.persistCurrentChat p msgs title now e = Ok e' ->
  forall (later : Chat.Env) (chat : IStoredChat.t),
    ChatStorage.getAllChats (Chat.storage later)
    = ChatStorage.getAllChats (Chat.storage e') ->
    IStoredChat.id chat = cid ->
    Chat.currentChatId (Chat.state later) <> Some cid ->
    Chat.messages
      (Chat.state (Chat.loadMessages p (Chat.handleSelectChat chat later)))
    = match msgs with
      | [] => Chat.messages (Chat.state later)
      | _ => msgs
      end.
Proof.
  intros Hmode Hcid Tcid Hpid Tpid Hvalid Hroom Hpersist later chat Hst Hchat _.
  destruct (stored_roundtrip_all msgs Hvalid) as (stored & Hstored & Hback).
  unfold Chat.persistCurrentChat in Hpersist.
  rewrite Hcid, Hpid, Tcid, Tpid, Hmode in Hpersist.
  cbn [andb] in Hpersist. cbv zeta in Hpersist. rewrite Hstored in Hpersist.
  inversion Hpersist as [He']. clear Hpersist.
  match type of He' with
  | context [IStoredChat.mk cid pid ?t stored ?c ?u] =>
      set (updated := IStoredChat.mk cid pid t stored c u) in *
  end.
  set (e2 := Chat.handleSelectChat chat later).
  assert (Hs2 : ChatStorage.getAllChats (Chat.storage e2)
                = ChatStorage.getAllChats (Chat.storage e')).
  { unfold e2, Chat.handleSelectChat, Chat.setCurrentChatId.
    cbn [Chat.storage Chat.onState Chat.onStorage]. now rewrite <- Hst. }
  assert (Hc2 : Chat.currentChatId (Chat.state e2) = Some cid)
    by (now rewrite <- Hchat).
  assert (Hm2 : Chat.messages (Chat.state e2) = Chat.messages (Chat.state later))
    by reflexivity.
  assert (Hu : Chat.hasChatId cid updated = true)
    by (unfold Chat.hasChatId; cbn; apply String.eqb_refl).
  assert (Hfind : find (Chat.hasChatId cid)
                       (ChatStorage.getAllChats (Chat.storage e2))
                  = Some updated).
  { rewrite Hs2, <- He'.
    cbn [Chat.storage Chat.onState Chat.onStorage].
    rewrite getAllChats_saved
      by (now apply (fits_upsert cid updated _ msgs)).
    now apply find_upsert. }
  rewrite (loadMessages_found p e2 cid updated Hmode Hc2 Tcid Hfind).
  cbn [updated IStoredChat.messages]. rewrite Hm2.
  destruct stored as [|s0 stored]; destruct msgs as [|m0 msgs];
    try discriminate Hback; [reflexivity | exact Hback].
Qed.

Lemma reopened_chat_shows_what_was_persisted_witness :
  Chat.messages
    (Chat.state
       (Chat.loadMessages Sample.localProps
          (Chat.handleSelectChat Sample.chatOne Scenario.elsewhere)))
  = [Sample.question].
Proof.
  apply (reopened_chat_shows_what_was_persisted Sample.localProps
           [Sample.question] None 1700000003000 Sample.idleEnv
           Scenario.persisted "c1" "p1" eq_refl eq_refl eq_refl eq_refl eq_refl).
  - repeat constructor.
  - now vm_compute.
  - reflexivity.
  - reflexivity.
  - reflexivity.
  - vm_compute. discriminate.
Defined.

(* ----------------------------------------------------------------- *)
(** *** The chats of a project, as the sidebar lists them *)

Section SortFacts.
Import ChatStorage.

Lemma insertSorted_perm {A : Type} (cmp : A -> A -> option Z) x l :
  Permutation (insertSorted cmp x l) (x :: l).
Proof.
  induction l as [|y l IH]; cbn [insertSorted]; [apply Permutation_refl|].
  destruct (cmp x y) as [v|]; [destruct (0 <? v)|];
    try apply Permutation_refl.
  eapply Permutation_trans; [apply perm_skip, IH | apply perm_swap].
Qed.

Lemma sort_perm {A : Type} (cmp : A -> A -> option Z) l :
  Permutation (sort cmp l) l.
Proof.
  unfold sort. induction l as [|x l IH]; cbn [fold_right];
    [apply Permutation_refl|].
  eapply Permutation_trans; [apply insertSorted_perm | now apply perm_skip].
Qed.

Lemma byUpdatedDesc_times a b ta tb :
  Handlers.updatedTime a = Some ta -> Handlers.updatedTime b = Some tb ->
  byUpdatedDesc a b = Some (tb - ta).
Proof.
  unfold Handlers.updatedTime, byUpdatedDesc. now intros -> ->.
Qed.

Lemma insertSorted_sorted x l :
  Handlers.updatedTime x <> None ->
  Forall (fun c => Handlers.updatedTime c <> None) l ->
  StronglySorted Handlers.newerOrSame l ->
  StronglySorted Handlers.newerOrSame (insertSorted byUpdatedDesc x l).
Proof.
  intros Hx Hl Hs.
  destruct (Handlers.updatedTime x) as [tx|] eqn:Ex; [clear Hx | congruence].
  induction l as [|y l IH]; cbn [insertSorted].
  - constructor; constructor.
  - inversion Hl as [|? ? Hy Hl']; subst.
    inversion Hs as [|? ? Hs' Hall]; subst.
    destruct (Handlers.updatedTime y) as [ty|] eqn:Ey; [clear Hy | congruence].
    rewrite (byUpdatedDesc_times x y tx ty Ex Ey).
    destruct (0 <? ty - tx) eqn:E.
    + apply Z.ltb_lt in E. constructor; [now apply IH|].
      apply Forall_forall. intros z Hz. apply In_insertSorted in Hz.
      destruct Hz as [-> | Hz].
      * unfold Handlers.newerOrSame. rewrite Ey, Ex. lia.
      * rewrite Forall_forall in Hall. now apply Hall.
    + apply Z.ltb_ge in E. constructor; [exact Hs|].
      constructor.
      * unfold Handlers.newerOrSame. rewrite Ex, Ey. lia.
      * apply Forall_forall. intros z Hz.
        rewrite Forall_forall in Hall. specialize (Hall z Hz).
        unfold Handlers.newerOrSame in *. rewrite Ey in Hall. rewrite Ex.
        destruct (Handlers.updatedTime z); [lia | contradiction].
Qed.

Lemma sort_sorted l :
  Forall (fun c => Handlers.updatedTime c <> None) l ->
  StronglySorted Handlers.newerOrSame (sort byUpdatedDesc l).
Proof.
  unfold sort. induction 1 as [|x l Hx Hl IH]; cbn [fold_right];
    [constructor|].
  apply insertSorted_sorted; [exact Hx | | exact IH].
  apply Forall_forall. intros z Hz. apply In_sort in Hz.
  rewrite Forall_forall in Hl. now apply Hl.
Qed.

End SortFacts.

(** X16.  [getChatsForProject] returns the stored chats of the project,
    each as often as it is stored and no other chat; when the
    [updatedAt] stamps of these chats were written by [toISOString],
    the list is ordered from the most recently updated chat to the
    least, the time of a chat being the time value its stamp was
    written from. *)
Theorem project_chats_newest_first
    (projectId : string) (ls : ChatStorage.LocalStorage) :
  let mine := filter (Chat.chatOfProject projectId)
                     (ChatStorage.getAllChats ls) in
  Permutation (ChatStorage.getChatsForProject projectId ls) mine
  /\ ((forall c, In c mine -> Handlers.stamped c) ->
      StronglySorted Handlers.newerOrSame
        (ChatStorage.getChatsForProject projectId ls))
  /\ (forall c t,
        JsDate.inRange t = true ->
        IStoredChat.updatedAt c = JsDate.isoOfTime t ->
        Handlers.updatedTime c = Some t).
Proof.
  cbv zeta. unfold ChatStorage.getChatsForProject.
  assert (Ht : forall c t,
             JsDate.inRange t = true ->
             IStoredChat.updatedAt c = JsDate.isoOfTime t ->
             Handlers.updatedTime c = Some t).
  { intros c t Hr Hc. unfold Handlers.updatedTime.
    now rewrite Hc, newDate_isoOfTime. }
  split; [apply sort_perm|]. split; [|exact Ht].
  intros H. apply sort_sorted. apply Forall_forall. intros c Hc.
  destruct (H c Hc) as (t & Hr & Hs). now rewrite (Ht c t Hr Hs).
Qed.

Lemma project_chats_newest_first_witness :
  ChatStorage.getChatsForProject "p1" Scenario.week
  = [Scenario.wednesday; Scenario.tuesday; Scenario.monday]
  /\ StronglySorted Handlers.newerOrSame
       (ChatStorage.getChatsForProject "p1" Scenario.week).
Proof.
  split; [reflexivity|].
  apply (project_chats_newest_first "p1" Scenario.week).
  intros c Hc. vm_compute in Hc. destruct Hc as [<-|[<-|[<-|[]]]].
  - exists 1699869600000. split; vm_compute; reflexivity.
  - exists 1699956000000. split; vm_compute; reflexivity.
  - exists 1700042400000. split; vm_compute; reflexivity.
Defined.

(* ----------------------------------------------------------------- *)
(** *** What [localStorage] keeps of the selection and of the projects *)

Section CoherenceFacts.
Import Js Chat.

Variable deltaOf : string -> option string.
Variable p : Props.

(** A write of the chats changes nothing of what the summary looks at. *)
Ltac frame :=
  unfold Handlers.summary; cbn;
  rewrite ?getCurrentProjectId_saveAllChats, ?getCurrentChatId_saveAllChats,
    ?getProjects_saveAllChats;
  reflexivity.

Lemma inv_summary e e' :
  Handlers.summary e' = Handlers.summary e -> Handlers.coherent p e -> Handlers.coherent p e'.
Proof.
  unfold Handlers.coherent, Handlers.selectionPersisted, Handlers.projectsPersisted,
    Handlers.summary.
  intros H. inversion H as [[H1 H2 H3 H4 H5 H6]].
  rewrite H1, H2, H3, H4, H5, H6. tauto.
Qed.

Lemma inv_setCurrentChatId id e : Handlers.coherent p e -> Handlers.coherent p (setCurrentChatId id e).
Proof.
  unfold Handlers.coherent, Handlers.selectionPersisted, Handlers.projectsPersisted.
  intros [[H1 H2] H3]. cbn. repeat split; auto.
Qed.

Lemma inv_setCurrentProjectId id e : Handlers.coherent p e -> Handlers.coherent p (setCurrentProjectId id e).
Proof.
  unfold Handlers.coherent, Handlers.selectionPersisted, Handlers.projectsPersisted.
  intros [[H1 H2] H3]. cbn. repeat split; auto.
Qed.

Lemma inv_await {A : Type} (op : SharePoint.M A) onOk onErr e :
  (forall a s, Handlers.summary (mkEnv (onOk a s) (storage e) (world e))
               = Handlers.summary (mkEnv s (storage e) (world e))) ->
  (forall m s, Handlers.summary (mkEnv (onErr m s) (storage e) (world e))
               = Handlers.summary (mkEnv s (storage e) (world e))) ->
  Handlers.coherent p e -> Handlers.coherent p (await op onOk onErr e).
Proof.
  intros H1 H2. apply inv_summary. unfold await.
  destruct (op (world e)) as [[a|m] w].
  - exact (H1 a (state e)).
  - exact (H2 m (state e)).
Qed.

Lemma inv_awaitEnv {A : Type} (op : SharePoint.M A) onOk onErr e :
  (forall a e0, Handlers.coherent p e0 -> Handlers.coherent p (onOk a e0)) ->
  (forall m e0, Handlers.coherent p e0 -> Handlers.coherent p (onErr m e0)) ->
  Handlers.coherent p e -> Handlers.coherent p (Handlers.awaitEnv op onOk onErr e).
Proof.
  intros H1 H2 He. unfold Handlers.awaitEnv.
  destruct (op (world e)) as [[a|m] w]; [apply H1 | apply H2];
    exact (inv_summary e _ eq_refl He).
Qed.

Lemma inv_storeNewChat record pid onErr e :
  (forall m s, Handlers.summary (mkEnv (onErr m s) (storage e) (world e))
               = Handlers.summary (mkEnv s (storage e) (world e))) ->
  Handlers.coherent p e -> Handlers.coherent p (storeNewChat p record pid onErr e).
Proof.
  intros H He. unfold storeNewChat. destruct (useSharePoint p).
  - apply inv_await; [reflexivity | exact H | exact He].
  - apply (inv_summary e); [frame | exact He].
Qed.

Lemma inv_sendMessage rg fr e : Handlers.coherent p e -> Handlers.coherent p (fst (sendMessage p rg fr e)).
Proof.
  intros He. unfold sendMessage. cbv zeta.
  destruct (negb (truthy (trim (apiKey p))));
    [exact (inv_summary e _ eq_refl He)|].
  set (lastUser := if rg && _ then _ else None).
  set (e1 := match lastUser with Some _ => _ | None => e end).
  assert (H1 : Handlers.coherent p e1)
    by (unfold e1; destruct lastUser;
        [exact (inv_summary e _ eq_refl He) | exact He]).
  destruct (negb _ && negb rg); [exact H1|].
  destruct (loading (state e)); [exact H1|].
  cbn [fst].
  match goal with
  | |- Handlers.coherent p (onState ?f3 (onState ?f2 (onState ?f1 ?e2))) =>
      apply (inv_summary e2 _ eq_refl)
  end.
  destruct rg; [exact (inv_summary e1 _ eq_refl H1)|].
  unfold appendUserTurn. cbv zeta.
  match goal with
  | |- Handlers.coherent p (onState ?f ?e2) => apply (inv_summary e2 _ eq_refl)
  end.
  set (e2 := onState (setAttachments [])
               (onState (setInput "") (onState (setError None) e1))).
  assert (H2 : Handlers.coherent p e2) by exact (inv_summary e1 _ eq_refl H1).
  destruct (negb _ && _); [|exact H2].
  destruct (currentProjectId (state e)) as [pid|]; [|exact H2].
  apply inv_storeNewChat; [reflexivity|].
  change (Handlers.coherent p (setCurrentChatId (Some (chatId fr)) e2)).
  now apply inv_setCurrentChatId.
Qed.

(** With the library in use, only the selection counts. *)
Lemma inv_remote e e' :
  useSharePoint p = true ->
  fst (fst (Handlers.summary e')) = fst (fst (Handlers.summary e)) ->
  fst (snd (Handlers.summary e')) = fst (snd (Handlers.summary e)) ->
  Handlers.coherent p e -> Handlers.coherent p e'.
Proof.
  unfold Handlers.coherent, Handlers.selectionPersisted, Handlers.summary.
  cbn [fst snd]. intros Hmode H1 H2 [[Hp Hc] _].
  inversion H1 as [[E1 E2]]. inversion H2 as [[E3 E4]].
  rewrite E1, E2, E3, E4. split; [now split | congruence].
Qed.

Lemma inv_newChat newId at_ e :
  Handlers.coherent p e -> Handlers.coherent p (newChat p newId at_ e).
Proof.
  intros He. unfold newChat. cbv zeta.
  set (e1 := onState (setLoading false) _).
  assert (H1 : Handlers.coherent p e1).
  { apply (inv_summary e); [|exact He].
    unfold e1, abortCurrent, Handlers.summary. cbn.
    now destruct (abortRef (state e)). }
  destruct (currentProjectId (state e1)) as [pid|]; [|exact H1].
  destruct (truthy pid); [|exact H1].
  match goal with
  | |- Handlers.coherent p (onState ?f ?e2) => apply (inv_summary e2 _ eq_refl)
  end.
  change (Handlers.coherent p
            (setCurrentChatId (Some newId)
               (setCurrentChatId (Some newId)
                  (storeNewChat p (newChatRecord newId pid "New chat" at_) pid
                     (fun msg => setError (Some msg)) e1)))).
  apply inv_setCurrentChatId, inv_setCurrentChatId, inv_storeNewChat;
    [reflexivity | exact H1].
Qed.

Lemma inv_selectAfterDelete remaining nextAll e :
  Handlers.coherent p e ->
  Handlers.coherent p (selectAfterDelete remaining nextAll e).
Proof.
  intros He. unfold selectAfterDelete. destruct remaining as [|first rest].
  - match goal with
    | |- Handlers.coherent p (onState ?f ?e2) =>
        apply (inv_summary e2 _ eq_refl)
    end.
    now apply inv_setCurrentChatId, inv_setCurrentProjectId.
  - now apply inv_setCurrentChatId, inv_setCurrentProjectId.
Qed.

Lemma inv_handleDeleteProject proj confirmed e :
  Handlers.coherent p e ->
  Handlers.coherent p (handleDeleteProject p proj confirmed e).
Proof.
  intros He. unfold handleDeleteProject.
  destruct (negb confirmed); [exact He|]. cbv zeta.
  destruct (useSharePoint p) eqn:Emode.
  - destruct (SharePoint.bind _ _ (world e)) as [[u|msg] w].
    + set (e1 := onState (setChats _) (onState (setAllChats _)
                   (onState (setProjects _) (mkEnv (state e) (storage e) w)))).
      assert (H1 : Handlers.coherent p e1)
        by (apply (inv_remote e); [exact Emode | reflexivity | reflexivity
                                   | exact He]).
      destruct (isCurrentProject _ _); [|exact H1].
      now apply inv_selectAfterDelete.
    + exact (inv_summary e _ eq_refl He).
  - set (e1 := onState (setChats _) (onState (setAllChats _)
                 (onState (setProjects _) (onStorage _ (onStorage _ e))))).
    assert (H1 : Handlers.coherent p e1).
    { destruct He as [[Hp Hc] _]. unfold e1. split; [split|]; cbn.
      - now rewrite getCurrentProjectId_saveAllChats.
      - now rewrite getCurrentChatId_saveAllChats.
      - intros _. unfold Handlers.projectsPersisted. cbn.
        now rewrite getProjects_saveAllChats. }
    destruct (isCurrentProject _ _); [|exact H1].
    now apply inv_selectAfterDelete.
Qed.

Lemma inv_effects e :
  Handlers.coherent p e -> Handlers.coherent p (loadMessages p (syncChats p e)).
Proof.
  intros He.
  assert (H1 : Handlers.coherent p (syncChats p e)).
  { apply (inv_summary e); [|exact He]. unfold syncChats.
    destruct (ChatStorage.truthyId _); [|reflexivity].
    destruct (currentProjectId (state e)); [|reflexivity].
    now destruct (useSharePoint p). }
  apply (inv_summary (syncChats p e)); [|exact H1].
  unfold loadMessages.
  destruct (ChatStorage.truthyId _); [|reflexivity].
  destruct (currentChatId _); [|reflexivity].
  destruct (find _ _) as [chat|]; [|reflexivity].
  now destruct (IStoredChat.messages chat).
Qed.

(** The read loop touches neither the selection nor the projects. *)
Lemma onLine_ids line fl st :
  currentProjectId (snd (onLine deltaOf line (fl, st))) = currentProjectId st
  /\ currentChatId (snd (onLine deltaOf line (fl, st))) = currentChatId st
  /\ projects (snd (onLine deltaOf line (fl, st))) = projects st.
Proof.
  unfold onLine. destruct (startsWith line "data: "); [|now auto].
  destruct (String.eqb _ "[DONE]"); [now auto|].
  destruct (deltaOf _) as [delta|]; [|now auto].
  destruct (truthy delta); now auto.
Qed.

Lemma lines_ids lines : forall fl st,
  let r := fold_left (fun acc line => onLine deltaOf line acc) lines (fl, st) in
  currentProjectId (snd r) = currentProjectId st
  /\ currentChatId (snd r) = currentChatId st
  /\ projects (snd r) = projects st.
Proof.
  induction lines as [|line lines IH]; intros fl st; cbn [fold_left];
    [now auto|].
  pose proof (onLine_ids line fl st) as H1.
  destruct (onLine deltaOf line (fl, st)) as [fl1 st1]. cbn [snd] in H1.
  destruct H1 as (A1 & B1 & C1).
  destruct (IH fl1 st1) as (A2 & B2 & C2).
  cbv zeta. split; [congruence|]. split; congruence.
Qed.

Lemma deliver_ids d fl st :
  currentProjectId (snd (deliver deltaOf d fl st)) = currentProjectId st
  /\ currentChatId (snd (deliver deltaOf d fl st)) = currentChatId st
  /\ projects (snd (deliver deltaOf d fl st)) = projects st.
Proof.
  unfold deliver. destruct (isAborted _ _); [now auto|].
  destruct d as [value| |errMsg]; [|now auto|now auto].
  unfold onChunk. cbv zeta.
  match goal with
  | |- context [fold_left ?f ?l (?fl0, st)] =>
      pose proof (lines_ids l fl0 st) as H;
      destruct (fold_left f l (fl0, st)) as [fl1 st1]
  end.
  exact H.
Qed.

Lemma inv_deliver d fl e :
  Handlers.coherent p e ->
  Handlers.coherent p (onState (fun st => snd (deliver deltaOf d fl st)) e).
Proof.
  apply inv_summary. unfold Handlers.summary. cbn [state storage onState].
  destruct (deliver_ids d fl (state e)) as (A & B & C).
  now rewrite A, B, C.
Qed.

Lemma inv_step ev e :
  Handlers.coherent p e -> Handlers.coherent p (step deltaOf p ev e).
Proof.
  intros He. destruct ev as [rg fr|chat|newId at_|proj confirmed| |fl d];
    cbn [step].
  - now apply inv_sendMessage.
  - now apply inv_setCurrentChatId.
  - now apply inv_newChat.
  - now apply inv_handleDeleteProject.
  - now apply inv_effects.
  - now apply inv_deliver.
Qed.

Lemma inv_mount newId now_ e :
  Handlers.coherent p e ->
  Handlers.coherent p
    (Handlers.ensureDefaultProject p newId now_
       (Handlers.loadLibrary p newId now_ e)).
Proof.
  intros He. unfold Handlers.ensureDefaultProject, Handlers.loadLibrary.
  destruct (useSharePoint p) eqn:Emode; cbn [negb].
  - apply inv_awaitEnv; [| |exact He].
    + intros [proj chatsList] e0 H0. destruct proj as [|x proj].
      * apply inv_awaitEnv; [| |exact H0].
        -- intros _ e1 H1.
           match goal with
           | |- Handlers.coherent p (onState ?f ?e2) =>
               apply (inv_summary e2 _ eq_refl)
           end.
           change (Handlers.coherent p
                     (onState (setCurrentProjectIdState (Some newId))
                        (setCurrentProjectId (Some newId)
                           (onState (setProjects (fun _ =>
                              [Handlers.defaultProject newId now_])) e1)))).
           apply (inv_summary (setCurrentProjectId (Some newId)
                     (onState (setProjects (fun _ =>
                        [Handlers.defaultProject newId now_])) e1)) _ eq_refl).
           apply inv_setCurrentProjectId.
           now apply (inv_remote e1).
        -- intros m e1 H1. exact (inv_summary e1 _ eq_refl H1).
      * now apply (inv_remote e0).
    + intros m e0 H0. exact (inv_summary e0 _ eq_refl H0).
  - destruct (ChatStorage.getProjects (storage e)) as [|x l]; [|exact He].
    destruct He as [[Hp Hc] _].
    split; [split; reflexivity | intros _; reflexivity].
Qed.

Lemma inv_handleAddProject answer newId now_ e :
  Handlers.coherent p e ->
  Handlers.coherent p (Handlers.handleAddProject p answer newId now_ e).
Proof.
  intros He. unfold Handlers.handleAddProject.
  destruct answer as [name|]; [|exact He].
  destruct (Handlers.blank (Some name)); [exact He|]. cbv zeta.
  destruct (useSharePoint p) eqn:Emode.
  - apply inv_awaitEnv; [| |exact He].
    + intros _ e0 H0. apply inv_setCurrentProjectId.
      now apply (inv_remote e0).
    + intros m e0 H0. exact (inv_summary e0 _ eq_refl H0).
  - apply inv_setCurrentProjectId.
    destruct He as [[Hp Hc] _].
    split; [split; assumption | intros _; reflexivity].
Qed.

Lemma inv_handleRenameProject proj answer e :
  Handlers.coherent p e ->
  Handlers.coherent p (Handlers.handleRenameProject p proj answer e).
Proof.
  intros He. unfold Handlers.handleRenameProject.
  destruct answer as [name|]; [|exact He].
  destruct (_ || _); [exact He|]. cbv zeta.
  destruct (useSharePoint p) eqn:Emode.
  - apply inv_awaitEnv; [| |exact He].
    + intros _ e0 H0. now apply (inv_remote e0).
    + intros m e0 H0. exact (inv_summary e0 _ eq_refl H0).
  - destruct He as [[Hp Hc] _].
    split; [split; assumption | intros _; reflexivity].
Qed.

Lemma inv_handleRenameChat c answer now_ e :
  Handlers.coherent p e ->
  Handlers.coherent p (Handlers.handleRenameChat p c answer now_ e).
Proof.
  intros He. unfold Handlers.handleRenameChat.
  destruct answer as [title|]; [|exact He].
  destruct (String.eqb title _); [exact He|]. cbv zeta.
  destruct (useSharePoint p).
  - apply inv_awaitEnv; [| |exact He]; intros x e0 H0;
      exact (inv_summary e0 _ eq_refl H0).
  - destruct (existsb _ _); [|exact He].
    apply (inv_summary e); [frame | exact He].
Qed.

Lemma inv_handleDeleteChat chat confirmed e :
  Handlers.coherent p e ->
  Handlers.coherent p (Handlers.handleDeleteChat p chat confirmed e).
Proof.
  intros He. unfold Handlers.handleDeleteChat.
  destruct (negb confirmed); [exact He|]. cbv zeta.
  destruct (useSharePoint p).
  - apply inv_awaitEnv; [| |exact He].
    + intros _ e0 H0.
      set (e1 := onState (setChats _) (onState (setAllChats _) e0)).
      assert (H1 : Handlers.coherent p e1)
        by exact (inv_summary e0 _ eq_refl H0).
      destruct (Handlers.isCurrentChat _ _); [|exact H1].
      set (e2 := onState (setMessages _) (setCurrentChatId None e1)).
      assert (H2 : Handlers.coherent p e2).
      { apply (inv_summary (setCurrentChatId None e1) _ eq_refl).
        now apply inv_setCurrentChatId. }
      destruct (filter _ _) as [|first rest]; [exact H2|].
      now apply inv_setCurrentChatId.
    + intros m e0 H0. exact (inv_summary e0 _ eq_refl H0).
  - set (all := filter (Handlers.notChat _) _).
    set (e1 := onState (setChats _) (onState (setAllChats _) (onStorage _ e))).
    assert (H1 : Handlers.coherent p e1)
      by (apply (inv_summary e); [unfold e1; frame | exact He]).
    destruct (Handlers.isCurrentChat _ _).
    + set (e2 := onState (setMessages _) (setCurrentChatId None e1)).
      assert (H2 : Handlers.coherent p e2).
      { apply (inv_summary (setCurrentChatId None e1) _ eq_refl).
        now apply inv_setCurrentChatId. }
      destruct (filter (Handlers.ofCurrentProject _) all) as [|first rest];
        [exact H2|].
      now apply inv_setCurrentChatId.
    + exact (inv_summary e1 _ eq_refl H1).
Qed.

Lemma inv_persistCurrentChat msgs title now_ e e' :
  Handlers.coherent p e ->
  persistCurrentChat p msgs title now_ e = Ok e' ->
  Handlers.coherent p e'.
Proof.
  intros He. unfold persistCurrentChat.
  destruct (currentChatId (state e)) as [cid|]; [|now intros [= <-]].
  destruct (currentProjectId (state e)) as [pid|]; [|now intros [= <-]].
  destruct (truthy cid && truthy pid); [|now intros [= <-]].
  cbv zeta.
  destruct (ChatStorage.mapResult _ msgs) as [stored|err]; [|discriminate].
  destruct (useSharePoint p).
  - intros [= <-]. apply inv_await; [reflexivity | reflexivity | exact He].
  - intros [= <-]. apply (inv_summary e); [frame | exact He].
Qed.

Lemma inv_persistOnTurnEnd now_ e e' :
  Handlers.coherent p e ->
  Handlers.persistOnTurnEnd p now_ e = Ok e' ->
  Handlers.coherent p e'.
Proof.
  intros He. unfold Handlers.persistOnTurnEnd. cbv zeta.
  destruct (currentChatId (state e)) as [cid|] eqn:Ec; [|now intros [= <-]].
  destruct (_ && _); [|now intros [= <-]].
  destruct (persistCurrentChat p _ None now_ e) as [e1|msg] eqn:E1;
    [|discriminate].
  pose proof (inv_persistCurrentChat _ _ _ _ _ He E1) as H1.
  destruct (useSharePoint p).
  - destruct (Handlers.firstUserTitle _) as [t|]; [|now intros [= <-]].
    destruct (find _ _) as [c|]; [|now intros [= <-]].
    destruct (String.eqb _ "New chat"); [|now intros [= <-]].
    destruct (ChatStorage.mapResult _ _) as [stored|err]; [|discriminate].
    intros [= <-]. apply inv_await; [reflexivity | reflexivity | exact H1].
  - intros [= <-].
    match goal with
    | |- Handlers.coherent p (onState ?f ?e2) =>
        apply (inv_summary e2 _ eq_refl)
    end.
    destruct (Handlers.firstUserTitle _) as [t|]; [|exact H1].
    destruct (Handlers.retitleFirst _ _ _ _); [|exact H1].
    apply (inv_summary e1); [frame | exact H1].
Qed.

Lemma inv_act a e e' :
  Handlers.coherent p e -> Handlers.act deltaOf p a e = Ok e' ->
  Handlers.coherent p e'.
Proof.
  intros He.
  destruct a as [ev|newId now_|v|v|files|index|answer newId now_|proj answer
                 |proj|c answer now_|chat confirmed|now_];
    cbn [Handlers.act]; try (intros [= <-]).
  - now apply inv_step.
  - now apply inv_mount.
  - exact (inv_summary e _ eq_refl He).
  - exact (inv_summary e _ eq_refl He).
  - apply (inv_summary e); [|exact He].
    unfold Handlers.onFileChange, Handlers.summary. cbn [state storage onState].
    now destruct (Extractor.onFileChange _ _ _).
  - exact (inv_summary e _ eq_refl He).
  - now apply inv_handleAddProject.
  - now apply inv_handleRenameProject.
  - now apply inv_setCurrentProjectId.
  - now apply inv_handleRenameChat.
  - now apply inv_handleDeleteChat.
  - now apply inv_persistOnTurnEnd.
Qed.

Lemma inv_acts l : forall e e',
  Handlers.coherent p e -> Handlers.acts deltaOf p l e = Ok e' ->
  Handlers.coherent p e'.
Proof.
  induction l as [|a l IH]; intros e e' He; cbn [Handlers.acts].
  - now intros [= <-].
  - destruct (Handlers.act deltaOf p a e) as [e1|msg] eqn:E1; [|discriminate].
    apply IH. exact (inv_act a e e1 He E1).
Qed.

End CoherenceFacts.

Section ReloadFacts.
Import Chat.

Lemma coherent_mounted p ls w :
  Handlers.cleanSelection ls -> Handlers.coherent p (Handlers.mounted p ls w).
Proof.
  intros [Hp Hc]. split; [split|]; cbn; [now rewrite Hp | now rewrite Hc|].
  intros Hmode. unfold Handlers.projectsPersisted. cbn. now rewrite Hmode.
Qed.

End ReloadFacts.

(** X17.  The selection survives a reload.  Whatever the session does
    after the component mounted (any handlers, effects and deliveries,
    with either adapter), the project and the chat that [localStorage]
    holds are the ones selected in the state, a falsy id being held as
    no entry: a component mounted on that storage starts with the
    selection the session had. *)
Theorem reload_restores_the_selection
    (deltaOf : string -> option string) (p : Chat.Props)
    (ls : ChatStorage.LocalStorage) (w : SharePoint.World)
    (session : list (Handlers.Action)) (e' : Chat.Env) :
  Handlers.cleanSelection ls ->
  Handlers.acts deltaOf p session (Handlers.mounted p ls w) = Ok e' ->
  forall w',
    let reloaded := Handlers.mounted p (Chat.storage e') w' in
    Chat.currentProjectId (Chat.state reloaded)
    = Handlers.stored (Chat.currentProjectId (Chat.state e'))
    /\ Chat.currentChatId (Chat.state reloaded)
       = Handlers.stored (Chat.currentChatId (Chat.state e')).
Proof.
  intros Hclean Hrun w'.
  pose proof (inv_acts deltaOf p session _ _ (coherent_mounted p ls w Hclean)
                Hrun) as [[Hp Hc] _].
  cbn. split; assumption.
Qed.

Lemma reload_restores_the_selection_witness :
  exists e',
    Handlers.acts Sample.echoDelta Sample.localProps Scenario.firstSession
      (Handlers.mounted Sample.localProps ChatStorage.emptyStorage Sample.world)
    = Ok e'
    /\ Chat.currentProjectId (Chat.state e') = Some "p-default"
    /\ Chat.currentChatId (Chat.state e') = None
    /\ forall w',
         let reloaded := Handlers.mounted Sample.localProps (Chat.storage e') w' in
         Chat.currentProjectId (Chat.state reloaded)
         = Handlers.stored (Chat.currentProjectId (Chat.state e'))
         /\ Chat.currentChatId (Chat.state reloaded)
            = Handlers.stored (Chat.currentChatId (Chat.state e')).
Proof.
  eexists. split; [vm_compute; reflexivity|].
  split; [reflexivity|]. split; [reflexivity|].
  apply (reload_restores_the_selection Sample.echoDelta Sample.localProps
           ChatStorage.emptyStorage Sample.world Scenario.firstSession).
  - split; reflexivity.
  - vm_compute. reflexivity.
Defined.

(** X18.  With the local adapter the projects survive a reload:
    whatever the session does after the component mounted, the projects
    in [localStorage] are the projects of the state, so a component
    mounted on that storage lists the same projects. *)
Theorem reload_restores_the_projects
    (deltaOf : string -> option string) (p : Chat.Props)
    (ls : ChatStorage.LocalStorage) (w : SharePoint.World)
    (session : list (Handlers.Action)) (e' : Chat.Env) :
  Chat.useSharePoint p = false ->
  Handlers.cleanSelection ls ->
  Handlers.acts deltaOf p session (Handlers.mounted p ls w) = Ok e' ->
  forall w',
    Chat.projects (Chat.state (Handlers.mounted p (Chat.storage e') w'))
    = Chat.projects (Chat.state e').
Proof.
  intros Hmode Hclean Hrun w'.
  pose proof (inv_acts deltaOf p session _ _ (coherent_mounted p ls w Hclean)
                Hrun) as [_ Hproj].
  cbn. rewrite Hmode. exact (Hproj Hmode).
Qed.

Lemma reload_restores_the_projects_witness :
  exists e',
    Handlers.acts Sample.echoDelta Sample.localProps Scenario.firstSession
      (Handlers.mounted Sample.localProps ChatStorage.emptyStorage Sample.world)
    = Ok e'
    /\ map IProject.name (Chat.projects (Chat.state e')) = ["Default"; "Travel"]
    /\ forall w',
         Chat.projects
           (Chat.state (Handlers.mounted Sample.localProps (Chat.storage e') w'))
         = Chat.projects (Chat.state e').
Proof.
  eexists. split; [vm_compute; reflexivity|]. split; [reflexivity|].
  apply (reload_restores_the_projects Sample.echoDelta Sample.localProps
           ChatStorage.emptyStorage Sample.world Scenario.firstSession).
  - reflexivity.
  - split; reflexivity.
  - vm_compute. reflexivity.
Defined.

(* ----------------------------------------------------------------- *)
(** *** The library: what a save or a delete leaves for the next load *)

Section LibraryFacts.
Import Js SharePoint.

Lemma itemsOf_sameUser w :
  sameUser w ->
  itemsOf (server w) (resolvedUser w)
  = map (fun f => mkItem (fst f) (serverRelativeUrl (server w) (fst f)))
        (files (server w)).
Proof. intros H. unfold itemsOf. now rewrite H, Z.eqb_refl. Qed.

Lemma find_items srv n (fs : list (string * Payload)) :
  find (fun f => String.eqb (Name f) n)
       (map (fun f => mkItem (fst f) (serverRelativeUrl srv (fst f))) fs)
  = option_map (fun f => mkItem (fst f) (serverRelativeUrl srv (fst f)))
               (find (fun f => String.eqb (fst f) n) fs).
Proof.
  induction fs as [|f fs IH]; cbn [map find option_map]; [reflexivity|].
  cbn [Name]. now destruct (String.eqb (fst f) n).
Qed.

(** What [getProjectsFromLibrary] reads from a library that answers. *)
Lemma getProjectsFromLibrary_healthy w :
  healthy w -> sameUser w ->
  getProjectsFromLibrary w
  = (Ok match find (fun f => String.eqb (fst f)
                      (PROJECTS_FILE_PREFIX ++ numberToString (resolvedUser w)
                       ++ FILE_EXT))
                   (files (server w)) with
        | Some (_, JsonProjects l) => l
        | _ => []
        end,
     cached w).
Proof.
  intros Hh Hu. unfold getProjectsFromLibrary, bind.
  rewrite getCurrentUserId_result, (healthy_user w Hh).
  fold (cached w). rewrite getMyFileItems_result.
  assert (Hc : userLookupFails (cached w) = false) by reflexivity.
  rewrite Hc. cbn [cached server]. rewrite (Hh Items).
  assert (Er : resolvedUser (cached w) = resolvedUser w) by reflexivity.
  change (mkWorld (libraryTitle w) (Some (resolvedUser w)) (server w))
    with (cached w).
  rewrite Er, (itemsOf_sameUser w Hu), find_items.
  assert (Ecc : cached (cached w) = cached w) by reflexivity. rewrite Ecc.
  destruct (find _ (files (server w))) as [[n body]|] eqn:E;
    cbn [option_map]; [|reflexivity].
  rewrite getFileContent_result. cbn [cached server ServerRelativeUrl fst].
  rewrite (Hh FileContent), fileAt_find.
  pose proof (find_some _ _ E) as [_ Hn]. cbn [fst] in Hn.
  apply String.eqb_eq in Hn. subst n. rewrite E. cbn [snd].
  destruct body as [l|l|c|raw]; try reflexivity.
  now destruct raw.
Qed.

Lemma find_putFile_other name c fs m :
  String.eqb m name = false ->
  find (fun f => String.eqb (fst f) m) (putFile name c fs)
  = find (fun f => String.eqb (fst f) m) fs.
Proof.
  intros Hm. induction fs as [|f fs IH]; cbn [putFile find].
  - cbn [fst]. rewrite String.eqb_sym, Hm. reflexivity.
  - destruct (String.eqb (fst f) name) eqn:E; cbn [find fst].
    + apply String.eqb_eq in E. rewrite E, String.eqb_sym, Hm. reflexivity.
    + now rewrite IH.
Qed.

Lemma chatNames_putFile name c fs :
  isChatFileName name = false ->
  filter isChatFileName (map fst (putFile name c fs))
  = filter isChatFileName (map fst fs).
Proof.
  intros Hn. induction fs as [|f fs IH]; cbn [putFile map filter fst].
  - now rewrite Hn.
  - destruct (String.eqb (fst f) name) eqn:E; cbn [map filter fst].
    + apply String.eqb_eq in E. now rewrite E, Hn.
    + now rewrite IH.
Qed.

(** The chats a load reads from the files [fs] of a folder. *)
Lemma loaded_by_name srv (fs : list (string * Payload)) :
  flat_map (chatIn srv)
    (filter (fun f => isChatFileName (Name f))
       (map (fun f => mkItem (fst f) (serverRelativeUrl srv (fst f))) fs))
  = flat_map (fun n => chatIn srv (mkItem n (serverRelativeUrl srv n)))
      (filter isChatFileName (map fst fs)).
Proof.
  induction fs as [|f fs IH]; cbn [map filter flat_map Name fst];
    [reflexivity|].
  destruct (isChatFileName (fst f)); cbn [flat_map]; now rewrite IH.
Qed.

Lemma flat_map_ext_in {A B : Type} (f g : A -> list B) (l : list A) :
  (forall a, In a l -> f a = g a) -> flat_map f l = flat_map g l.
Proof.
  induction l as [|a l IH]; intros H; cbn [flat_map]; [reflexivity|].
  rewrite (H a) by now left. rewrite IH; [reflexivity|].
  intros b Hb. apply H. now right.
Qed.

(** Two libraries of one folder that agree on every chat file give the
    same chats. *)
Lemma loaded_ext w w' :
  healthy w -> healthy w' -> sameUser w -> sameUser w' ->
  folderUrl (server w') = folderUrl (server w) ->
  filter isChatFileName (map fst (files (server w')))
  = filter isChatFileName (map fst (files (server w))) ->
  (forall n, isChatFileName n = true ->
     find (fun f => String.eqb (fst f) n) (files (server w'))
     = find (fun f => String.eqb (fst f) n) (files (server w))) ->
  fst (getChatsFromLibrary w') = fst (getChatsFromLibrary w).
Proof.
  intros Hh Hh' Hu Hu' Hfolder Hnames Hfind.
  rewrite (getChatsFromLibrary_healthy w Hh),
          (getChatsFromLibrary_healthy w' Hh').
  cbn [fst]. f_equal. f_equal.
  rewrite (itemsOf_sameUser w Hu), (itemsOf_sameUser w' Hu').
  rewrite !loaded_by_name, Hnames.
  apply flat_map_ext_in. intros n Hn. apply filter_In in Hn.
  destruct Hn as [_ Hn]. unfold chatIn. cbn [ServerRelativeUrl].
  rewrite !fileAt_find. now rewrite (Hfind n Hn).
Qed.

Lemma projectsName_not_chat uid :
  isChatFileName (PROJECTS_FILE_PREFIX ++ numberToString uid ++ FILE_EXT)
  = false.
Proof. reflexivity. Qed.

End LibraryFacts.

(** X19.  Saving the projects to a library that answers, for the same
    user, and loading again: the projects read back are exactly the
    projects saved (also the empty list), and the chats the library
    holds are read as before the save. *)
Theorem saved_projects_read_back
    (projects : list IProject.t) (w : SharePoint.World) :
  SharePoint.healthy w -> SharePoint.sameUser w ->
  exists w1,
    SharePoint.saveProjectsToLibrary projects w = (Ok tt, w1)
    /\ fst (SharePoint.getProjectsFromLibrary w1) = Ok projects
    /\ fst (SharePoint.getChatsFromLibrary w1)
       = fst (SharePoint.getChatsFromLibrary w).
Proof.
  intros Hh Hu.
  set (name := SharePoint.PROJECTS_FILE_PREFIX
               ++ SharePoint.numberToString (SharePoint.resolvedUser w)
               ++ SharePoint.FILE_EXT).
  set (w1 := SharePoint.withFiles (SharePoint.cached w)
               (SharePoint.putFile name (JsonProjects projects)
                  (SharePoint.files (SharePoint.server w)))).
  assert (Es : SharePoint.saveProjectsToLibrary projects w = (Ok tt, w1)).
  { unfold SharePoint.saveProjectsToLibrary, SharePoint.bind.
    rewrite getCurrentUserId_result, (healthy_user w Hh).
    rewrite getFolder_result. cbn [SharePoint.server].
    rewrite (Hh SharePoint.RootFolder).
    unfold SharePoint.postFile. cbn [SharePoint.server].
    now rewrite (Hh SharePoint.AddFile), String.eqb_refl. }
  assert (Hh1 : SharePoint.healthy w1) by (intros ep; apply Hh).
  assert (Hu1 : SharePoint.sameUser w1) by exact Hu.
  assert (Hc : SharePoint.healthy (SharePoint.cached w))
    by (intros ep; apply Hh).
  exists w1. split; [exact Es|]. split.
  - rewrite (getProjectsFromLibrary_healthy w1 Hh1 Hu1). cbn [fst].
    change (SharePoint.resolvedUser w1) with (SharePoint.resolvedUser w).
    fold name. cbn [w1 SharePoint.withFiles SharePoint.server SharePoint.files].
    now rewrite find_putFile.
  - apply loaded_ext; try assumption; try reflexivity.
    + cbn [w1 SharePoint.withFiles SharePoint.server SharePoint.files].
      apply chatNames_putFile, projectsName_not_chat.
    + intros n Hn.
      cbn [w1 SharePoint.withFiles SharePoint.server SharePoint.files
           SharePoint.cached].
      apply find_putFile_other.
      destruct (String.eqb n name) eqn:E; [|reflexivity].
      apply String.eqb_eq in E. subst n. unfold name in Hn.
      rewrite projectsName_not_chat in Hn. discriminate Hn.
Qed.

Lemma saved_projects_read_back_witness :
  exists w1,
    SharePoint.saveProjectsToLibrary [Sample.projectTwo] Sample.libraryWorld
    = (Ok tt, w1)
    /\ fst (SharePoint.getProjectsFromLibrary w1) = Ok [Sample.projectTwo]
    /\ fst (SharePoint.getChatsFromLibrary w1)
       = fst (SharePoint.getChatsFromLibrary Sample.libraryWorld).
Proof.
  apply (saved_projects_read_back [Sample.projectTwo] Sample.libraryWorld).
  - intros ep. reflexivity.
  - reflexivity.
Defined.

Section LibraryMembership.
Import Js SharePoint.

(** The chats a load reads from a library that answers: those a chat
    file holds under its own name, with an id and a project id. *)
Lemma In_loaded w c chats :
  healthy w -> sameUser w ->
  fst (getChatsFromLibrary w) = Ok chats ->
  (In c chats
   <-> exists n,
         isChatFileName n = true
         /\ find (fun f => String.eqb (fst f) n) (files (server w))
            = Some (n, JsonChat c)
         /\ truthy (IStoredChat.id c) && truthy (IStoredChat.projectId c)
            = true).
Proof.
  intros Hh Hu. rewrite (getChatsFromLibrary_healthy w Hh). cbn [fst].
  intros [= <-]. rewrite In_sort, (itemsOf_sameUser w Hu), loaded_by_name.
  rewrite in_flat_map. split.
  - intros (n & Hn & Hc). apply filter_In in Hn. destruct Hn as [_ Hn].
    unfold chatIn in Hc. cbn [ServerRelativeUrl] in Hc.
    rewrite fileAt_find in Hc.
    destruct (find _ (files (server w))) as [[m body]|] eqn:E;
      [|contradiction].
    pose proof (find_some _ _ E) as [_ Hm]. cbn [fst] in Hm.
    apply String.eqb_eq in Hm. subst m.
    destruct body as [l|l|chat|raw]; try contradiction.
    destruct (truthy (IStoredChat.id chat) && truthy (IStoredChat.projectId chat))
      eqn:Et; [|contradiction].
    destruct Hc as [<-|[]]. exists n. now auto.
  - intros (n & Hn & Hf & Ht). exists n. split.
    + apply filter_In. split; [|exact Hn].
      pose proof (find_some _ _ Hf) as [Hin _].
      apply in_map_iff. now exists (n, JsonChat c).
    + unfold chatIn. cbn [ServerRelativeUrl]. rewrite fileAt_find, Hf, Ht.
      now left.
Qed.

Lemma find_filter_other (fs : list (string * Payload)) n m :
  String.eqb m n = false ->
  find (fun f => String.eqb (fst f) m)
       (filter (fun f => negb (String.eqb (fst f) n)) fs)
  = find (fun f => String.eqb (fst f) m) fs.
Proof.
  intros Hm. induction fs as [|f fs IH]; cbn [filter find]; [reflexivity|].
  destruct (String.eqb (fst f) n) eqn:E; cbn [negb find].
  - apply String.eqb_eq in E. rewrite E, String.eqb_sym, Hm. exact IH.
  - now rewrite IH.
Qed.

Lemma find_filter_same (fs : list (string * Payload)) n :
  find (fun f => String.eqb (fst f) n)
       (filter (fun f => negb (String.eqb (fst f) n)) fs) = None.
Proof.
  induction fs as [|f fs IH]; cbn [filter find]; [reflexivity|].
  destruct (String.eqb (fst f) n) eqn:E; cbn [negb find]; [exact IH|].
  now rewrite E.
Qed.

Lemma filter_all {A : Type} (f : A -> bool) (l : list A) :
  (forall x, In x l -> f x = true) -> filter f l = l.
Proof.
  induction l as [|x l IH]; intros H; cbn [filter]; [reflexivity|].
  rewrite (H x) by now left. rewrite IH; [reflexivity|].
  intros y Hy. apply H. now right.
Qed.

(** A delete on a library that answers: every file named after the chat
    is gone, every other file stays. *)
Lemma deleteChatFromLibrary_healthy chatId w :
  healthy w -> sameUser w ->
  exists w1,
    deleteChatFromLibrary chatId w = (Ok tt, w1)
    /\ healthy w1 /\ sameUser w1
    /\ resolvedUser w1 = resolvedUser w
    /\ folderUrl (server w1) = folderUrl (server w)
    /\ files (server w1)
       = filter (fun f => negb (String.eqb (fst f) (chatFileName chatId)))
                (files (server w)).
Proof.
  intros Hh Hu. unfold deleteChatFromLibrary, bind.
  rewrite getMyFileItems_result, (healthy_user w Hh), (Hh Items).
  rewrite (itemsOf_sameUser w Hu), find_items.
  destruct (find _ (files (server w))) as [f|] eqn:E; cbn [option_map].
  - pose proof (find_some _ _ E) as [Hin Hn]. apply String.eqb_eq in Hn.
    cbn [cached server]. rewrite (Hh DeleteFile).
    cbn [ServerRelativeUrl]. rewrite fileAt_find, Hn, E.
    eexists. split; [reflexivity|].
    split; [intros ep; apply Hh|]. split; [exact Hu|].
    split; [reflexivity|]. split; [reflexivity|].
    cbn [withFiles server files]. unfold removeFile. cbn [files].
    apply filter_ext. intros g. now rewrite url_eqb.
  - exists (cached w). split; [reflexivity|].
    split; [intros ep; apply Hh|]. split; [exact Hu|].
    split; [reflexivity|]. split; [reflexivity|].
    cbn [cached server]. symmetry. apply filter_all.
    intros g Hg. now rewrite (find_none _ _ E g Hg).
Qed.

Lemma projectsName_not_chatName uid chatId :
  String.eqb (PROJECTS_FILE_PREFIX ++ numberToString uid ++ FILE_EXT)
             (chatFileName chatId) = false.
Proof. reflexivity. Qed.

End LibraryMembership.

(** X20.  Deleting a chat from a library that answers, for the same
    user and with chat files named after their chats, succeeds, and the
    next load reads exactly the chats read before except those with the
    deleted id; the projects are read as before. *)
Theorem deleted_chat_is_gone_from_library
    (chatId : string) (w : SharePoint.World) (before : list IStoredChat.t) :
  SharePoint.healthy w -> SharePoint.sameUser w ->
  SharePoint.wellNamed (SharePoint.files (SharePoint.server w)) ->
  fst (SharePoint.getChatsFromLibrary w) = Ok before ->
  exists w1 after,
    SharePoint.deleteChatFromLibrary chatId w = (Ok tt, w1)
    /\ fst (SharePoint.getChatsFromLibrary w1) = Ok after
    /\ (forall c, In c after <-> In c before /\ IStoredChat.id c <> chatId)
    /\ fst (SharePoint.getProjectsFromLibrary w1)
       = fst (SharePoint.getProjectsFromLibrary w).
Proof.
  intros Hh Hu [_ Hnames] Hbefore.
  destruct (deleteChatFromLibrary_healthy chatId w Hh Hu)
    as (w1 & Hdel & Hh1 & Hu1 & Hr1 & Hfolder & Hfiles).
  exists w1. eexists. split; [exact Hdel|].
  split; [rewrite (getChatsFromLibrary_healthy w1 Hh1); reflexivity|].
  split.
  - intros c.
    rewrite (In_loaded w1 c _ Hh1 Hu1
               (f_equal fst (getChatsFromLibrary_healthy w1 Hh1))).
    rewrite (In_loaded w c before Hh Hu Hbefore). rewrite Hfiles.
    split.
    + intros (n & Hn & Hf & Ht).
      destruct (String.eqb n (SharePoint.chatFileName chatId)) eqn:En.
      * apply String.eqb_eq in En. subst n.
        rewrite find_filter_same in Hf. discriminate Hf.
      * rewrite find_filter_other in Hf by exact En.
        split; [exists n; now auto|].
        pose proof (find_some _ _ Hf) as [Hin _].
        pose proof (Hnames n c Hin) as Hname. intros Hid. subst chatId.
        rewrite Hname, String.eqb_refl in En. discriminate En.
    + intros [(n & Hn & Hf & Ht) Hid].
      exists n. split; [exact Hn|]. split; [|exact Ht].
      rewrite find_filter_other; [exact Hf|].
      pose proof (find_some _ _ Hf) as [Hin _].
      pose proof (Hnames n c Hin) as Hname.
      destruct (String.eqb n (SharePoint.chatFileName chatId)) eqn:En;
        [|reflexivity].
      apply String.eqb_eq in En. rewrite Hname in En.
      apply chatFileName_inj in En. contradiction.
  - rewrite (getProjectsFromLibrary_healthy w1 Hh1 Hu1),
            (getProjectsFromLibrary_healthy w Hh Hu).
    cbn [fst]. rewrite Hr1, Hfiles.
    rewrite find_filter_other by apply projectsName_not_chatName.
    reflexivity.
Qed.

Lemma deleted_chat_is_gone_from_library_witness :
  exists w1 after,
    SharePoint.deleteChatFromLibrary "c1" Sample.libraryWorld = (Ok tt, w1)
    /\ fst (SharePoint.getChatsFromLibrary w1) = Ok after
    /\ (forall c, In c after
                  <-> In c [Sample.chatOne; Sample.chatTwo]
                      /\ IStoredChat.id c <> "c1")
    /\ fst (SharePoint.getProjectsFromLibrary w1)
       = fst (SharePoint.getProjectsFromLibrary Sample.libraryWorld).
Proof.
  apply (deleted_chat_is_gone_from_library "c1" Sample.libraryWorld
           [Sample.chatOne; Sample.chatTwo]).
  - intros ep. reflexivity.
  - reflexivity.
  - exact (proj2 (proj2 sample_library_well_named)).
  - reflexivity.
Defined.

(** X21.  Saving a chat to a library that answers, for the same user
    and with chat files named after their chats, replaces the chat of
    that id and nothing else: the next load reads the saved chat and
    exactly the chats with another id that were read before; the
    projects are read as before. *)
Theorem saved_chat_keeps_the_others
    (chat : IStoredChat.t) (w : SharePoint.World)
    (before : list IStoredChat.t) :
  SharePoint.healthy w -> SharePoint.sameUser w ->
  SharePoint.wellNamed (SharePoint.files (SharePoint.server w)) ->
  Js.truthy (IStoredChat.id chat) = true ->
  Js.truthy (IStoredChat.projectId chat) = true ->
  fst (SharePoint.getChatsFromLibrary w) = Ok before ->
  exists w1 after,
    SharePoint.saveChatToLibrary chat w = (Ok tt, w1)
    /\ fst (SharePoint.getChatsFromLibrary w1) = Ok after
    /\ (forall c, In c after
                  <-> c = chat
                      \/ (In c before
                          /\ IStoredChat.id c <> IStoredChat.id chat))
    /\ fst (SharePoint.getProjectsFromLibrary w1)
       = fst (SharePoint.getProjectsFromLibrary w).
Proof.
  intros Hh Hu [_ Hnames] Tid Tpid Hbefore.
  set (name := SharePoint.chatFileName (IStoredChat.id chat)).
  set (fs1 := SharePoint.putFile name (JsonChat chat)
                (SharePoint.files (SharePoint.server w))).
  set (w1 := SharePoint.withFiles w fs1).
  assert (Es : SharePoint.saveChatToLibrary chat w = (Ok tt, w1)).
  { unfold SharePoint.saveChatToLibrary, SharePoint.bind.
    rewrite getFolder_result, (Hh SharePoint.RootFolder).
    unfold SharePoint.postFile.
    now rewrite (Hh SharePoint.AddFile), String.eqb_refl. }
  assert (Hh1 : SharePoint.healthy w1) by (intros ep; apply Hh).
  assert (Hu1 : SharePoint.sameUser w1) by exact Hu.
  exists w1. eexists. split; [exact Es|].
  split; [rewrite (getChatsFromLibrary_healthy w1 Hh1); reflexivity|].
  split.
  - intros c.
    rewrite (In_loaded w1 c _ Hh1 Hu1
               (f_equal fst (getChatsFromLibrary_healthy w1 Hh1))).
    rewrite (In_loaded w c before Hh Hu Hbefore).
    cbn [w1 SharePoint.withFiles SharePoint.server SharePoint.files].
    unfold fs1. split.
    + intros (n & Hn & Hf & Ht).
      destruct (String.eqb n name) eqn:En.
      * apply String.eqb_eq in En. subst n. rewrite find_putFile in Hf.
        left. now inversion Hf.
      * rewrite find_putFile_other in Hf by exact En. right.
        split; [exists n; now auto|].
        pose proof (find_some _ _ Hf) as [Hin _].
        pose proof (Hnames n c Hin) as Hname. intros Hid.
        unfold name in En. rewrite Hname, Hid, String.eqb_refl in En.
        discriminate En.
    + intros [->|[(n & Hn & Hf & Ht) Hid]].
      * exists name. split; [apply isChatFileName_chatFileName|].
        split; [apply find_putFile|]. now rewrite Tid, Tpid.
      * exists n. split; [exact Hn|]. split; [|exact Ht].
        rewrite find_putFile_other; [exact Hf|].
        pose proof (find_some _ _ Hf) as [Hin _].
        pose proof (Hnames n c Hin) as Hname.
        destruct (String.eqb n name) eqn:En; [|reflexivity].
        apply String.eqb_eq in En. unfold name in En. rewrite Hname in En.
        apply chatFileName_inj in En. contradiction.
  - rewrite (getProjectsFromLibrary_healthy w1 Hh1 Hu1),
            (getProjectsFromLibrary_healthy w Hh Hu).
    cbn [fst].
    change (SharePoint.resolvedUser w1) with (SharePoint.resolvedUser w).
    cbn [w1 SharePoint.withFiles SharePoint.server SharePoint.files].
    unfold fs1. rewrite find_putFile_other; [reflexivity|].
    apply projectsName_not_chatName.
Qed.

Lemma saved_chat_keeps_the_others_witness :
  exists w1 after,
    SharePoint.saveChatToLibrary Sample.emptyChat Sample.libraryWorld
    = (Ok tt, w1)
    /\ fst (SharePoint.getChatsFromLibrary w1) = Ok after
    /\ (forall c, In c after
                  <-> c = Sample.emptyChat
                      \/ (In c [Sample.chatOne; Sample.chatTwo]
                          /\ IStoredChat.id c <> IStoredChat.id Sample.emptyChat))
    /\ fst (SharePoint.getProjectsFromLibrary w1)
       = fst (SharePoint.getProjectsFromLibrary Sample.libraryWorld).
Proof.
  apply (saved_chat_keeps_the_others Sample.emptyChat Sample.libraryWorld
           [Sample.chatOne; Sample.chatTwo]).
  - intros ep. reflexivity.
  - reflexivity.
  - exact (proj2 (proj2 sample_library_well_named)).
  - reflexivity.
  - reflexivity.
  - reflexivity.
Defined.

(* ----------------------------------------------------------------- *)
(** *** The model hint and the guard order of [sendMessage] *)

Section HintBarFacts.
Import Js Chat.

Lemma suggestedModel_cases s :
  Handlers.suggestedModel s = Hint.MODEL_FOR_SIMPLE
  \/ Handlers.suggestedModel s = Hint.MODEL_FOR_COMPLEX.
Proof.
  unfold Handlers.suggestedModel, Hint.getSuggestedModelValue.
  destruct (Hint.suggestModelFromContent _ _); auto.
Qed.

Lemma lastUserOf_some (ms : list IChatMessage.t) m :
  In m ms -> Builder.isUserMessage m = true -> lastUserOf ms <> None.
Proof.
  intros Hin Hm Hnone. unfold lastUserOf in Hnone.
  apply in_rev in Hin. pose proof (find_none _ _ Hnone m Hin). congruence.
Qed.

End HintBarFacts.

(** X22.  The model hint always names a model the selector offers; it is
    shown exactly when a send is possible and the suggested model is not
    the selected one; and taking the suggestion makes it disappear. *)
Theorem model_hint_offers_an_available_model (s : Chat.State) :
  In (Handlers.suggestedModel s) (map fst Handlers.MODEL_OPTIONS)
  /\ Handlers.showModelSuggestion s
     = Handlers.canSend s
       && negb (String.eqb (Handlers.suggestedModel s) (Chat.model s))
  /\ Handlers.showModelSuggestion
       (Handlers.setModel (Handlers.suggestedModel s) s) = false.
Proof.
  assert (Hopt : forall s0, match Handlers.suggestedOption s0 with
                            | Some _ => true
                            | None => false
                            end = true).
  { intros s0. unfold Handlers.suggestedOption.
    destruct (suggestedModel_cases s0) as [-> | ->]; reflexivity. }
  split; [|split].
  - destruct (suggestedModel_cases s) as [-> | ->]; cbn; auto.
  - unfold Handlers.showModelSuggestion. rewrite Hopt.
    unfold Handlers.canSend.
    destruct (Js.truthy _ || _), (Chat.loading s), (String.eqb _ _);
      reflexivity.
  - unfold Handlers.showModelSuggestion.
    change (Handlers.suggestedModel
              (Handlers.setModel (Handlers.suggestedModel s) s))
      with (Handlers.suggestedModel s).
    cbn [Handlers.setModel Chat.model]. rewrite String.eqb_refl.
    cbn [negb]. now rewrite andb_false_r.
Qed.

(** X23.  The guard on [loading] comes after the history is cut: a
    regenerate called while a reply is loading dispatches nothing, yet
    when the history has at least two messages, one of them from the
    user, its last two messages are removed; a plain send called while
    loading changes nothing.  (The regenerate bar is not rendered while
    loading.) *)
Theorem regenerate_while_loading_cuts_history
    (p : Chat.Props) (fr : Chat.Fresh) (e : Chat.Env) (m : IChatMessage.t) :
  Handlers.showApiKeyWarning p = false ->
  Chat.loading (Chat.state e) = true ->
  (2 <= List.length (Chat.messages (Chat.state e)))%nat ->
  In m (Chat.messages (Chat.state e)) -> IChatMessage.role m = user ->
  Chat.sendMessage p true fr e
  = (Chat.onState (Chat.setMessages (Builder.dropLast 2)) e, Chat.NotSent)
  /\ Chat.sendMessage p false fr e = (e, Chat.NotSent)
  /\ Handlers.showRegenerate (Chat.state e) = false.
Proof.
  intros Hkey Hload Hlen Hin Hrole.
  unfold Handlers.showApiKeyWarning in Hkey. apply negb_false_iff in Hkey.
  assert (Hm : Builder.isUserMessage m = true)
    by (unfold Builder.isUserMessage; now rewrite Hrole).
  pose proof (lastUserOf_some _ m Hin Hm) as Hlast.
  split; [|split].
  - unfold Chat.sendMessage. rewrite Hkey. cbn [negb andb]. cbv zeta.
    assert (H2 : (2 <=? Z.of_nat (List.length (Chat.messages (Chat.state e))))
                 = true) by (apply Z.leb_le; lia).
    rewrite H2.
    destruct (Chat.lastUserOf (Chat.messages (Chat.state e))) as [u|];
      [|congruence].
    rewrite andb_false_r, Hload. reflexivity.
  - unfold Chat.sendMessage. rewrite Hkey. cbn [negb andb]. cbv zeta.
    rewrite Hload.
    match goal with
    | |- (if ?c then _ else _) = _ => now destruct c
    end.
  - unfold Handlers.showRegenerate. rewrite Hload. cbn [negb].
    apply andb_false_r.
Qed.

Lemma regenerate_while_loading_cuts_history_witness :
  Chat.sendMessage Sample.localProps true Sample.fresh Sample.streamingEnv
  = (Chat.onState (Chat.setMessages (Builder.dropLast 2)) Sample.streamingEnv,
     Chat.NotSent)
  /\ Chat.sendMessage Sample.localProps false Sample.fresh Sample.streamingEnv
     = (Sample.streamingEnv, Chat.NotSent)
  /\ Handlers.showRegenerate (Chat.state Sample.streamingEnv) = false.
Proof.
  apply (regenerate_while_loading_cuts_history Sample.localProps Sample.fresh
           Sample.streamingEnv Sample.question);
    [reflexivity | reflexivity | apply le_n | now left | reflexivity].
Defined.

(* ----------------------------------------------------------------- *)
(** *** Saving the projects and loading everything, on a library that
    answers *)

Section MountFacts.
Import Js SharePoint.

Lemma saveProjectsToLibrary_healthy projects w :
  healthy w -> sameUser w ->
  exists w1,
    saveProjectsToLibrary projects w = (Ok tt, w1)
    /\ healthy w1 /\ sameUser w1
    /\ fst (getProjectsFromLibrary w1) = Ok projects.
Proof.
  intros Hh Hu.
  set (name := PROJECTS_FILE_PREFIX ++ numberToString (resolvedUser w)
               ++ FILE_EXT).
  set (w1 := withFiles (cached w)
               (putFile name (JsonProjects projects) (files (server w)))).
  assert (Hh1 : healthy w1) by (intros ep; apply Hh).
  assert (Hu1 : sameUser w1) by exact Hu.
  exists w1. split; [|split; [exact Hh1|split; [exact Hu1|]]].
  - unfold saveProjectsToLibrary, bind.
    rewrite getCurrentUserId_result, (healthy_user w Hh).
    rewrite getFolder_result. cbn [server]. rewrite (Hh RootFolder).
    unfold postFile. cbn [server].
    now rewrite (Hh AddFile), String.eqb_refl.
  - rewrite (getProjectsFromLibrary_healthy w1 Hh1 Hu1). cbn [fst].
    change (resolvedUser w1) with (resolvedUser w). fold name.
    cbn [w1 withFiles server files]. now rewrite find_putFile.
Qed.


Lemma sameUser_cached w : sameUser w -> sameUser (cached w).
Proof. intros H. exact H. Qed.


End MountFacts.

(* ----------------------------------------------------------------- *)
(** *** Deleting a chat, adding and renaming a project, a new chat *)

Section SidebarFacts.
Import Js Chat.

Lemma find_filter_head {A : Type} (f : A -> bool) (l : list A) :
  find f l = match filter f l with
             | first :: _ => Some first
             | [] => None
             end.
Proof.
  induction l as [|x l IH]; cbn [find filter]; [reflexivity|].
  now destruct (f x).
Qed.

Lemma notChat_id id c :
  Handlers.notChat id c = true -> IStoredChat.id c <> id.
Proof.
  unfold Handlers.notChat, hasChatId. intros H Heq.
  rewrite Heq, String.eqb_refl in H. discriminate H.
Qed.

Lemma chatsOfCurrent_In cur ls c :
  In c (Handlers.chatsOfCurrent cur ls) -> In c (ChatStorage.getAllChats ls).
Proof.
  unfold Handlers.chatsOfCurrent. destruct cur as [pid|]; [|contradiction].
  unfold ChatStorage.getChatsForProject. rewrite In_sort, filter_In. tauto.
Qed.

End SidebarFacts.

(** X24.  Deleting a chat with the local adapter.  Declining the dialog
    changes nothing.  Otherwise every stored chat with that id is
    removed and the others are kept in order, in [localStorage] and in
    the state, and the sidebar no longer lists the chat.  When the chat
    was not the current one, the selection and the messages on screen
    stay; when it was, the messages are cleared and the selection moves
    to the first remaining stored chat of the current project, if any.
    The projects and the library are untouched. *)
Theorem local_delete_chat
    (p : Chat.Props) (chat : IStoredChat.t) (e : Chat.Env) :
  Chat.useSharePoint p = false ->
  let id := IStoredChat.id chat in
  let kept := filter (Handlers.notChat id)
                     (ChatStorage.getAllChats (Chat.storage e)) in
  let e' := Handlers.handleDeleteChat p chat true e in
  Handlers.handleDeleteChat p chat false e = e
  /\ ChatStorage.getAllChats (Chat.storage e') = kept
  /\ Chat.allChats (Chat.state e') = kept
  /\ (forall c, In c (Chat.chats (Chat.state e')) -> IStoredChat.id c <> id)
  /\ (Handlers.isCurrentChat id (Chat.state e) = false ->
      Chat.currentChatId (Chat.state e') = Chat.currentChatId (Chat.state e)
      /\ Chat.messages (Chat.state e') = Chat.messages (Chat.state e))
  /\ (Handlers.isCurrentChat id (Chat.state e) = true ->
      Chat.messages (Chat.state e') = []
      /\ Chat.currentChatId (Chat.state e')
         = option_map IStoredChat.id
             (find (Handlers.ofCurrentProject (Chat.state e)) kept))
  /\ ChatStorage.getProjects (Chat.storage e')
     = ChatStorage.getProjects (Chat.storage e)
  /\ Chat.world e' = Chat.world e.
Proof.
  intros Hmode id kept e'.
  split; [reflexivity|].
  unfold e', Handlers.handleDeleteChat. cbn [negb]. cbv zeta. rewrite Hmode.
  fold id. fold kept.
  assert (Hsave : ChatStorage.saveAllChats kept (Chat.storage e)
                  = ChatStorage.mkStorage
                      (ChatStorage.KEY_PROJECTS (Chat.storage e))
                      (Some (JsonChats kept))
                      (ChatStorage.KEY_CURRENT_PROJECT (Chat.storage e))
                      (ChatStorage.KEY_CURRENT_CHAT (Chat.storage e))
                      (Z.to_N (ChatStorage.capacity (Chat.storage e)
                               - ChatStorage.sizeOfChats kept)))
    by (apply saveAllChats_fits, fits_filter).
  destruct (Handlers.isCurrentChat id (Chat.state e)) eqn:Ecur.
  - rewrite (find_filter_head (Handlers.ofCurrentProject (Chat.state e)) kept).
    destruct (filter (Handlers.ofCurrentProject (Chat.state e)) kept)
      as [|first rest] eqn:Erest.
    + cbn. rewrite !Hsave. cbn. split; [reflexivity|]. split; [reflexivity|].
      split.
      { intros c Hc. apply chatsOfCurrent_In in Hc. cbn in Hc.
        apply filter_In in Hc. now apply notChat_id. }
      split; [discriminate|]. split; [now auto|]. now auto.
    + cbn. rewrite !Hsave. cbn. split; [reflexivity|]. split; [reflexivity|].
      split.
      { intros c Hc. apply chatsOfCurrent_In in Hc. cbn in Hc.
        apply filter_In in Hc. now apply notChat_id. }
      split; [discriminate|]. split; [now auto|]. now auto.
  - cbn. rewrite !Hsave. cbn. split; [reflexivity|]. split; [reflexivity|].
    split.
    { intros c Hc. apply filter_In in Hc. now apply notChat_id. }
    split; [now auto|]. split; [discriminate|]. now auto.
Qed.

Lemma local_delete_chat_witness :
  let id := IStoredChat.id Sample.chatOne in
  let kept := filter (Handlers.notChat id)
                (ChatStorage.getAllChats (Chat.storage Sample.streamingEnv)) in
  let e' := Handlers.handleDeleteChat Sample.localProps Sample.chatOne true
              Sample.streamingEnv in
  Handlers.handleDeleteChat Sample.localProps Sample.chatOne false
    Sample.streamingEnv = Sample.streamingEnv
  /\ ChatStorage.getAllChats (Chat.storage e') = kept
  /\ Chat.allChats (Chat.state e') = kept
  /\ (forall c, In c (Chat.chats (Chat.state e')) -> IStoredChat.id c <> id)
  /\ (Handlers.isCurrentChat id (Chat.state Sample.streamingEnv) = false ->
      Chat.currentChatId (Chat.state e')
      = Chat.currentChatId (Chat.state Sample.streamingEnv)
      /\ Chat.messages (Chat.state e')
         = Chat.messages (Chat.state Sample.streamingEnv))
  /\ (Handlers.isCurrentChat id (Chat.state Sample.streamingEnv) = true ->
      Chat.messages (Chat.state e') = []
      /\ Chat.currentChatId (Chat.state e')
         = option_map IStoredChat.id
             (find (Handlers.ofCurrentProject (Chat.state Sample.streamingEnv))
                   kept))
  /\ ChatStorage.getProjects (Chat.storage e')
     = ChatStorage.getProjects (Chat.storage Sample.streamingEnv)
  /\ Chat.world e' = Chat.world Sample.streamingEnv.
Proof.
  apply (local_delete_chat Sample.localProps Sample.chatOne
           Sample.streamingEnv).
  reflexivity.
Defined.

(** X25.  Adding a project.  A cancelled dialog or a blank name changes
    nothing.  Otherwise the project is appended under the trimmed name,
    stamped with the time of the call, and selected, with no chat
    selected: the local adapter stores the list at once; with the
    library the state changes only when the save succeeds, and a failed
    save shows its message in the banner and changes nothing else.  On
    a library that answers the save succeeds, and the next load reads
    the extended list. *)
Theorem add_project_appends_and_selects
    (p : Chat.Props) (answer : option string) (newId : string) (now : Z)
    (e : Chat.Env) :
  (Handlers.blank answer = true ->
   Handlers.handleAddProject p answer newId now e = e)
  /\ (forall name, answer = Some name -> Handlers.blank answer = false ->
      let e' := Handlers.handleAddProject p answer newId now e in
      let next := (Chat.projects (Chat.state e)
                   ++ [IProject.mk newId (Js.trim name) (JsDate.isoOfTime now)])%list in
      if Chat.useSharePoint p then
        match SharePoint.saveProjectsToLibrary next (Chat.world e) with
        | (Ok _, w) =>
            Chat.projects (Chat.state e') = next
            /\ Chat.currentProjectId (Chat.state e') = Some newId
            /\ Chat.currentChatId (Chat.state e') = None
            /\ Chat.world e' = w
        | (Throw msg, w) =>
            Chat.state e' = Chat.setError (Some msg) (Chat.state e)
            /\ Chat.storage e' = Chat.storage e
            /\ Chat.world e' = w
        end
      else
        Chat.projects (Chat.state e') = next
        /\ ChatStorage.getProjects (Chat.storage e') = next
        /\ Chat.currentProjectId (Chat.state e') = Some newId
        /\ Chat.currentChatId (Chat.state e') = None
        /\ ChatStorage.getAllChats (Chat.storage e')
           = ChatStorage.getAllChats (Chat.storage e)
        /\ Chat.world e' = Chat.world e)
  /\ (forall name, answer = Some name -> Handlers.blank answer = false ->
      Chat.useSharePoint p = true ->
      SharePoint.healthy (Chat.world e) -> SharePoint.sameUser (Chat.world e) ->
      let e' := Handlers.handleAddProject p answer newId now e in
      let next := (Chat.projects (Chat.state e)
                   ++ [IProject.mk newId (Js.trim name) (JsDate.isoOfTime now)])%list in
      Chat.projects (Chat.state e') = next
      /\ Chat.currentProjectId (Chat.state e') = Some newId
      /\ fst (SharePoint.getProjectsFromLibrary (Chat.world e')) = Ok next).
Proof.
  split; [|split].
  - intros Hblank. unfold Handlers.handleAddProject.
    destruct answer as [name|]; [|reflexivity]. now rewrite Hblank.
  - intros name -> Hblank. cbv zeta. unfold Handlers.handleAddProject.
    rewrite Hblank. cbv zeta.
    destruct (Chat.useSharePoint p).
    + unfold Handlers.awaitEnv.
      destruct (SharePoint.saveProjectsToLibrary _ (Chat.world e))
        as [[u|msg] w]; cbn; auto.
    + cbn. repeat split; reflexivity.
  - intros name -> Hblank Hmode Hh Hu. cbv zeta.
    unfold Handlers.handleAddProject. rewrite Hblank, Hmode. cbv zeta.
    match goal with
    | |- context [SharePoint.saveProjectsToLibrary ?l] =>
        destruct (saveProjectsToLibrary_healthy l (Chat.world e) Hh Hu)
          as (w1 & Hsave & _ & _ & Hread)
    end.
    unfold Handlers.awaitEnv. rewrite Hsave. cbn.
    split; [reflexivity|]. split; [reflexivity | exact Hread].
Qed.

Lemma add_project_appends_and_selects_witness :
  let e' := Handlers.handleAddProject Sample.localProps (Some " Travel ")
              "p-travel" 1700000001000 Sample.idleEnv in
  map IProject.name (Chat.projects (Chat.state e')) = ["Default"; "Travel"]
  /\ ChatStorage.getProjects (Chat.storage e') = Chat.projects (Chat.state e')
  /\ Chat.currentProjectId (Chat.state e') = Some "p-travel".
Proof.
  destruct (add_project_appends_and_selects Sample.localProps
              (Some " Travel ") "p-travel" 1700000001000 Sample.idleEnv)
    as (_ & H & _).
  destruct (H " Travel " eq_refl eq_refl) as (H1 & H2 & H3 & _).
  cbv zeta. rewrite H2, H1, H3. repeat split; reflexivity.
Defined.

(** X26.  Renaming a project.  A cancelled dialog, a blank name or the
    unchanged name changes nothing.  Otherwise, with the local adapter,
    the projects keep their number, order, ids and creation stamps;
    those with the id of the renamed project get the trimmed name, the
    others keep theirs; the list is stored, and the selection, the chats
    and the library are untouched. *)
Theorem rename_project_changes_only_the_name
    (p : Chat.Props) (proj : IProject.t) (answer : option string)
    (e : Chat.Env) :
  (Handlers.blank answer = true ->
   Handlers.handleRenameProject p proj answer e = e)
  /\ (answer = Some (IProject.name proj) ->
      Handlers.handleRenameProject p proj answer e = e)
  /\ (forall name, answer = Some name -> Handlers.blank answer = false ->
      name <> IProject.name proj -> Chat.useSharePoint p = false ->
      let e' := Handlers.handleRenameProject p proj answer e in
      let before := Chat.projects (Chat.state e) in
      let after := Chat.projects (Chat.state e') in
      map IProject.id after = map IProject.id before
      /\ map IProject.createdAt after = map IProject.createdAt before
      /\ (forall x, In x after ->
            if String.eqb (IProject.id x) (IProject.id proj)
            then IProject.name x = Js.trim name
            else In x before)
      /\ ChatStorage.getProjects (Chat.storage e') = after
      /\ Chat.currentProjectId (Chat.state e')
         = Chat.currentProjectId (Chat.state e)
      /\ Chat.currentChatId (Chat.state e') = Chat.currentChatId (Chat.state e)
      /\ ChatStorage.getAllChats (Chat.storage e')
         = ChatStorage.getAllChats (Chat.storage e)
      /\ Chat.world e' = Chat.world e).
Proof.
  split; [|split].
  - intros Hblank. unfold Handlers.handleRenameProject.
    destruct answer as [name|]; [|reflexivity]. now rewrite Hblank.
  - intros ->. unfold Handlers.handleRenameProject.
    now rewrite String.eqb_refl, orb_true_r.
  - intros name -> Hblank Hname Hmode. cbv zeta.
    unfold Handlers.handleRenameProject. rewrite Hblank, Hmode.
    apply String.eqb_neq in Hname. rewrite Hname. cbn [orb]. cbv zeta.
    cbn [Chat.state Chat.storage Chat.world Chat.onState Chat.onStorage
         Chat.setProjects Chat.projects Chat.currentProjectId
         Chat.currentChatId ChatStorage.getProjects ChatStorage.saveProjects
         ChatStorage.KEY_PROJECTS ChatStorage.getAllChats
         ChatStorage.KEY_CHATS].
    split.
    { rewrite map_map. apply map_ext. intros x.
      now destruct (String.eqb (IProject.id x) (IProject.id proj)). }
    split.
    { rewrite map_map. apply map_ext. intros x.
      now destruct (String.eqb (IProject.id x) (IProject.id proj)). }
    split; [|repeat split; reflexivity].
    intros x Hx. apply in_map_iff in Hx. destruct Hx as (y & Hy & Hin).
    destruct (String.eqb (IProject.id y) (IProject.id proj)) eqn:Ey;
      subst x; cbn [Handlers.withName IProject.id IProject.name];
      now rewrite Ey.
Qed.

Lemma rename_project_changes_only_the_name_witness :
  let e' := Handlers.handleRenameProject Sample.localProps Sample.projectOne
              (Some " Work ") Sample.idleEnv in
  map IProject.id (Chat.projects (Chat.state e'))
  = map IProject.id (Chat.projects (Chat.state Sample.idleEnv))
  /\ map IProject.name (Chat.projects (Chat.state e')) = ["Work"]
  /\ ChatStorage.getProjects (Chat.storage e') = Chat.projects (Chat.state e').
Proof.
  destruct (rename_project_changes_only_the_name Sample.localProps
              Sample.projectOne (Some " Work ") Sample.idleEnv)
    as (_ & _ & H).
  assert (Hne : " Work " <> IProject.name Sample.projectOne) by discriminate.
  destruct (H " Work " eq_refl eq_refl Hne eq_refl) as (H1 & _ & _ & H4 & _).
  cbv zeta. split; [exact H1|]. split; [reflexivity | exact H4].
Defined.



(* ----------------------------------------------------------------- *)
(** *** Mounting on a library *)



(* ----------------------------------------------------------------- *)
(** *** Which files are read as text *)

Section ExtensionFacts.
Import Js Extractor.

Lemma toLowerCase_append a b :
  toLowerCase (a ++ b) = toLowerCase a ++ toLowerCase b.
Proof. induction a as [|c a IH]; cbn; [reflexivity | now rewrite IH]. Qed.

Lemma prefix_dot s :
  String.prefix "." s = true -> includes s "." = true.
Proof. intros H. rewrite includes_unfold, H. reflexivity. Qed.

Lemma lastIndexOfFrom_none s : forall i,
  includes s "." = false -> lastIndexOfFrom s "." i = -1.
Proof.
  induction s as [|c s IH]; intros i H; cbn [lastIndexOfFrom].
  - reflexivity.
  - rewrite includes_unfold in H. apply orb_false_iff in H.
    destruct H as [Hp Hs]. rewrite (IH (i + 1) Hs), Hp. reflexivity.
Qed.

Lemma lastIndexOfFrom_ext base ext : forall i,
  0 <= i -> Handlers.plainExtension ext = true ->
  lastIndexOfFrom (base ++ ext) "." i = i + strlen base.
Proof.
  induction base as [|c base IH]; intros i Hi Hext.
  - destruct ext as [|d rest]; [discriminate Hext|].
    cbn [Handlers.plainExtension] in Hext. apply andb_true_iff in Hext.
    destruct Hext as [Hd Hrest]. apply Ascii.eqb_eq in Hd. subst d.
    apply negb_true_iff in Hrest.
    cbn [append lastIndexOfFrom]. rewrite (lastIndexOfFrom_none rest _ Hrest).
    cbn. destruct rest; unfold strlen; cbn; lia.
  - cbn [append lastIndexOfFrom]. rewrite (IH (i + 1)) by (lia || exact Hext).
    pose proof (strlen_nonneg base) as Hb.
    destruct (i + 1 + strlen base <? 0) eqn:E; [apply Z.ltb_lt in E; lia|].
    unfold strlen. cbn [String.length]. lia.
Qed.

Lemma substring_skip base ext :
  substring (String.length base) (String.length ext) (base ++ ext) = ext.
Proof.
  induction base as [|c base IH]; cbn [String.length append substring].
  - induction ext as [|d ext IHe]; cbn; [reflexivity | now rewrite IHe].
  - exact IH.
Qed.

Lemma sliceFrom_ext base ext :
  sliceFrom (base ++ ext) (strlen base) = ext.
Proof.
  unfold sliceFrom, slice, relIndex. rewrite strlen_append.
  pose proof (strlen_nonneg base) as Hb. pose proof (strlen_nonneg ext) as He.
  destruct (strlen base <? 0) eqn:E1; [apply Z.ltb_lt in E1; lia|].
  destruct (strlen base + strlen ext <? 0) eqn:E2;
    [apply Z.ltb_lt in E2; lia|].
  rewrite Z.min_l, Z.min_l by lia.
  replace (strlen base + strlen ext - strlen base) with (strlen ext) by lia.
  rewrite Z.max_l by lia. unfold strlen. rewrite !Nat2Z.id.
  apply substring_skip.
Qed.

Lemma textExtensions_plain :
  forallb Handlers.plainExtension textExtensions = true.
Proof. reflexivity. Qed.

End ExtensionFacts.

(** X29.  A file is taken for a text file by its extension alone,
    whatever its type and whatever the case of its name: when the name
    ends in one of the listed extensions, [isLikelyTextFile] holds and
    the icon of the file is not the generic one.  Only the part from the
    last dot on counts, so other dots in the name do not matter.  When
    such a file is not an image and within the size limit, and the text
    budget of the batch is not used up, the loop of the extractor
    attaches it with a text, or with the error of the decoder, never by
    its name only. *)
Theorem text_file_by_extension (f : File.t) (base ext : string) :
  File.name f = base ++ ext ->
  In (Js.toLowerCase ext) Extractor.textExtensions ->
  Extractor.isLikelyTextFile f = true
  /\ Extractor.Thumb.getFileThumbType f <> Extractor.Thumb.generic
  /\ (forall list totalChars,
        Extractor.isImageFile f = false ->
        File.size f <= Extractor.MAX_FILE_SIZE_MB * 1024 * 1024 ->
        totalChars < Extractor.MAX_TOTAL_TEXT_CHARS ->
        exists a total,
          Extractor.step f (list, totalChars) = ((list ++ [a])%list, total)
          /\ IChatAttachment.file a = f
          /\ IChatAttachment.dataUrl a = None
          /\ (IChatAttachment.textContent a <> None
              \/ IChatAttachment.extractionError a <> None)).
Proof.
  intros Hname Hext.
  assert (Hplain : Handlers.plainExtension (Js.toLowerCase ext) = true).
  { pose proof textExtensions_plain as H. rewrite forallb_forall in H.
    now apply H. }
  assert (Htext : Extractor.isLikelyTextFile f = true).
  { unfold Extractor.isLikelyTextFile. cbv zeta.
    destruct (_ || _ || _ || _ || _); [reflexivity|].
    rewrite Hname, toLowerCase_append. unfold Js.lastIndexOf.
    rewrite lastIndexOfFrom_ext by (lia || exact Hplain).
    rewrite Z.add_0_l, sliceFrom_ext.
    apply existsb_exists. exists (Js.toLowerCase ext).
    split; [exact Hext | apply String.eqb_refl]. }
  split; [exact Htext|]. split.
  - unfold Extractor.Thumb.getFileThumbType. rewrite Htext.
    destruct (Extractor.isPdfFile f), (Extractor.isDocxFile f),
      (Extractor.isXlsxFile f); discriminate.
  - intros list totalChars Himg Hsize Hroom.
    unfold Extractor.step. rewrite Himg.
    assert (Hs : (File.size f >? Extractor.MAX_FILE_SIZE_MB * 1024 * 1024)
                 = false) by (rewrite Z.gtb_ltb; apply Z.ltb_ge; exact Hsize).
    rewrite Hs.
    assert (Hd : exists decoded,
               Extractor.decoderFor f totalChars = Some decoded).
    { unfold Extractor.decoderFor. cbv zeta.
      assert (Hr : (totalChars <? Extractor.MAX_TOTAL_TEXT_CHARS) = true)
        by (now apply Z.ltb_lt).
      rewrite Hr, Htext, !andb_true_r.
      destruct (Extractor.isPdfFile f), (Extractor.isDocxFile f),
        (Extractor.isXlsxFile f); eauto. }
    destruct Hd as (decoded & ->). unfold Extractor.pushText.
    destruct decoded as [text|msg]; eexists _, _;
      (split; [reflexivity|]); (split; [reflexivity|]);
      (split; [reflexivity|]); [left | right]; discriminate.
Qed.

Lemma text_file_by_extension_witness :
  Extractor.isLikelyTextFile Scenario.notes = true
  /\ Extractor.Thumb.getFileThumbType Scenario.notes
     <> Extractor.Thumb.generic
  /\ Extractor.step Scenario.notes ([], 0)
     = ([IChatAttachment.mk Scenario.notes None (Some "remember") None], 8).
Proof.
  destruct (text_file_by_extension Scenario.notes "Notes.v2" ".TXT")
    as (H1 & H2 & _).
  - reflexivity.
  - now left.
  - split; [exact H1|]. split; [exact H2 | reflexivity].
Defined.

(* ----------------------------------------------------------------- *)
(** *** The text of a user turn *)

Section MessageTextFacts.
Import Js Builder.

Lemma prefix_refl (s : string) : String.prefix s s = true.
Proof. rewrite <- (str_app_nil_r s) at 2. apply prefix_append. Qed.

Lemma prefix_nil (s : string) : String.prefix "" s = true.
Proof. now destruct s. Qed.

Lemma includes_refl (s : string) : includes s s = true.
Proof. rewrite includes_unfold, prefix_refl. reflexivity. Qed.

Lemma includes_join sep x xs :
  In x xs -> includes (join sep xs) x = true.
Proof.
  induction xs as [|y xs IH]; [contradiction|].
  intros [->|Hin].
  - destruct xs as [|z xs]; cbn [join];
      [apply includes_refl | apply includes_prefix].
  - destruct xs as [|z xs]; [contradiction|].
    change (join sep (y :: z :: xs)) with (y ++ sep ++ join sep (z :: xs)).
    now apply includes_append_l, includes_append_l, IH.
Qed.

Lemma truthy_append_l (a b : string) : truthy a = true -> truthy (a ++ b) = true.
Proof. now destruct a. Qed.

End MessageTextFacts.

(** X30.  The text of a user turn is never empty; it starts with what
    the user typed; it contains the block of every extracted file (its
    name between dashes, a line feed, its text) and the name of every
    file whose content was not extracted; and with no file at all it is
    what the user typed, or [(No content)] when that is empty. *)
Theorem message_text_carries_everything
    (userText : string) (fileTexts : list FileText.t)
    (otherFileNames : option (list string)) :
  let t := Builder.buildMessageText userText fileTexts otherFileNames in
  Js.truthy t = true
  /\ (Js.truthy userText = true -> String.prefix userText t = true)
  /\ (forall f, In f fileTexts -> Js.includes t (Builder.fileBlock f) = true)
  /\ (forall n, In n (Builder.orEmpty otherFileNames) ->
        Js.includes t n = true)
  /\ (fileTexts = [] -> Builder.present otherFileNames = false ->
      t = Js.orElse userText "(No content)").
Proof.
  cbv zeta. unfold Builder.buildMessageText. cbv zeta.
  set (withFiles :=
         match fileTexts with
         | [] => userText
         | _ :: _ => _
         end).
  assert (Hpre : Js.truthy userText = true ->
                 String.prefix userText withFiles = true).
  { intros Hu. unfold withFiles. destruct fileTexts as [|f fts];
      [apply prefix_refl|]. rewrite Hu. apply prefix_append. }
  assert (Hblocks : forall f, In f fileTexts ->
            Js.includes withFiles (Builder.fileBlock f) = true).
  { intros f Hin. unfold withFiles. destruct fileTexts as [|f0 fts];
      [contradiction|].
    assert (Hj : Js.includes
                   (Js.join (Js.LF ++ Js.LF)
                      (map Builder.fileBlock (f0 :: fts)))
                   (Builder.fileBlock f) = true)
      by (apply includes_join, in_map, Hin).
    destruct (Js.truthy userText).
    - do 6 apply includes_append_l. exact Hj.
    - do 3 apply includes_append_l. exact Hj. }
  assert (Hfiles : fileTexts <> [] -> Js.truthy withFiles = true).
  { intros Hne. unfold withFiles. destruct fileTexts as [|f0 fts];
      [congruence|].
    destruct (Js.truthy userText) eqn:Hu; [|reflexivity].
    now apply truthy_append_l. }
  assert (Hplain : fileTexts = [] -> withFiles = userText)
    by (intros ->; reflexivity).
  clearbody withFiles.
  destruct otherFileNames as [[|n names]|]; cbn [Builder.orEmpty Builder.present].
  - (* an empty list of names *)
    unfold Js.orElse. destruct (Js.truthy withFiles) eqn:Hw.
    + split; [exact Hw|]. split; [exact Hpre|]. split; [exact Hblocks|].
      split; [intros ? []|]. intros Hf _. rewrite (Hplain Hf) in *.
      now rewrite Hw.
    + split; [reflexivity|]. split.
      { intros Hu. specialize (Hpre Hu). destruct withFiles;
          [now destruct userText | discriminate Hw]. }
      split.
      { intros f Hin. specialize (Hblocks f Hin).
        destruct withFiles; [|discriminate Hw].
        unfold Builder.fileBlock in Hblocks. discriminate Hblocks. }
      split; [intros ? []|]. intros Hf _. rewrite (Hplain Hf) in *.
      now rewrite Hw.
  - (* names of unextracted files *)
    set (tail := "(Also attached; content not extracted: "
                 ++ Js.join ", " (n :: names) ++ ")").
    assert (Hn : forall x, In x (n :: names) -> Js.includes tail x = true).
    { intros x Hx. unfold tail. apply includes_append_l, includes_append_r.
      now apply includes_join. }
    unfold Js.orElse. destruct (Js.truthy withFiles) eqn:Hw.
    + assert (Ht : Js.truthy ((withFiles ++ Js.LF ++ Js.LF) ++ tail) = true)
        by (apply truthy_append_l, truthy_append_l, Hw).
      rewrite Ht.
      split; [exact Ht|]. split.
      { intros Hu. now apply prefix_append_r, prefix_append_r, Hpre. }
      split.
      { intros f Hin. now apply includes_append_r, includes_append_r, Hblocks. }
      split; [|discriminate].
      intros x Hx. now apply includes_append_l, Hn.
    + cbn [append]. assert (Ht : Js.truthy tail = true) by reflexivity.
      rewrite Ht. split; [reflexivity|]. split.
      { intros Hu. specialize (Hpre Hu). destruct withFiles;
          [|discriminate Hw]. destruct userText; [discriminate Hu|].
          discriminate Hpre. }
      split.
      { intros f Hin. specialize (Hblocks f Hin).
        destruct withFiles; [|discriminate Hw].
        unfold Builder.fileBlock in Hblocks. discriminate Hblocks. }
      split; [exact Hn | discriminate].
  - (* no list of names *)
    unfold Js.orElse. destruct (Js.truthy withFiles) eqn:Hw.
    + split; [exact Hw|]. split; [exact Hpre|]. split; [exact Hblocks|].
      split; [intros ? []|]. intros Hf _. rewrite (Hplain Hf) in *.
      now rewrite Hw.
    + split; [reflexivity|]. split.
      { intros Hu. specialize (Hpre Hu). destruct withFiles;
          [now destruct userText | discriminate Hw]. }
      split.
      { intros f Hin. specialize (Hblocks f Hin).
        destruct withFiles; [|discriminate Hw].
        unfold Builder.fileBlock in Hblocks. discriminate Hblocks. }
      split; [intros ? []|]. intros Hf _. rewrite (Hplain Hf) in *.
      now rewrite Hw.
Qed.

Lemma message_text_carries_everything_witness :
  let t := Builder.buildMessageText "Summarise"
             [FileText.mk "a.txt" "hello"] (Some ["b.bin"]) in
  Js.truthy t = true
  /\ String.prefix "Summarise" t = true
  /\ Js.includes t (Builder.fileBlock (FileText.mk "a.txt" "hello")) = true
  /\ Js.includes t "b.bin" = true.
Proof.
  destruct (message_text_carries_everything "Summarise"
              [FileText.mk "a.txt" "hello"] (Some ["b.bin"]))
    as (H1 & H2 & H3 & H4 & _).
  cbv zeta. split; [exact H1|]. split; [exact (H2 eq_refl)|].
  split; [apply H3; now left | apply H4; now left].
Defined.
